(** * TodoApp backend: authentication, identity resolution and task ownership

    A shallow embedding of the FastAPI backend
    ([src/api/auth.py], [src/api/tasks.py], [src/utils/jwt.py],
    [src/utils/sanitization.py], [src/schemas/*.py],
    [src/middleware/error_handler.py]) together with the properties the
    design document states about it.

    Conventions of the embedding:
    - Python [int] is [Z]; Python [str] is [string], whose characters are
      read as the code points U+0000..U+00FF;
    - a Python [dict] (JSON object, token payload) is a [gmap string jvalue];
    - the two database tables are finite maps from the primary key to the
      remaining columns of the row;
    - an endpoint is a function from the store to an outcome and the store
      after the request; a raised exception is an outcome;
    - calls to [logger] have no effect on outcomes or on the store and are
      left out. *)

From Stdlib Require Import ZArith Lia Bool Ascii String List.
From stdpp Require Import base option list strings pretty sorting gmap fin_maps.

Local Open Scope string_scope.
Local Open Scope Z_scope.

(** ** Python string primitives *)

Module PyStr.

(** [str.isspace] on one character of the range U+0000..U+00FF:
    TAB, LF, VT, FF, CR, FS, GS, RS, US, SPACE, NEL and NBSP. *)
Definition isspace (c : ascii) : bool :=
  let n := N_of_ascii c in
  ((9 <=? n) && (n <=? 13) || (28 <=? n) && (n <=? 32)
   || (n =? 133) || (n =? 160))%N.

Definition is_empty (s : string) : bool :=
  match s with EmptyString => true | String _ _ => false end.

Fixpoint lstrip (s : string) : string :=
  match s with
  | EmptyString => EmptyString
  | String c s' => if isspace c then lstrip s' else s
  end.

Fixpoint rstrip (s : string) : string :=
  match s with
  | EmptyString => EmptyString
  | String c s' =>
      let r := rstrip s' in
      if isspace c && is_empty r then EmptyString else String c r
  end.

(** [s.strip()] *)
Definition strip (s : string) : string := rstrip (lstrip s).

(** [str.lower] on one character of the range U+0000..U+00FF: the ASCII
    capitals and the Latin-1 capitals U+00C0..U+00DE without U+00D7. *)
Definition lower_char (c : ascii) : ascii :=
  let n := N_of_ascii c in
  if ((65 <=? n) && (n <=? 90)
      || (192 <=? n) && (n <=? 222) && negb (n =? 215))%N
  then ascii_of_N (n + 32) else c.

(** [s.lower()] *)
Fixpoint lower (s : string) : string :=
  match s with
  | EmptyString => EmptyString
  | String c s' => String (lower_char c) (lower s')
  end.

(** [s.replace(c, r)] for a one-character pattern [c]. *)
Fixpoint replace (c : ascii) (r : string) (s : string) : string :=
  match s with
  | EmptyString => EmptyString
  | String d s' =>
      if Ascii.eqb d c then r ++ replace c r s' else String d (replace c r s')
  end.

(** [len(s)] *)
Definition len (s : string) : Z := Z.of_nat (String.length s).

(** [c in s] for a character [c]. *)
Fixpoint contains (c : ascii) (s : string) : bool :=
  match s with
  | EmptyString => false
  | String d s' => Ascii.eqb d c || contains c s'
  end.

(** [str(n)] for an [int]: an optional minus sign and the decimal digits
    without leading zeros. *)
Definition str (n : Z) : string := pretty n.

Definition digit (c : ascii) : option Z :=
  let n := N_of_ascii c in
  if ((48 <=? n) && (n <=? 57))%N then Some (Z.of_N n - 48) else None.

(** The digit part of a decimal literal as [int(s)] accepts it: a
    non-empty run of digits in which single underscores may separate
    digits. [prev] tells whether the previous character was a digit. *)
Fixpoint digits (acc : Z) (prev : bool) (s : string) : option Z :=
  match s with
  | EmptyString => if prev then Some acc else None
  | String c s' =>
      match digit c with
      | Some d => digits (10 * acc + d) true s'
      | None =>
          if Ascii.eqb c "_" && prev then digits acc false s' else None
      end
  end.

(** The blanks that [int] skips around a literal. They are fewer than
    those of [str.strip]: the ASCII blanks TAB, LF, VT, FF, CR and SPACE,
    and NEL and NBSP, which [int] first rewrites to a space. The
    separators FS, GS, RS and US are below U+007F, are left as they are,
    and make the literal invalid. *)
Definition int_isspace (c : ascii) : bool :=
  let n := N_of_ascii c in
  ((9 <=? n) && (n <=? 13) || (n =? 32) || (n =? 133) || (n =? 160))%N.

Fixpoint int_lstrip (s : string) : string :=
  match s with
  | EmptyString => EmptyString
  | String c s' => if int_isspace c then int_lstrip s' else s
  end.

Fixpoint int_rstrip (s : string) : string :=
  match s with
  | EmptyString => EmptyString
  | String c s' =>
      let r := int_rstrip s' in
      if int_isspace c && is_empty r then EmptyString else String c r
  end.

(** [int(s)] for a [str]: the blanks around the literal are dropped, one
    sign is allowed; [None] stands for the [ValueError] that [int] raises.
    The interpreter's optional bound on the number of digits of a literal
    (4300 by default, from Python 3.11 on) is not modelled: the literals
    read here are the decimal forms of database keys. *)
Definition int (s : string) : option Z :=
  match int_rstrip (int_lstrip s) with
  | String "+" r => digits 0 false r
  | String "-" r => Z.opp <$> digits 0 false r
  | r => digits 0 false r
  end.

End PyStr.

(** [html.escape(s, quote=True)] of the standard library: five successive
    replacements, the ampersand first. *)
Definition html_escape (s : string) : string :=
  let s := PyStr.replace "&" "&amp;" s in
  let s := PyStr.replace "<" "&lt;" s in
  let s := PyStr.replace ">" "&gt;" s in
  let s := PyStr.replace (ascii_of_N 34) "&quot;" s in
  PyStr.replace "'" "&#x27;" s.


(** ** [src/utils/sanitization.py] *)

(** [sanitize_string]: the empty string is returned as it is; otherwise the
    value is stripped, HTML-escaped, and its null bytes are removed. *)
Definition sanitize_string (value : string) : string :=
  if PyStr.is_empty value then value
  else
    let sanitized := html_escape (PyStr.strip value) in
    let sanitized := PyStr.replace zero EmptyString sanitized in
    sanitized.

(** The pattern of [sanitize_email],
    [^[a-zA-Z0-9._%+-]+@[a-zA-Z0-9.-]+\.[a-zA-Z]{2,}$], as a matcher. *)
Module EmailPattern.

Definition in_range (lo hi : N) (c : ascii) : bool :=
  let n := N_of_ascii c in ((lo <=? n) && (n <=? hi))%N.

Definition alpha (c : ascii) : bool := in_range 97 122 c || in_range 65 90 c.

Definition alnum (c : ascii) : bool := alpha c || in_range 48 57 c.

Definition local_class (c : ascii) : bool :=
  alnum c || Ascii.eqb c "." || Ascii.eqb c "_" || Ascii.eqb c "%"
  || Ascii.eqb c "+" || Ascii.eqb c "-".

Definition domain_class (c : ascii) : bool :=
  alnum c || Ascii.eqb c "." || Ascii.eqb c "-".

(** [[a-zA-Z]{2,}$]: [n] letters have been read; the dollar also matches
    before one final line feed. *)
Fixpoint tld (n : nat) (s : string) : bool :=
  match s with
  | EmptyString => Nat.leb 2 n
  | String c s' =>
      if alpha c then tld (S n) s'
      else Ascii.eqb c (ascii_of_N 10) && PyStr.is_empty s' && Nat.leb 2 n
  end.

(** [[a-zA-Z0-9.-]+\.[a-zA-Z]{2,}$]: [seen] tells whether the class has
    matched at least one character. *)
Fixpoint domain (seen : bool) (s : string) : bool :=
  match s with
  | EmptyString => false
  | String c s' =>
      (Ascii.eqb c "." && seen && tld 0 s')
      || (domain_class c && domain true s')
  end.

Fixpoint local (seen : bool) (s : string) : bool :=
  match s with
  | EmptyString => false
  | String c s' =>
      if Ascii.eqb c "@" then seen && domain false s'
      else local_class c && local true s'
  end.

Definition re_match (s : string) : bool := local false s.

End EmailPattern.

(** [sanitize_email]: strip, lowercase, remove null bytes. The pattern only
    selects between two branches that return the same value. *)
Definition sanitize_email (email : string) : string :=
  if PyStr.is_empty email then email
  else
    let sanitized := PyStr.lower (PyStr.strip email) in
    let sanitized := PyStr.replace zero EmptyString sanitized in
    if negb (EmailPattern.re_match sanitized) then sanitized else sanitized.

(** ** JSON values, exceptions and responses *)

(** The JSON values the schemas and the token payload distinguish. Numbers
    with a fraction, arrays and nested objects are accepted by no field of
    this application and are left out. *)
Inductive jvalue : Type :=
| JNull
| JBool (b : bool)
| JInt (n : Z)
| JStr (s : string).

#[global] Instance jvalue_eq_dec : EqDecision jvalue.
Proof. solve_decision. Defined.

(** The exceptions of the application. [HTTPException] carries what the
    source passes to it; the others are raised by FastAPI (body
    validation), by Python ([int]), by SQLAlchemy ([scalar_one_or_none]) and
    by python-jose. In python-jose [JWTClaimsError] and
    [ExpiredSignatureError] are subclasses of [JWTError]; the order of the
    [except] clauses of [decode_token] resolves the overlap. *)
Inductive exn : Type :=
| HTTPException (status_code : Z) (detail : string)
    (headers : list (string * string))
| RequestValidationError
| ValueError
| TypeError
| MultipleResultsFound
| JWSError
| JWTError
| JWTClaimsError
| ExpiredSignatureError.

#[global] Instance exn_eq_dec : EqDecision exn.
Proof. solve_decision. Defined.

Inductive result (A : Type) : Type :=
| Ok (a : A)
| Raise (e : exn).
Arguments Ok {A} a.
Arguments Raise {A} e.

#[global] Instance result_fmap : FMap result :=
  λ A B f r, match r with Ok a => Ok (f a) | Raise e => Raise e end.

Definition HTTP_400_BAD_REQUEST : Z := 400.
Definition HTTP_401_UNAUTHORIZED : Z := 401.
Definition HTTP_403_FORBIDDEN : Z := 403.
Definition HTTP_404_NOT_FOUND : Z := 404.
Definition HTTP_422_UNPROCESSABLE_ENTITY : Z := 422.
Definition HTTP_500_INTERNAL_SERVER_ERROR : Z := 500.

Definition www_authenticate : list (string * string) :=
  [("WWW-Authenticate", "Bearer")].

(** [src/middleware/error_handler.py], as [main.py] registers the handlers:
    the body that the client sees for a raised exception. *)
Module ErrorHandler.

Record JSONResponse : Type := {
  status_code : Z;
  error_type : string;
  message : string
}.

Definition http_exception_handler (status : Z) (detail : string)
  : JSONResponse :=
  {| status_code := status; error_type := "http_error"; message := detail |}.

Definition validation_exception_handler : JSONResponse :=
  {| status_code := HTTP_422_UNPROCESSABLE_ENTITY;
     error_type := "validation_error";
     message := "Validation failed" |}.

Definition general_exception_handler : JSONResponse :=
  {| status_code := HTTP_500_INTERNAL_SERVER_ERROR;
     error_type := "internal_error";
     message := "An unexpected error occurred. Please try again later." |}.

Definition handle (e : exn) : JSONResponse :=
  match e with
  | HTTPException status detail _ => http_exception_handler status detail
  | RequestValidationError => validation_exception_handler
  | ValueError | TypeError | MultipleResultsFound
  | JWSError | JWTError | JWTClaimsError | ExpiredSignatureError =>
      general_exception_handler
  end.

End ErrorHandler.

(** [int(v)] on a JSON value: [int(None)] raises [TypeError], an
    unparseable string raises [ValueError]. *)
Definition py_int (v : jvalue) : result Z :=
  match v with
  | JNull => Raise TypeError
  | JBool b => Ok (if b then 1 else 0)
  | JInt n => Ok n
  | JStr s =>
      match PyStr.int s with
      | Some n => Ok n
      | None => Raise ValueError
      end
  end.

(** ** The token library (python-jose), symbolically

    A bearer string either fails to parse as a JWS (three base64url
    segments with a JSON header and a JSON object as payload), or it is a
    payload signed under some algorithm with some key. The HMAC family is
    modelled: a signature verifies exactly when algorithm and key agree.
    Time is counted in whole seconds, which is the precision of the [exp]
    claim. *)
Module Jose.

Inductive token : Type :=
| Garbage (raw : string)
| Signed (alg : string) (key : string) (claims : gmap string jvalue).

Definition SUPPORTED : list string := ["HS256"; "HS384"; "HS512"].

(** [jwt.encode(claims, key, algorithm)] *)
Definition encode (claims : gmap string jvalue) (key : string)
    (algorithm : string) : result token :=
  if bool_decide (algorithm ∈ SUPPORTED)
  then Ok (Signed algorithm key claims)
  else Raise JWSError.

(** A time-valued claim must convert with [int]; the library turns the
    [ValueError] into a [JWTClaimsError]. *)
Definition int_claim (v : jvalue) : result Z :=
  match py_int v with
  | Raise ValueError => Raise JWTClaimsError
  | r => r
  end.

Definition validate_iat (claims : gmap string jvalue) : result unit :=
  match claims !! "iat" with
  | None => Ok tt
  | Some v => match int_claim v with Ok _ => Ok tt | Raise e => Raise e end
  end.

Definition validate_nbf (claims : gmap string jvalue) (now : Z)
  : result unit :=
  match claims !! "nbf" with
  | None => Ok tt
  | Some v =>
      match int_claim v with
      | Ok nbf => if now <? nbf then Raise JWTClaimsError else Ok tt
      | Raise e => Raise e
      end
  end.

Definition validate_exp (claims : gmap string jvalue) (now : Z)
  : result unit :=
  match claims !! "exp" with
  | None => Ok tt
  | Some v =>
      match int_claim v with
      | Ok exp => if exp <? now then Raise ExpiredSignatureError else Ok tt
      | Raise e => Raise e
      end
  end.

(** No audience is passed by [decode_token], so an [aud] claim never
    matches; likewise no access token for [at_hash]. *)
Definition validate_absent (name : string) (claims : gmap string jvalue)
  : result unit :=
  match claims !! name with
  | None => Ok tt
  | Some _ => Raise JWTClaimsError
  end.

(** [sub] and [jti], when present, must be strings. *)
Definition validate_str (name : string) (claims : gmap string jvalue)
  : result unit :=
  match claims !! name with
  | None | Some (JStr _) => Ok tt
  | Some _ => Raise JWTClaimsError
  end.

Definition seq_unit (r : result unit) (k : result unit) : result unit :=
  match r with Ok _ => k | Raise e => Raise e end.

Definition validate_claims (claims : gmap string jvalue) (now : Z)
  : result unit :=
  seq_unit (validate_iat claims)
  (seq_unit (validate_nbf claims now)
  (seq_unit (validate_exp claims now)
  (seq_unit (validate_absent "aud" claims)
  (seq_unit (validate_str "sub" claims)
  (seq_unit (validate_str "jti" claims)
            (validate_absent "at_hash" claims)))))).

(** [jwt.decode(token, key, algorithms=algorithms)] at time [now]: every
    failure of the JWS layer (structure, algorithm not allowed, signature)
    is a plain [JWTError]. *)
Definition decode (t : token) (key : string) (algorithms : list string)
    (now : Z) : result (gmap string jvalue) :=
  match t with
  | Garbage _ => Raise JWTError
  | Signed alg k claims =>
      if negb (bool_decide (alg ∈ algorithms)) then Raise JWTError
      else if negb (bool_decide (k = key)) then Raise JWTError
      else
        match validate_claims claims now with
        | Ok _ => Ok claims
        | Raise e => Raise e
        end
  end.

End Jose.

(** ** Configuration and collaborators *)

(** [src/config.py], the fields the token code reads. *)
Record Settings : Type := {
  JWT_SECRET : string;
  JWT_ALGORITHM : string;
  JWT_EXPIRATION_HOURS : Z
}.

(** What the application is given: the settings read from the
    environment, pydantic's [EmailStr] (it rejects a value or returns the
    address it accepts), and the password hash and its check of
    [src/utils/security.py], which is not among the sources. *)
Class Collaborators : Type := {
  settings : Settings;
  EmailStr : string → option string;
  hash_password : string → string;
  verify_password : string → string → bool
}.

(** ** [src/models]: the rows of the two tables *)

Module User.
Record t : Type := {
  id : Z;
  email : string;
  hashed_password : string;
  created_at : Z;
  updated_at : Z
}.
End User.

(** Modelled from the spec: [src/models/task.py] is not among the sources.
    The columns are the ones [TaskResponse] reads and [src/api/tasks.py]
    writes; a new task is not completed and carries the time of its
    creation in both time columns, as [src/models/user.py] does for users. *)
Module Task.
Record t : Type := {
  id : Z;
  user_id : Z;
  title : string;
  description : option string;
  is_completed : bool;
  created_at : Z;
  updated_at : Z
}.
End Task.

#[global] Instance user_eq_dec : EqDecision User.t.
Proof. solve_decision. Defined.

#[global] Instance task_eq_dec : EqDecision Task.t.
Proof. solve_decision. Defined.

(** The database: each table maps the primary key to the row stored under
    it, so that a key names at most one row. *)
Record Store : Type := {
  users : gmap Z User.t;
  tasks : gmap Z Task.t
}.

(** The key the database gives to a new row: one that the table does not
    hold, here the successor of the largest key. *)
Definition next_id {A : Type} (table : gmap Z A) : Z :=
  1 + foldr Z.max 0 (map_to_list table).*1.

(** [result.scalar_one_or_none()] *)
Definition scalar_one_or_none {A : Type} (rows : list A)
  : result (option A) :=
  match rows with
  | [] => Ok None
  | [row] => Ok (Some row)
  | _ => Raise MultipleResultsFound
  end.

(** ** Requests as computations on the store *)

Definition Session (A : Type) : Type := Store → result A * Store.

Definition ret {A : Type} (a : A) : Session A := λ s, (Ok a, s).

Definition raise {A : Type} (e : exn) : Session A := λ s, (Raise e, s).

Definition bind {A B : Type} (m : Session A) (k : A → Session B)
  : Session B :=
  λ s, match m s with
       | (Ok a, s') => k a s'
       | (Raise e, s') => (Raise e, s')
       end.

Definition lift {A : Type} (r : result A) : Session A := λ s, (r, s).

Notation "'let*' x ':=' m 'in' k" := (bind m (λ x, k))
  (at level 10, x name, m at level 100, k at level 200).

(** [select(User).where(User.id == user_id)] *)
Definition select_user_by_id (user_id : Z) : Session (list User.t) :=
  λ s, (Ok (option_list (users s !! user_id)), s).

(** The rows of the [users] table with a given email. *)
Definition users_with_email (email : string) (s : Store) : list User.t :=
  filter (λ u, User.email u = email) (map_to_list (users s)).*2.

(** [select(User).where(User.email == email)] *)
Definition select_user_by_email (email : string) : Session (list User.t) :=
  λ s, (Ok (users_with_email email s), s).

(** [select(Task).where(Task.id == task_id)] *)
Definition select_task_by_id (task_id : Z) : Session (list Task.t) :=
  λ s, (Ok (option_list (tasks s !! task_id)), s).

(** The order of [Task.created_at.desc()]. *)
Definition created_at_desc (a b : Task.t) : Prop :=
  Task.created_at b ≤ Task.created_at a.

#[global] Instance created_at_desc_dec : RelDecision created_at_desc.
Proof. intros a b. unfold created_at_desc. apply _. Defined.

(** [select(Task).where(Task.user_id == user_id)
      .order_by(Task.created_at.desc())] *)
Definition select_tasks_by_user (user_id : Z) : Session (list Task.t) :=
  λ s, (Ok (merge_sort created_at_desc
              (filter (λ t, Task.user_id t = user_id)
                      (map_to_list (tasks s)).*2)), s).

(** [session.add(user); commit; refresh(user)] for a user built without a
    key: the row is stored under a new key and read back. *)
Definition insert_user (email hashed_password : string) (now : Z)
  : Session User.t :=
  λ s,
    let u := {| User.id := next_id (users s);
                User.email := email;
                User.hashed_password := hashed_password;
                User.created_at := now;
                User.updated_at := now |} in
    (Ok u, {| users := <[User.id u := u]> (users s); tasks := tasks s |}).

(** The same for a task built from [user_id], [title] and [description]. *)
Definition insert_task (user_id : Z) (title : string)
    (description : option string) (now : Z) : Session Task.t :=
  λ s,
    let t := {| Task.id := next_id (tasks s);
                Task.user_id := user_id;
                Task.title := title;
                Task.description := description;
                Task.is_completed := false;
                Task.created_at := now;
                Task.updated_at := now |} in
    (Ok t, {| users := users s; tasks := <[Task.id t := t]> (tasks s) |}).

(** [session.add(task); commit; refresh(task)] for a task that was loaded
    from the table and then assigned to. *)
Definition save_task (t : Task.t) : Session Task.t :=
  λ s, (Ok t, {| users := users s; tasks := <[Task.id t := t]> (tasks s) |}).

(** [session.delete(task); commit] *)
Definition delete_row (t : Task.t) : Session unit :=
  λ s, (Ok tt, {| users := users s; tasks := delete (Task.id t) (tasks s) |}).

(** ** [src/schemas]: validation of request bodies

    A body is the JSON object of the request. A field validator declared
    with [mode="before"] sees the raw value; then pydantic checks the type
    and the [Field] constraints. Keys that the schema does not declare are
    ignored (pydantic's default). Any failure is the
    [RequestValidationError] of FastAPI. *)

(** The [mode="before"] validators: [if isinstance(v, str): return f(v)]. *)
Definition before_str (f : string → string) (v : jvalue) : jvalue :=
  match v with
  | JStr s => JStr (f s)
  | _ => v
  end.

(** A [str] field with length bounds. *)
Definition str_field (min_length max_length : option Z) (v : jvalue)
  : result string :=
  match v with
  | JStr s =>
      if from_option (λ n, PyStr.len s <? n) false min_length
      then Raise RequestValidationError
      else if from_option (λ n, n <? PyStr.len s) false max_length
      then Raise RequestValidationError
      else Ok s
  | _ => Raise RequestValidationError
  end.

(** An [Optional[str]] field with default [None]: an absent key gives the
    default without running any validator. *)
Definition optional_str_field (f : string → string)
    (min_length max_length : option Z) (v : option jvalue)
  : result (option string) :=
  match v with
  | None => Ok None
  | Some v =>
      match before_str f v with
      | JNull => Ok None
      | v' =>
          match str_field min_length max_length v' with
          | Ok s => Ok (Some s)
          | Raise e => Raise e
          end
      end
  end.

(** A required [str] field. *)
Definition required_str_field (f : string → string)
    (min_length max_length : option Z) (v : option jvalue) : result string :=
  match v with
  | None => Raise RequestValidationError
  | Some v => str_field min_length max_length (before_str f v)
  end.

(** pydantic's conversion to [bool] outside strict mode. *)
Definition lax_bool (v : jvalue) : option bool :=
  match v with
  | JBool b => Some b
  | JInt 0 => Some false
  | JInt 1 => Some true
  | JStr s =>
      let l := PyStr.lower s in
      if bool_decide (l ∈ ["0"; "off"; "f"; "false"; "n"; "no"]) then Some false
      else if bool_decide (l ∈ ["1"; "on"; "t"; "true"; "y"; "yes"])
      then Some true
      else None
  | _ => None
  end.

(** An [Optional[bool]] field with default [None]. *)
Definition optional_bool_field (v : option jvalue) : result (option bool) :=
  match v with
  | None | Some JNull => Ok None
  | Some v =>
      match lax_bool v with
      | Some b => Ok (Some b)
      | None => Raise RequestValidationError
      end
  end.

Module TaskCreate.
Record t : Type := {
  title : string;
  description : option string
}.

Definition validate (body : gmap string jvalue) : result t :=
  match required_str_field sanitize_string (Some 1) (Some 255)
          (body !! "title") with
  | Raise e => Raise e
  | Ok title =>
      match optional_str_field sanitize_string None (Some 1000)
              (body !! "description") with
      | Raise e => Raise e
      | Ok description =>
          Ok {| title := title; description := description |}
      end
  end.
End TaskCreate.

Module TaskUpdate.
Record t : Type := {
  title : option string;
  description : option string;
  is_completed : option bool
}.

Definition validate (body : gmap string jvalue) : result t :=
  match optional_str_field sanitize_string (Some 1) (Some 255)
          (body !! "title") with
  | Raise e => Raise e
  | Ok title =>
      match optional_str_field sanitize_string None (Some 1000)
              (body !! "description") with
      | Raise e => Raise e
      | Ok description =>
          match optional_bool_field (body !! "is_completed") with
          | Raise e => Raise e
          | Ok is_completed =>
              Ok {| title := title; description := description;
                    is_completed := is_completed |}
          end
      end
  end.
End TaskUpdate.

Module TaskResponse.
Record t : Type := {
  id : Z;
  user_id : Z;
  title : string;
  description : option string;
  is_completed : bool;
  created_at : Z;
  updated_at : Z
}.

(** [TaskResponse.model_validate(task)] with [from_attributes]. *)
Definition model_validate (task : Task.t) : t :=
  {| id := Task.id task;
     user_id := Task.user_id task;
     title := Task.title task;
     description := Task.description task;
     is_completed := Task.is_completed task;
     created_at := Task.created_at task;
     updated_at := Task.updated_at task |}.
End TaskResponse.

Module TaskList.
Record t : Type := {
  tasks : list TaskResponse.t;
  total : Z
}.
End TaskList.

Module UserResponse.
Record t : Type := {
  id : Z;
  email : string;
  created_at : Z
}.

Definition model_validate (user : User.t) : t :=
  {| id := User.id user;
     email := User.email user;
     created_at := User.created_at user |}.
End UserResponse.

Module AuthResponse.
Record t : Type := {
  access_token : Jose.token;
  token_type : string;
  user : UserResponse.t
}.
End AuthResponse.

Module UserRegister.
Record t : Type := {
  email : string;
  password : string
}.
End UserRegister.

Module UserLogin.
Record t : Type := {
  email : string;
  password : string
}.
End UserLogin.

Section Application.

Context `{Collaborators}.

(** An [EmailStr] field with the [sanitize_email_field] validator. *)
Definition email_field (v : option jvalue) : result string :=
  match v with
  | None => Raise RequestValidationError
  | Some v =>
      match before_str sanitize_email v with
      | JStr s =>
          match EmailStr s with
          | Some e => Ok e
          | None => Raise RequestValidationError
          end
      | _ => Raise RequestValidationError
      end
  end.

Definition UserRegister_validate (body : gmap string jvalue)
  : result UserRegister.t :=
  match email_field (body !! "email") with
  | Raise e => Raise e
  | Ok email =>
      match str_field (Some 8) (Some 100) <$> body !! "password" with
      | Some (Ok password) =>
          Ok {| UserRegister.email := email;
                UserRegister.password := password |}
      | _ => Raise RequestValidationError
      end
  end.

Definition UserLogin_validate (body : gmap string jvalue)
  : result UserLogin.t :=
  match email_field (body !! "email") with
  | Raise e => Raise e
  | Ok email =>
      match str_field None None <$> body !! "password" with
      | Some (Ok password) =>
          Ok {| UserLogin.email := email; UserLogin.password := password |}
      | _ => Raise RequestValidationError
      end
  end.

(** ** [src/utils/jwt.py] *)

(** [create_access_token(data, expires_delta)] at time [now]. A
    [timedelta] of zero is false in the test [if expires_delta]. *)
Definition create_access_token (data : gmap string jvalue)
    (expires_delta : option Z) (now : Z) : result Jose.token :=
  let to_encode := data in
  let expire :=
    match expires_delta with
    | Some delta =>
        if delta =? 0 then now + 3600 * JWT_EXPIRATION_HOURS settings
        else now + delta
    | None => now + 3600 * JWT_EXPIRATION_HOURS settings
    end in
  let to_encode := <["exp" := JInt expire]> to_encode in
  Jose.encode to_encode (JWT_SECRET settings) (JWT_ALGORITHM settings).

(** [decode_token(token)] at time [now]: the three [except] clauses in
    their order; any other exception passes through. *)
Definition decode_token (token : Jose.token) (now : Z)
  : result (gmap string jvalue) :=
  match Jose.decode token (JWT_SECRET settings) [JWT_ALGORITHM settings] now
  with
  | Ok payload => Ok payload
  | Raise ExpiredSignatureError =>
      Raise (HTTPException HTTP_401_UNAUTHORIZED "Token has expired"
               www_authenticate)
  | Raise JWTClaimsError =>
      Raise (HTTPException HTTP_401_UNAUTHORIZED "Invalid token claims"
               www_authenticate)
  | Raise JWTError =>
      Raise (HTTPException HTTP_401_UNAUTHORIZED "Invalid token"
               www_authenticate)
  | Raise e => Raise e
  end.

(** [get_current_user(credentials, session)] at time [now]. *)
Definition get_current_user (token : Jose.token) (now : Z) : Session User.t :=
  let* payload := lift (decode_token token now) in
  match payload !! "sub" with
  | None | Some JNull =>
      raise (HTTPException HTTP_401_UNAUTHORIZED
               "Could not validate credentials" www_authenticate)
  | Some user_id =>
      let* n := lift (py_int user_id) in
      let* rows := select_user_by_id n in
      let* user := lift (scalar_one_or_none rows) in
      match user with
      | None =>
          raise (HTTPException HTTP_401_UNAUTHORIZED "User not found"
                   www_authenticate)
      | Some user => ret user
      end
  end.

(** ** [src/api/auth.py] *)

Definition register (user_data : UserRegister.t) (now : Z)
  : Session AuthResponse.t :=
  let* rows := select_user_by_email (UserRegister.email user_data) in
  let* existing_user := lift (scalar_one_or_none rows) in
  match existing_user with
  | Some _ =>
      raise (HTTPException HTTP_400_BAD_REQUEST "Email already registered" [])
  | None =>
      let hashed_password := hash_password (UserRegister.password user_data) in
      let* new_user :=
        insert_user (UserRegister.email user_data) hashed_password now in
      let* access_token :=
        lift (create_access_token
                {["sub" := JStr (PyStr.str (User.id new_user))]} None now) in
      ret {| AuthResponse.access_token := access_token;
             AuthResponse.token_type := "bearer";
             AuthResponse.user := UserResponse.model_validate new_user |}
  end.

Definition login (credentials : UserLogin.t) (now : Z)
  : Session AuthResponse.t :=
  let* rows := select_user_by_email (UserLogin.email credentials) in
  let* user := lift (scalar_one_or_none rows) in
  match user with
  | None =>
      raise (HTTPException HTTP_401_UNAUTHORIZED "Incorrect email or password"
               www_authenticate)
  | Some user =>
      if negb (verify_password (UserLogin.password credentials)
                 (User.hashed_password user))
      then
        raise (HTTPException HTTP_401_UNAUTHORIZED
                 "Incorrect email or password" www_authenticate)
      else
        let* access_token :=
          lift (create_access_token
                  {["sub" := JStr (PyStr.str (User.id user))]} None now) in
        ret {| AuthResponse.access_token := access_token;
               AuthResponse.token_type := "bearer";
               AuthResponse.user := UserResponse.model_validate user |}
  end.

(** ** [src/api/tasks.py] *)

Definition get_tasks (current_user : User.t) : Session TaskList.t :=
  let* tasks := select_tasks_by_user (User.id current_user) in
  ret {| TaskList.tasks := TaskResponse.model_validate <$> tasks;
         TaskList.total := Z.of_nat (length tasks) |}.

Definition create_task (task_data : TaskCreate.t) (current_user : User.t)
    (now : Z) : Session TaskResponse.t :=
  let* new_task :=
    insert_task (User.id current_user) (TaskCreate.title task_data)
      (TaskCreate.description task_data) now in
  ret (TaskResponse.model_validate new_task).

Definition get_task (task_id : Z) (current_user : User.t)
  : Session TaskResponse.t :=
  let* rows := select_task_by_id task_id in
  let* task := lift (scalar_one_or_none rows) in
  match task with
  | None => raise (HTTPException HTTP_404_NOT_FOUND "Task not found" [])
  | Some task =>
      if bool_decide (Task.user_id task ≠ User.id current_user)
      then raise (HTTPException HTTP_403_FORBIDDEN
                    "Not authorized to access this task" [])
      else ret (TaskResponse.model_validate task)
  end.

(** The three conditional assignments and the new [updated_at]. *)
Definition apply_update (task_data : TaskUpdate.t) (now : Z) (task : Task.t)
  : Task.t :=
  {| Task.id := Task.id task;
     Task.user_id := Task.user_id task;
     Task.title := default (Task.title task) (TaskUpdate.title task_data);
     Task.description :=
       match TaskUpdate.description task_data with
       | Some d => Some d
       | None => Task.description task
       end;
     Task.is_completed :=
       default (Task.is_completed task) (TaskUpdate.is_completed task_data);
     Task.created_at := Task.created_at task;
     Task.updated_at := now |}.

Definition update_task (task_id : Z) (task_data : TaskUpdate.t)
    (current_user : User.t) (now : Z) : Session TaskResponse.t :=
  let* rows := select_task_by_id task_id in
  let* task := lift (scalar_one_or_none rows) in
  match task with
  | None => raise (HTTPException HTTP_404_NOT_FOUND "Task not found" [])
  | Some task =>
      if bool_decide (Task.user_id task ≠ User.id current_user)
      then raise (HTTPException HTTP_403_FORBIDDEN
                    "Not authorized to update this task" [])
      else
        let* task := save_task (apply_update task_data now task) in
        ret (TaskResponse.model_validate task)
  end.

Definition delete_task (task_id : Z) (current_user : User.t) : Session unit :=
  let* rows := select_task_by_id task_id in
  let* task := lift (scalar_one_or_none rows) in
  match task with
  | None => raise (HTTPException HTTP_404_NOT_FOUND "Task not found" [])
  | Some task =>
      if bool_decide (Task.user_id task ≠ User.id current_user)
      then raise (HTTPException HTTP_403_FORBIDDEN
                    "Not authorized to delete this task" [])
      else delete_row task
  end.

(** The endpoints on a raw body: validation, then the handler. *)
Definition post_tasks (body : gmap string jvalue) (current_user : User.t)
    (now : Z) : Session TaskResponse.t :=
  let* task_data := lift (TaskCreate.validate body) in
  create_task task_data current_user now.

Definition put_task (task_id : Z) (body : gmap string jvalue)
    (current_user : User.t) (now : Z) : Session TaskResponse.t :=
  let* task_data := lift (TaskUpdate.validate body) in
  update_task task_id task_data current_user now.

Definition post_register (body : gmap string jvalue) (now : Z)
  : Session AuthResponse.t :=
  let* user_data := lift (UserRegister_validate body) in
  register user_data now.

Definition post_login (body : gmap string jvalue) (now : Z)
  : Session AuthResponse.t :=
  let* credentials := lift (UserLogin_validate body) in
  login credentials now.

End Application.

(** ** The ownership guard, in the words of the design

    [authorize(resource_or_none, actor_identity)]: not found when the lookup
    returned nothing, else forbidden when the owner of the resource is not
    the actor, else allowed. *)
Inductive decision : Type := Allow | Forbid | NotFound.

Definition authorize_spec (resource : option Task.t) (actor : User.t)
  : decision :=
  match resource with
  | None => NotFound
  | Some r =>
      if bool_decide (Task.user_id r ≠ User.id actor) then Forbid else Allow
  end.

(** ** Invariants of the store

    The [id] column is the primary key, and [email] is declared unique. *)
Definition users_wf (s : Store) : Prop :=
  map_Forall (λ k u, User.id u = k) (users s).

Definition tasks_wf (s : Store) : Prop :=
  map_Forall (λ k t, Task.id t = k) (tasks s).

Definition emails_unique (s : Store) : Prop :=
  NoDup (User.email <$> (map_to_list (users s)).*2).

#[global] Instance users_wf_dec (s : Store) : Decision (users_wf s).
Proof. unfold users_wf. apply _. Defined.

#[global] Instance tasks_wf_dec (s : Store) : Decision (tasks_wf s).
Proof. unfold tasks_wf. apply _. Defined.

#[global] Instance emails_unique_dec (s : Store) : Decision (emails_unique s).
Proof. unfold emails_unique. apply _. Defined.

Definition store_ok (s : Store) : Prop :=
  users_wf s ∧ tasks_wf s ∧ emails_unique s.

Definition empty_store : Store := {| users := ∅; tasks := ∅ |}.

(** ** A configuration to run the application on *)

Definition example_settings : Settings :=
  {| JWT_SECRET := "test-secret-key";
     JWT_ALGORITHM := "HS256";
     JWT_EXPIRATION_HOURS := 24 |}.

#[local] Instance example_collaborators : Collaborators :=
  {| settings := example_settings;
     EmailStr := λ s, if EmailPattern.re_match s then Some s else None;
     hash_password := λ p, "hashed:" ++ p;
     verify_password := λ p h, bool_decide (h = "hashed:" ++ p) |}.

(** Two users and a task, as the fixtures of the test suite create them. *)
Definition alice : User.t :=
  {| User.id := 1;
     User.email := "alice@example.com";
     User.hashed_password := "hashed:alicepassword123";
     User.created_at := 1000;
     User.updated_at := 1000 |}.

Definition bob : User.t :=
  {| User.id := 2;
     User.email := "bob@example.com";
     User.hashed_password := "hashed:bobpassword456";
     User.created_at := 1001;
     User.updated_at := 1001 |}.

Definition alice_task : Task.t :=
  {| Task.id := 1;
     Task.user_id := 1;
     Task.title := "Alice&#x27;s private task";
     Task.description := Some "Only Alice should see this";
     Task.is_completed := false;
     Task.created_at := 1100;
     Task.updated_at := 1100 |}.

Definition example_store : Store :=
  {| users := {[ 1 := alice; 2 := bob ]};
     tasks := {[ 1 := alice_task ]} |}.

(** ** The failure kinds of token parsing, in the words of the design

    Malformed when the structure is invalid, invalid signature when the
    verification under the configured secret and algorithm fails, expired
    when the time is past the expiry. *)
Inductive failure_kind : Type :=
| ExpiredToken
| MalformedToken
| InvalidSignature.

Definition token_failure_spec `{Collaborators} (t : Jose.token) (now : Z)
  : option failure_kind :=
  match t with
  | Jose.Garbage _ => Some MalformedToken
  | Jose.Signed alg key claims =>
      if bool_decide (alg = JWT_ALGORITHM settings ∧ key = JWT_SECRET settings)
      then
        match claims !! "exp" with
        | Some (JInt expiry) =>
            if expiry <? now then Some ExpiredToken else None
        | _ => None
        end
      else Some InvalidSignature
  end.

(** The message [decode_token] answers with for each kind. *)
Definition failure_message (kind : failure_kind) : string :=
  match kind with
  | ExpiredToken => "Token has expired"
  | MalformedToken | InvalidSignature => "Invalid token"
  end.

(** The fixtures of [tests/security/test_token_validation.py]: a string
    that is no token, and a token signed with another secret. *)
Definition malformed_token : Jose.token :=
  Jose.Garbage "not.a.valid.jwt.token.format".

Definition forged_token : Jose.token :=
  Jose.Signed "HS256" "wrong_secret_key_12345"
    {[ "sub" := JStr "1"; "exp" := JInt 90000 ]}.

(** Tokens signed with the example settings: for Alice, issued at time
    1000; for Alice, expired; for a user that the store does not hold. *)
Definition alice_token : Jose.token :=
  Jose.Signed "HS256" "test-secret-key"
    {[ "sub" := JStr "1"; "exp" := JInt 87400 ]}.

Definition expired_token : Jose.token :=
  Jose.Signed "HS256" "test-secret-key"
    {[ "sub" := JStr "1"; "exp" := JInt 500 ]}.

Definition ghost_token : Jose.token :=
  Jose.Signed "HS256" "test-secret-key"
    {[ "sub" := JStr "3"; "exp" := JInt 87400 ]}.

(** Request bodies of the test suite. *)
Definition malicious_body : gmap string jvalue :=
  {[ "title" := JStr "Malicious task";
     "description" := JStr "Trying to create task for Bob" ]}.

Definition markup_body : gmap string jvalue :=
  {[ "title" := JStr "  <b>Buy milk</b> ";
     "description" := JStr "Tom & Jerry" ]}.

Definition carol_body : gmap string jvalue :=
  {[ "email" := JStr "carol@example.com";
     "password" := JStr "carolpassword789" ]}.

Definition carol_body_shouting : gmap string jvalue :=
  {[ "email" := JStr "  Carol@Example.COM ";
     "password" := JStr "anotherpassword" ]}.

Definition wrong_password : UserLogin.t :=
  {| UserLogin.email := "alice@example.com";
     UserLogin.password := "not-alices-password" |}.

(** The [sub] claim that a token carries. *)
Definition token_subject (t : Jose.token) : option jvalue :=
  match t with
  | Jose.Garbage _ => None
  | Jose.Signed _ _ claims => claims !! "sub"
  end.

(** ** More string operations of Python *)

Module StrOps.

(** [s.startswith(p)] *)
Fixpoint startswith (p s : string) : bool :=
  match p, s with
  | EmptyString, _ => true
  | String _ _, EmptyString => false
  | String a p', String b s' => Ascii.eqb a b && startswith p' s'
  end.

(** [p in s] for a string [p]. *)
Fixpoint infix (p s : string) : bool :=
  startswith p s
  || match s with
     | EmptyString => false
     | String _ s' => infix p s'
     end.

(** [s.split(p)[0]] for a non-empty [p]: the text before the first
    occurrence of [p], all of [s] when there is none. *)
Fixpoint before (p s : string) : string :=
  if startswith p s then EmptyString
  else match s with
       | EmptyString => EmptyString
       | String c s' => String c (before p s')
       end.

(** [s.split(c)] for a one-character separator: never an empty list. *)
Fixpoint split (c : ascii) (s : string) : list string :=
  match s with
  | EmptyString => [EmptyString]
  | String d s' =>
      if Ascii.eqb d c then EmptyString :: split c s'
      else match split c s' with
           | [] => [String d EmptyString]
           | w :: ws => String d w :: ws
           end
  end.

(** [c.join(l)] for a one-character separator. *)
Fixpoint join (c : ascii) (l : list string) : string :=
  match l with
  | [] => EmptyString
  | [w] => w
  | w :: ws => w ++ String c (join c ws)
  end.

(** [s.count(c)] for a character. *)
Fixpoint count (c : ascii) (s : string) : nat :=
  match s with
  | EmptyString => 0%nat
  | String d s' => ((if Ascii.eqb d c then 1 else 0) + count c s')%nat
  end.

End StrOps.

(** ** [src/config.py]: the check of [DATABASE_URL] *)

(** The outcome of a settings validator: the value it returns, or the
    message of the [ValueError] it raises. *)
Inductive checked (A : Type) : Type :=
| Accepted (a : A)
| Rejected (message : string).
Arguments Accepted {A} a.
Arguments Rejected {A} message.

Definition dquote : ascii := ascii_of_N 34.

Definition validate_database_url (v : string) : checked string :=
  if PyStr.is_empty v then Rejected "DATABASE_URL cannot be empty"
  else if StrOps.startswith "psql " v
  then Rejected "DATABASE_URL should not start with 'psql' command"
  else if PyStr.contains "'" v || PyStr.contains dquote v
  then Rejected "DATABASE_URL should not contain quotes"
  else if negb (StrOps.startswith "postgresql+asyncpg://" v)
  then Rejected
         ("DATABASE_URL must use 'postgresql+asyncpg://' scheme for async connections. "
          ++ "Got: "
          ++ (if StrOps.infix "://" v then StrOps.before "://" v
              else "no scheme"))
  else if StrOps.infix "sslmode=" v
  then Rejected
         "Use 'ssl=require' instead of 'sslmode=require' for asyncpg driver"
  else if StrOps.infix "channel_binding=" v
  then Rejected
         "asyncpg does not support 'channel_binding' parameter. Remove it from DATABASE_URL"
  else Accepted v.

(** ** [src/main.py]: the origins of the CORS middleware

    [[origin.strip() for origin in settings.CORS_ORIGINS.split(",")]] *)
Definition cors_origins (CORS_ORIGINS : string) : list string :=
  PyStr.strip <$> StrOps.split "," CORS_ORIGINS.

(** ** The application: routes and their dependencies

    [src/main.py] includes the two routers; each path operation declares
    its dependencies as [Depends] parameters. FastAPI resolves the
    dependencies, then validates the body, then calls the function. *)

(** [security = HTTPBearer()]: the bearer credentials of the request; a
    request without them is answered with 403. *)
Definition security (credentials : option Jose.token) : result Jose.token :=
  match credentials with
  | Some token => Ok token
  | None => Raise (HTTPException HTTP_403_FORBIDDEN "Not authenticated" [])
  end.

Inductive request : Type :=
| GetHealth
| PostRegister (body : gmap string jvalue)
| PostLogin (body : gmap string jvalue)
| PostLogout
| GetTasks (credentials : option Jose.token)
| PostTasks (credentials : option Jose.token) (body : gmap string jvalue)
| GetTask (credentials : option Jose.token) (task_id : Z)
| PutTask (credentials : option Jose.token) (task_id : Z)
    (body : gmap string jvalue)
| DeleteTask (credentials : option Jose.token) (task_id : Z).

(** The body of a successful response. *)
Inductive content : Type :=
| AuthContent (a : AuthResponse.t)
| TaskContent (t : TaskResponse.t)
| TaskListContent (l : TaskList.t)
| MessageContent (fields : list (string * string))
| NoContent.

(** A successful response: the status of the path operation (200 unless
    the decorator names another) and the body. *)
Module Response.
Record t : Type := {
  status : Z;
  body : content
}.
End Response.

Definition HTTP_200_OK : Z := 200.
Definition HTTP_201_CREATED : Z := 201.
Definition HTTP_204_NO_CONTENT : Z := 204.

(** [logout] of [src/api/auth.py] *)
Definition logout : list (string * string) :=
  [("message",
    "Successfully logged out. Please remove the token from client storage.")].

(** [health_check] of [src/main.py] *)
Definition health_check : list (string * string) :=
  [("status", "healthy");
   ("message", "Task Management API is running");
   ("version", "1.0.0")].

Section Routes.

Context `{Collaborators}.

(** [Depends(get_current_user)], which itself depends on [security]. *)
Definition current_user (credentials : option Jose.token) (now : Z)
  : Session User.t :=
  let* token := lift (security credentials) in
  get_current_user token now.

Definition respond {A : Type} (status : Z) (wrap : A → content)
    (m : Session A) : Session Response.t :=
  let* a := m in ret {| Response.status := status; Response.body := wrap a |}.

(** One request at time [now]. *)
Definition serve (r : request) (now : Z) : Session Response.t :=
  match r with
  | GetHealth =>
      ret {| Response.status := HTTP_200_OK;
             Response.body := MessageContent health_check |}
  | PostRegister body =>
      respond HTTP_201_CREATED AuthContent (post_register body now)
  | PostLogin body => respond HTTP_200_OK AuthContent (post_login body now)
  | PostLogout =>
      ret {| Response.status := HTTP_200_OK;
             Response.body := MessageContent logout |}
  | GetTasks credentials =>
      let* user := current_user credentials now in
      respond HTTP_200_OK TaskListContent (get_tasks user)
  | PostTasks credentials body =>
      let* user := current_user credentials now in
      respond HTTP_201_CREATED TaskContent (post_tasks body user now)
  | GetTask credentials task_id =>
      let* user := current_user credentials now in
      respond HTTP_200_OK TaskContent (get_task task_id user)
  | PutTask credentials task_id body =>
      let* user := current_user credentials now in
      respond HTTP_200_OK TaskContent (put_task task_id body user now)
  | DeleteTask credentials task_id =>
      let* user := current_user credentials now in
      respond HTTP_204_NO_CONTENT (λ _, NoContent) (delete_task task_id user)
  end.

(** The store after a sequence of requests, each with its time. *)
Fixpoint run (requests : list (request * Z)) (s : Store) : Store :=
  match requests with
  | [] => s
  | (r, now) :: requests => run requests (serve r now s).2
  end.

End Routes.

(** ** What the store holds about task text and owners *)

(** None of the characters that [sanitize_string] escapes or removes,
    apart from the ampersand, which every entity starts with. *)
Definition markup_free (s : string) : bool :=
  negb (PyStr.contains "<" s || PyStr.contains ">" s
        || PyStr.contains dquote s || PyStr.contains "'" s
        || PyStr.contains zero s).

(** The bounds of [src/schemas/task.py] on a stored task. *)
Definition task_text_ok (t : Task.t) : Prop :=
  1 ≤ PyStr.len (Task.title t) ≤ 255
  ∧ markup_free (Task.title t) = true
  ∧ match Task.description t with
    | None => True
    | Some d => PyStr.len d ≤ 1000 ∧ markup_free d = true
    end.

#[global] Instance task_text_ok_dec (t : Task.t) : Decision (task_text_ok t).
Proof. unfold task_text_ok. destruct (Task.description t); apply _. Defined.

Definition texts_ok (s : Store) : Prop :=
  map_Forall (λ _ t, task_text_ok t) (tasks s).

#[global] Instance texts_ok_dec (s : Store) : Decision (texts_ok s).
Proof. unfold texts_ok. apply _. Defined.

(** Every task belongs to a user of the store. *)
Definition owners_exist (s : Store) : Prop :=
  map_Forall (λ _ t, is_Some (users s !! Task.user_id t)) (tasks s).

#[global] Instance owners_exist_dec (s : Store) : Decision (owners_exist s).
Proof. unfold owners_exist. apply _. Defined.

(** A string that [sanitize_string] has nothing to do on. *)
Definition plain_text (s : string) : Prop :=
  markup_free s = true ∧ PyStr.contains "&" s = false ∧ PyStr.strip s = s.

#[global] Instance plain_text_dec (s : string) : Decision (plain_text s).
Proof. unfold plain_text. apply _. Defined.

(** More requests of the test suite: Bob's token, an update that closes a
    task, and Carol's login in capitals and with a wrong password. *)
Definition bob_token : Jose.token :=
  Jose.Signed "HS256" "test-secret-key"
    {[ "sub" := JStr "2"; "exp" := JInt 87400 ]}.

Definition done_body : gmap string jvalue :=
  {[ "is_completed" := JBool true ]}.

Definition done_update : TaskUpdate.t :=
  {| TaskUpdate.title := Some "Updated by Alice";
     TaskUpdate.description := None;
     TaskUpdate.is_completed := Some true |}.

Definition carol_wrong_password : gmap string jvalue :=
  {[ "email" := JStr "  Carol@Example.COM ";
     "password" := JStr "not-carols-password" ]}.

Definition carol_login_shouting : gmap string jvalue :=
  {[ "email" := JStr "  Carol@Example.COM ";
     "password" := JStr "carolpassword789" ]}.

(** ** Words for the text of a task and for time claims *)

(** A string of white space only, and the first and the last character of
    a string. *)
Fixpoint all_space (s : string) : bool :=
  match s with
  | EmptyString => true
  | String c s' => PyStr.isspace c && all_space s'
  end.

Definition first_char (s : string) : option ascii :=
  match s with
  | EmptyString => None
  | String c _ => Some c
  end.

Fixpoint last_char (s : string) : option ascii :=
  match s with
  | EmptyString => None
  | String c EmptyString => Some c
  | String _ s' => last_char s'
  end.

(** What the five replacements of [html_escape] make of one character. *)
Definition escape_char (c : ascii) : string :=
  if Ascii.eqb c "&" then "&amp;"
  else if Ascii.eqb c "<" then "&lt;"
  else if Ascii.eqb c ">" then "&gt;"
  else if Ascii.eqb c (ascii_of_N 34) then "&quot;"
  else if Ascii.eqb c "'" then "&#x27;"
  else String c EmptyString.

(** A text field of a body that the schema accepts: absent, null, or a
    string whose sanitized form has between [lo] and [hi] characters. *)
Definition text_field_ok (lo hi : Z) (v : option jvalue) : Prop :=
  v = None ∨ v = Some JNull
  ∨ ∃ x, v = Some (JStr x) ∧ lo ≤ PyStr.len (sanitize_string x) ≤ hi.

(** A body whose title is a tab and three spaces. *)
Definition blank_title_body : gmap string jvalue :=
  {[ "title" := JStr (String (ascii_of_N 9) "   ") ]}.

(** Expired tokens of Alice that carry a second time claim: the time of
    issue, and a [nbf] that has not come yet. *)
Definition expired_token_issued : Jose.token :=
  Jose.Signed "HS256" "test-secret-key"
    {[ "sub" := JStr "1"; "iat" := JInt 100; "exp" := JInt 500 ]}.

Definition expired_token_not_before : Jose.token :=
  Jose.Signed "HS256" "test-secret-key"
    {[ "sub" := JStr "1"; "nbf" := JInt 5000; "exp" := JInt 500 ]}.

(** * Properties *)

(** ** Decimal rendering and parsing *)

Section Decimal.

Lemma digit_pretty_N_char (x : N) :
  (x < 10)%N → PyStr.digit (pretty_N_char x) = Some (Z.of_N x).
Proof.
  intros Hx.
  assert (x = 0 ∨ x = 1 ∨ x = 2 ∨ x = 3 ∨ x = 4 ∨ x = 5 ∨ x = 6 ∨ x = 7
          ∨ x = 8 ∨ x = 9)%N as Hcases by lia.
  repeat (destruct Hcases as [-> | Hcases]; [reflexivity |]).
  subst x. reflexivity.
Qed.

(** A character that is a digit is neither white space nor a sign. *)
Lemma digit_not_space (c : ascii) (d : Z) :
  PyStr.digit c = Some d → PyStr.int_isspace c = false.
Proof.
  destruct c as [[] [] [] [] [] [] [] []]; vm_compute; congruence.
Qed.

Lemma digits_pretty_N_go (x : N) :
  ∀ (s : string) (acc : Z) (prev : bool),
    (0 < x)%N →
    ∃ acc', PyStr.digits acc prev (pretty_N_go x s) = PyStr.digits acc' true s
            ∧ (acc = 0 → acc' = Z.of_N x).
Proof.
  induction (N.lt_wf_0 x) as [x _ IH]. intros s acc prev Hx.
  rewrite pretty_N_go_step by done.
  assert (x `mod` 10 < 10)%N as Hmod by (apply N.mod_lt; lia).
  destruct (decide (x `div` 10 = 0)%N) as [Hdiv | Hdiv].
  - rewrite Hdiv, pretty_N_go_0. simpl.
    rewrite digit_pretty_N_char by done.
    eexists; split; [done |]. intros ->.
    pose proof (N.div_mod x 10). lia.
  - destruct (IH (x `div` 10)%N) with
      (s := String (pretty_N_char (x `mod` 10)) s) (acc := acc) (prev := prev)
      as (acc1 & Hgo & Hacc1).
    { apply N.div_lt; lia. }
    { by apply N.neq_0_lt_0. }
    rewrite Hgo. simpl. rewrite digit_pretty_N_char by done.
    eexists; split; [done |]. intros Hacc. rewrite (Hacc1 Hacc).
    pose proof (N.div_mod x 10). lia.
Qed.

Lemma pretty_N_go_head (x : N) :
  ∀ s : string,
    (0 < x)%N →
    ∃ c r d, pretty_N_go x s = String c r ∧ PyStr.digit c = Some d.
Proof.
  induction (N.lt_wf_0 x) as [x _ IH]. intros s Hx.
  rewrite pretty_N_go_step by done.
  assert (x `mod` 10 < 10)%N as Hmod by (apply N.mod_lt; lia).
  destruct (decide (x `div` 10 = 0)%N) as [Hdiv | Hdiv].
  - rewrite Hdiv, pretty_N_go_0.
    eexists _, _, _; split; [done | by apply digit_pretty_N_char].
  - apply IH; [apply N.div_lt; lia | by apply N.neq_0_lt_0].
Qed.

Lemma rstrip_cons_digit (c : ascii) (d : Z) (s : string) :
  PyStr.digit c = Some d → PyStr.int_rstrip s = s →
  PyStr.int_rstrip (String c s) = String c s.
Proof.
  intros Hc Hs. simpl. rewrite Hs, (digit_not_space c d Hc). done.
Qed.

Lemma rstrip_pretty_N_go (x : N) :
  ∀ s : string,
    PyStr.int_rstrip s = s →
    PyStr.int_rstrip (pretty_N_go x s) = pretty_N_go x s.
Proof.
  induction (N.lt_wf_0 x) as [x _ IH]. intros s Hs.
  destruct (decide (x = 0)%N) as [-> | Hx]; [by rewrite pretty_N_go_0 |].
  rewrite pretty_N_go_step by by apply N.neq_0_lt_0.
  apply IH; [apply N.div_lt; lia |].
  eapply rstrip_cons_digit; [| done].
  apply digit_pretty_N_char, N.mod_lt. lia.
Qed.

(** [int] finds no blanks to drop around the digits of a positive number. *)
Lemma strip_pretty_N_go (x : N) :
  (0 < x)%N →
  PyStr.int_rstrip (PyStr.int_lstrip (pretty_N_go x EmptyString))
  = pretty_N_go x EmptyString.
Proof.
  intros Hx.
  destruct (pretty_N_go_head x EmptyString Hx) as (c & r & d & Heq & Hc).
  assert (PyStr.int_lstrip (pretty_N_go x EmptyString)
          = pretty_N_go x EmptyString) as ->.
  { rewrite Heq. simpl. by rewrite (digit_not_space c d Hc). }
  by apply rstrip_pretty_N_go.
Qed.

(** [int] reads an unsigned run of digits that starts with a digit. *)
Lemma int_unsigned (c : ascii) (d : Z) (r : string) :
  PyStr.digit c = Some d →
  PyStr.int_rstrip (PyStr.int_lstrip (String c r)) = String c r →
  PyStr.int (String c r) = PyStr.digits 0 false (String c r).
Proof.
  intros Hc Hstrip. unfold PyStr.int. rewrite Hstrip. revert Hc.
  destruct c as [[] [] [] [] [] [] [] []]; vm_compute; congruence.
Qed.

Lemma int_str_pos (p : positive) : PyStr.int (PyStr.str (Z.pos p)) = Some (Z.pos p).
Proof.
  unfold PyStr.str, pretty, pretty_Z, pretty, pretty_positive, pretty, pretty_N.
  rewrite decide_False by done.
  assert (0 < N.pos p)%N as Hp by lia.
  destruct (pretty_N_go_head (N.pos p) EmptyString Hp) as (c & r & d & Heq & Hc).
  pose proof (strip_pretty_N_go (N.pos p) Hp) as Hstrip.
  destruct (digits_pretty_N_go (N.pos p) EmptyString 0 false Hp)
    as (acc & Hgo & Hacc).
  rewrite Heq in Hstrip |- *.
  rewrite (int_unsigned c d r Hc Hstrip), <- Heq, Hgo. simpl.
  by rewrite Hacc.
Qed.

Lemma int_str_neg (p : positive) : PyStr.int (PyStr.str (Z.neg p)) = Some (Z.neg p).
Proof.
  unfold PyStr.str, pretty, pretty_Z, pretty, pretty_positive, pretty, pretty_N.
  rewrite decide_False by done.
  assert (0 < N.pos p)%N as Hp by lia.
  destruct (digits_pretty_N_go (N.pos p) EmptyString 0 false Hp)
    as (acc & Hgo & Hacc).
  change ("-" +:+ pretty_N_go (N.pos p) EmptyString)
    with (String "-" (pretty_N_go (N.pos p) EmptyString)).
  unfold PyStr.int. simpl.
  rewrite (rstrip_pretty_N_go (N.pos p) EmptyString eq_refl). simpl.
  rewrite Hgo. simpl. by rewrite Hacc.
Qed.

(** [int(str(n)) == n] for every integer. *)
Lemma int_str (n : Z) : PyStr.int (PyStr.str n) = Some n.
Proof.
  destruct n as [| p | p];
    [reflexivity | apply int_str_pos | apply int_str_neg].
Qed.

(** [int] skips blanks around the digits, but not a separator such as
    U+001C, which [str.strip] does remove. *)
Example int_blanks :
  PyStr.int " 42 " = Some 42
  ∧ PyStr.int (String (ascii_of_N 160) "42") = Some 42
  ∧ PyStr.int (String (ascii_of_N 28) "42") = None
  ∧ PyStr.strip (String (ascii_of_N 28) "42") = "42".
Proof. split_and!; reflexivity. Qed.

End Decimal.

(** ** The ownership guard of the single-task endpoints *)

Section Ownership.

Lemma get_task_unfold (task_id : Z) (actor : User.t) (s : Store) :
  get_task task_id actor s =
  match tasks s !! task_id with
  | None => (Raise (HTTPException 404 "Task not found" []), s)
  | Some task =>
      if bool_decide (Task.user_id task = User.id actor)
      then (Ok (TaskResponse.model_validate task), s)
      else (Raise (HTTPException 403 "Not authorized to access this task" []),
            s)
  end.
Proof.
  unfold get_task, bind, select_task_by_id, lift, raise, ret.
  destruct (tasks s !! task_id) as [task |]; simpl; [| done].
  repeat case_bool_decide; done.
Qed.

Lemma update_task_unfold (task_id : Z) (data : TaskUpdate.t) (actor : User.t)
    (now : Z) (s : Store) :
  update_task task_id data actor now s =
  match tasks s !! task_id with
  | None => (Raise (HTTPException 404 "Task not found" []), s)
  | Some task =>
      if bool_decide (Task.user_id task = User.id actor)
      then (Ok (TaskResponse.model_validate (apply_update data now task)),
            {| users := users s;
               tasks := <[Task.id task := apply_update data now task]>
                          (tasks s) |})
      else (Raise (HTTPException 403 "Not authorized to update this task" []),
            s)
  end.
Proof.
  unfold update_task, bind, select_task_by_id, lift, raise, ret, save_task.
  destruct (tasks s !! task_id) as [task |]; simpl; [| done].
  repeat case_bool_decide; done.
Qed.

Lemma delete_task_unfold (task_id : Z) (actor : User.t) (s : Store) :
  delete_task task_id actor s =
  match tasks s !! task_id with
  | None => (Raise (HTTPException 404 "Task not found" []), s)
  | Some task =>
      if bool_decide (Task.user_id task = User.id actor)
      then (Ok tt, {| users := users s;
                      tasks := delete (Task.id task) (tasks s) |})
      else (Raise (HTTPException 403 "Not authorized to delete this task" []),
            s)
  end.
Proof.
  unfold delete_task, bind, select_task_by_id, lift, raise, ret, delete_row.
  destruct (tasks s !! task_id) as [task |]; simpl; [| done].
  repeat case_bool_decide; done.
Qed.

(** C1. Read, update and delete of one task take the same decision in the
    same order. When no task has the id, each answers 404 and leaves the
    store as it was; otherwise, when the task belongs to another user, each
    answers 403 with a fixed message, no task content, and leaves the store
    as it was; otherwise each one succeeds. *)
Theorem single_task_guard (task_id : Z) (data : TaskUpdate.t)
    (actor : User.t) (now : Z) (s : Store) :
  match authorize_spec (tasks s !! task_id) actor with
  | NotFound =>
      get_task task_id actor s
        = (Raise (HTTPException 404 "Task not found" []), s)
      ∧ update_task task_id data actor now s
        = (Raise (HTTPException 404 "Task not found" []), s)
      ∧ delete_task task_id actor s
        = (Raise (HTTPException 404 "Task not found" []), s)
  | Forbid =>
      get_task task_id actor s
        = (Raise (HTTPException 403 "Not authorized to access this task" []),
           s)
      ∧ update_task task_id data actor now s
        = (Raise (HTTPException 403 "Not authorized to update this task" []),
           s)
      ∧ delete_task task_id actor s
        = (Raise (HTTPException 403 "Not authorized to delete this task" []),
           s)
  | Allow =>
      (∃ r, get_task task_id actor s = (Ok r, s))
      ∧ (∃ r s', update_task task_id data actor now s = (Ok r, s'))
      ∧ (∃ s', delete_task task_id actor s = (Ok tt, s'))
  end.
Proof.
  rewrite get_task_unfold, update_task_unfold, delete_task_unfold.
  unfold authorize_spec.
  destruct (tasks s !! task_id) as [task |]; [| done].
  repeat case_bool_decide; try done; eauto 10.
Qed.

End Ownership.

(** ** The list endpoint *)

Section Listing.

Lemma elem_of_rows {A : Type} (table : gmap Z A) (row : A) :
  row ∈ (map_to_list table).*2 ↔ ∃ k, table !! k = Some row.
Proof.
  rewrite list_elem_of_fmap. split.
  - intros ([k row'] & -> & Hin). exists k. by apply elem_of_map_to_list.
  - intros (k & Hk). exists (k, row). split; [done |].
    by apply elem_of_map_to_list.
Qed.

Lemma elem_of_select_tasks_by_user (uid : Z) (s : Store) (t : Task.t) :
  t ∈ merge_sort created_at_desc
        (filter (λ t, Task.user_id t = uid) (map_to_list (tasks s)).*2)
  ↔ ∃ k, tasks s !! k = Some t ∧ Task.user_id t = uid.
Proof.
  rewrite merge_sort_Permutation, list_elem_of_filter, elem_of_rows.
  split; [intros [Hu [k Hk]] | intros [k [Hk Hu]]]; eauto.
Qed.

(** C3. The list endpoint answers with exactly the tasks of the actor:
    a task response is in the answer if and only if it is the response of a
    stored task whose [user_id] is the actor's id; the answer is a
    rearrangement of the actor's rows, so none appears twice or is left
    out; [total] is the number of tasks in the answer; and the store is
    not changed. *)
Theorem get_tasks_scoped (actor : User.t) (s : Store) :
  ∃ l : TaskList.t,
    get_tasks actor s = (Ok l, s)
    ∧ (∀ r, r ∈ TaskList.tasks l ↔
            ∃ k t, tasks s !! k = Some t
                   ∧ Task.user_id t = User.id actor
                   ∧ r = TaskResponse.model_validate t)
    ∧ TaskList.tasks l ≡ₚ
        TaskResponse.model_validate <$>
          filter (λ t, Task.user_id t = User.id actor)
            (map_to_list (tasks s)).*2
    ∧ TaskList.total l = Z.of_nat (length (TaskList.tasks l)).
Proof.
  eexists. split; [reflexivity |]. simpl. split_and!.
  - intros r. rewrite list_elem_of_fmap. split.
    + intros (t & -> & (k & Hk & Hu)%elem_of_select_tasks_by_user). eauto.
    + intros (k & t & Hk & Hu & ->). exists t. split; [done |].
      apply elem_of_select_tasks_by_user. eauto.
  - by rewrite merge_sort_Permutation.
  - by rewrite length_fmap.
Qed.

End Listing.

(** ** Ownership is fixed by the authenticated caller *)

Section Owner.

Lemma le_foldr_max (l : list Z) (x : Z) : x ∈ l → x ≤ foldr Z.max 0 l.
Proof.
  induction l as [| y l IH]; [by intros ?%elem_of_nil |].
  intros [-> | Hin]%elem_of_cons; simpl; [lia |].
  specialize (IH Hin). lia.
Qed.

(** The key of a new row is not in the table. *)
Lemma next_id_fresh {A : Type} (table : gmap Z A) :
  table !! next_id table = None.
Proof.
  destruct (table !! next_id table) as [row |] eqn:Hrow; [| done].
  assert (next_id table ∈ (map_to_list table).*1) as Hin.
  { apply list_elem_of_fmap. exists (next_id table, row).
    split; [done |]. by apply elem_of_map_to_list. }
  apply le_foldr_max in Hin. unfold next_id in Hin at 1. lia.
Qed.

(** The schemas read the keys they declare and no other. *)
Lemma TaskCreate_validate_extra (key : string) (v : jvalue)
    (body : gmap string jvalue) :
  key ≠ "title" → key ≠ "description" →
  TaskCreate.validate (<[key := v]> body) = TaskCreate.validate body.
Proof.
  intros Ht Hd. unfold TaskCreate.validate.
  by rewrite !lookup_insert_ne.
Qed.

Lemma TaskUpdate_validate_extra (key : string) (v : jvalue)
    (body : gmap string jvalue) :
  key ≠ "title" → key ≠ "description" → key ≠ "is_completed" →
  TaskUpdate.validate (<[key := v]> body) = TaskUpdate.validate body.
Proof.
  intros Ht Hd Hc. unfold TaskUpdate.validate.
  by rewrite !lookup_insert_ne.
Qed.

Lemma create_task_unfold (data : TaskCreate.t) (actor : User.t) (now : Z)
    (s : Store) :
  create_task data actor now s =
  let t := {| Task.id := next_id (tasks s);
              Task.user_id := User.id actor;
              Task.title := TaskCreate.title data;
              Task.description := TaskCreate.description data;
              Task.is_completed := false;
              Task.created_at := now;
              Task.updated_at := now |} in
  (Ok (TaskResponse.model_validate t),
   {| users := users s; tasks := <[next_id (tasks s) := t]> (tasks s) |}).
Proof. reflexivity. Qed.

(** An update, whatever its outcome, keeps every task and its owner. *)
Lemma update_task_keeps_owner (task_id : Z) (data : TaskUpdate.t)
    (actor : User.t) (now : Z) (s : Store) (k : Z) (t : Task.t) :
  tasks_wf s →
  tasks s !! k = Some t →
  ∃ t', tasks (update_task task_id data actor now s).2 !! k = Some t'
        ∧ Task.user_id t' = Task.user_id t.
Proof.
  intros Hwf Hk. rewrite update_task_unfold.
  destruct (tasks s !! task_id) as [task |] eqn:Htask; [| by eauto].
  case_bool_decide; [| by eauto]. simpl.
  rewrite (Hwf _ _ Htask).
  destruct (decide (task_id = k)) as [-> | Hne].
  - rewrite lookup_insert_eq. eexists; split; [done |].
    simpl. congruence.
  - rewrite lookup_insert_ne by done. eauto.
Qed.

(** C2. A task is stored under the id of the authenticated caller, and an
    update leaves the owner of every stored task as it was. A [user_id] or
    [owner_id] key in the body changes nothing: with or without it the
    request has the same outcome and leaves the same store. Every body
    that the schema accepts does create a task, under a new key, whose
    owner is the caller, whatever the injected key says; every accepted
    update of a task of the caller is carried out and the task stays the
    caller's. *)
Theorem owner_from_caller_only (key : string) (injected : jvalue)
    (body : gmap string jvalue) (actor : User.t) (task_id now : Z)
    (s : Store) :
  key = "user_id" ∨ key = "owner_id" →
  tasks_wf s →
  post_tasks (<[key := injected]> body) actor now s
    = post_tasks body actor now s
  ∧ (∀ data, TaskCreate.validate body = Ok data →
       ∃ r s' t,
         post_tasks (<[key := injected]> body) actor now s = (Ok r, s')
         ∧ TaskResponse.user_id r = User.id actor
         ∧ tasks s !! TaskResponse.id r = None
         ∧ tasks s' !! TaskResponse.id r = Some t
         ∧ Task.user_id t = User.id actor)
  ∧ (∀ r s', post_tasks body actor now s = (Ok r, s') →
       TaskResponse.user_id r = User.id actor
       ∧ tasks s !! TaskResponse.id r = None
       ∧ ∃ t, tasks s' !! TaskResponse.id r = Some t
              ∧ Task.user_id t = User.id actor)
  ∧ put_task task_id (<[key := injected]> body) actor now s
    = put_task task_id body actor now s
  ∧ (∀ data old, TaskUpdate.validate body = Ok data →
       tasks s !! task_id = Some old →
       Task.user_id old = User.id actor →
       ∃ r s' t,
         put_task task_id (<[key := injected]> body) actor now s = (Ok r, s')
         ∧ TaskResponse.user_id r = User.id actor
         ∧ tasks s' !! task_id = Some t
         ∧ Task.user_id t = User.id actor)
  ∧ (∀ k t, tasks s !! k = Some t →
       ∃ t', tasks (put_task task_id body actor now s).2 !! k = Some t'
             ∧ Task.user_id t' = Task.user_id t).
Proof.
  intros Hkey Hwf.
  assert (TaskCreate.validate (<[key := injected]> body)
          = TaskCreate.validate body) as Hcreate.
  { apply TaskCreate_validate_extra; destruct Hkey as [-> | ->]; done. }
  assert (TaskUpdate.validate (<[key := injected]> body)
          = TaskUpdate.validate body) as Hupdate.
  { apply TaskUpdate_validate_extra; destruct Hkey as [-> | ->]; done. }
  split_and!.
  - unfold post_tasks, bind, lift. by rewrite Hcreate.
  - intros data Hdata. unfold post_tasks, bind, lift.
    rewrite Hcreate, Hdata, create_task_unfold. simpl.
    eexists _, _, _. split; [reflexivity |]. simpl.
    split_and!; [done | apply next_id_fresh | apply lookup_insert_eq | done].
  - intros r s'. unfold post_tasks, bind, lift.
    destruct (TaskCreate.validate body) as [data | e]; [| done].
    rewrite create_task_unfold. simpl. intros [= <- <-]. simpl.
    split_and!; [done | apply next_id_fresh |].
    rewrite lookup_insert_eq. eauto.
  - unfold put_task, bind, lift. by rewrite Hupdate.
  - intros data old Hdata Hold Howner. unfold put_task, bind, lift.
    rewrite Hupdate, Hdata, update_task_unfold, Hold.
    rewrite bool_decide_eq_true_2 by done.
    eexists _, _, _. split; [reflexivity |]. simpl.
    rewrite (Hwf _ _ Hold).
    split_and!; [done | apply lookup_insert_eq | done].
  - intros k t Hk. unfold put_task, bind, lift.
    destruct (TaskUpdate.validate body) as [data | e]; [| by eauto].
    by apply update_task_keeps_owner.
Qed.

End Owner.

(** ** Identity resolution *)

Section Identity.

Context `{Collaborators}.

Lemma get_current_user_unfold (token : Jose.token) (now : Z) (s : Store) :
  get_current_user token now s =
  match decode_token token now with
  | Raise e => (Raise e, s)
  | Ok payload =>
      match payload !! "sub" with
      | None | Some JNull =>
          (Raise (HTTPException 401 "Could not validate credentials"
                    www_authenticate), s)
      | Some user_id =>
          match py_int user_id with
          | Raise e => (Raise e, s)
          | Ok n =>
              match users s !! n with
              | None =>
                  (Raise (HTTPException 401 "User not found"
                            www_authenticate), s)
              | Some user => (Ok user, s)
              end
          end
      end
  end.
Proof.
  unfold get_current_user, bind, lift, raise, ret, select_user_by_id.
  destruct (decode_token token now) as [payload | e]; [| done].
  destruct (payload !! "sub") as [[| b | n | sub] |]; try done; simpl.
  - by destruct (users s !! _).
  - by destruct (users s !! n).
  - destruct (PyStr.int sub) as [m |]; [| done]. by destruct (users s !! m).
Qed.

(** Resolution only reads the store. *)
Lemma get_current_user_store (token : Jose.token) (now : Z) (s : Store) :
  (get_current_user token now s).2 = s.
Proof.
  rewrite get_current_user_unfold.
  repeat case_match; done.
Qed.

(** A token signed with the configured secret and algorithm, without time
    claims other than an expiry that has not passed, decodes to its
    payload when [sub] is absent or a string. *)
Lemma decode_token_signed (expiry now : Z) (sub : option string) :
  now ≤ expiry →
  decode_token
    (Jose.Signed (JWT_ALGORITHM settings) (JWT_SECRET settings)
       (<["exp" := JInt expiry]>
          (from_option (λ v, {["sub" := JStr v]}) ∅ sub))) now
  = Ok (<["exp" := JInt expiry]>
          (from_option (λ v, {["sub" := JStr v]}) ∅ sub)).
Proof.
  intros Hexp. unfold decode_token, Jose.decode.
  rewrite bool_decide_eq_true_2 by apply list_elem_of_singleton, eq_refl.
  rewrite bool_decide_eq_true_2 by done. simpl.
  unfold Jose.validate_claims, Jose.validate_iat, Jose.validate_nbf,
    Jose.validate_exp, Jose.validate_absent, Jose.validate_str.
  destruct sub as [v |]; simpl;
    rewrite ?lookup_insert_eq, ?lookup_insert_ne, ?lookup_singleton_ne,
      ?lookup_singleton_eq, ?lookup_empty by done; simpl;
    by rewrite (proj2 (Z.ltb_ge expiry now) Hexp).
Qed.

(** Whenever the subject of a decodable token is a string that [int]
    rejects, resolution ends in the [ValueError]. *)
Lemma get_current_user_unparseable (token : Jose.token) (now : Z)
    (payload : gmap string jvalue) (sub : string) (s : Store) :
  decode_token token now = Ok payload →
  payload !! "sub" = Some (JStr sub) →
  PyStr.int sub = None →
  get_current_user token now s = (Raise ValueError, s).
Proof.
  intros Hdecode Hsub Hint.
  rewrite get_current_user_unfold, Hdecode, Hsub. simpl. by rewrite Hint.
Qed.

(** C4, the part that holds: a valid token without a subject is answered
    with 401, "Could not validate credentials". The part that fails: a
    valid token whose subject is not a number makes [int] raise
    [ValueError], which no handler of the resolver catches; the client
    receives status 500, not 401. *)
Theorem subject_unparseable_not_401 (now : Z) (s : Store) :
  let sign claims :=
    Jose.Signed (JWT_ALGORITHM settings) (JWT_SECRET settings)
      (<["exp" := JInt (now + 3600)]> claims) in
  get_current_user (sign ∅) now s
    = (Raise (HTTPException 401 "Could not validate credentials"
                www_authenticate), s)
  ∧ get_current_user (sign {["sub" := JStr "abc"]}) now s
    = (Raise ValueError, s)
  ∧ ErrorHandler.status_code (ErrorHandler.handle ValueError) = 500.
Proof.
  assert (now ≤ now + 3600) as Hexp by lia.
  pose proof (decode_token_signed (now + 3600) now None Hexp) as Hnone.
  pose proof (decode_token_signed (now + 3600) now (Some "abc") Hexp) as Habc.
  simpl in *. split_and!; [| | done].
  - rewrite get_current_user_unfold, Hnone.
    by rewrite lookup_insert_ne, lookup_empty.
  - rewrite get_current_user_unfold, Habc.
    by rewrite lookup_insert_ne, lookup_singleton_eq.
Qed.

(** C6. Resolution looks the user up in the store of the current request.
    For a token that decodes and whose subject parses to [n], the answer is
    the record stored under [n] now, and 401 "User not found" when there is
    none; in particular a token that resolved stops resolving once the
    record is gone. For any token at all, an identity that is returned is a
    record of the store at the time of the call. *)
Theorem resolver_rereads_store (token : Jose.token) (now : Z)
    (payload : gmap string jvalue) (v : jvalue) (n : Z) (s : Store) :
  decode_token token now = Ok payload →
  payload !! "sub" = Some v →
  py_int v = Ok n →
  users s !! n = None →
  get_current_user token now s
    = (Raise (HTTPException 401 "User not found" www_authenticate), s)
  ∧ (∀ s0 : Store,
       get_current_user token now s0 =
       match users s0 !! n with
       | None =>
           (Raise (HTTPException 401 "User not found" www_authenticate), s0)
       | Some u => (Ok u, s0)
       end)
  ∧ (∀ token' now' s0 u s1,
       get_current_user token' now' s0 = (Ok u, s1) →
       s1 = s0 ∧ ∃ k, users s0 !! k = Some u).
Proof.
  intros Hdecode Hsub Hint Hnone.
  assert (∀ s0 : Store,
       get_current_user token now s0 =
       match users s0 !! n with
       | None =>
           (Raise (HTTPException 401 "User not found" www_authenticate), s0)
       | Some u => (Ok u, s0)
       end) as Hread.
  { intros s0. rewrite get_current_user_unfold, Hdecode, Hsub.
    destruct v; simplify_eq/=; by rewrite ?Hint. }
  split_and!; [| done |].
  - by rewrite Hread, Hnone.
  - intros token' now' s0 u s1. rewrite get_current_user_unfold.
    intros Hres. repeat case_match; simplify_eq; eauto.
Qed.

Lemma create_access_token_default (data : gmap string jvalue) (now : Z) :
  JWT_ALGORITHM settings ∈ Jose.SUPPORTED →
  create_access_token data None now
  = Ok (Jose.Signed (JWT_ALGORITHM settings) (JWT_SECRET settings)
          (<["exp" := JInt (now + 3600 * JWT_EXPIRATION_HOURS settings)]>
             data)).
Proof.
  intros Halg. unfold create_access_token, Jose.encode.
  by rewrite bool_decide_eq_true_2.
Qed.

(** Every token that [create_access_token] returns for the payload
    [{"sub": v}] carries [v] as its subject. *)
Lemma create_access_token_subject (v : jvalue) (now : Z) (t : Jose.token) :
  create_access_token {["sub" := v]} None now = Ok t →
  token_subject t = Some v.
Proof.
  unfold create_access_token, Jose.encode. case_bool_decide; [| done].
  intros [= <-]. simpl. by rewrite lookup_insert_ne, lookup_singleton_eq.
Qed.

Lemma login_subject (credentials : UserLogin.t) (now : Z) (s s' : Store)
    (resp : AuthResponse.t) :
  login credentials now s = (Ok resp, s') →
  token_subject (AuthResponse.access_token resp)
  = Some (JStr (PyStr.str (UserResponse.id (AuthResponse.user resp)))).
Proof.
  unfold login, bind, lift, raise, ret, select_user_by_email. simpl.
  destruct (scalar_one_or_none _) as [[user |] | e]; simpl; try done.
  destruct (verify_password _ _); simpl; [| done].
  destruct (create_access_token _ None now) as [t |] eqn:Ht; [| done].
  intros [= <- <-]. simpl. by apply create_access_token_subject in Ht.
Qed.

Lemma register_subject (user_data : UserRegister.t) (now : Z) (s s' : Store)
    (resp : AuthResponse.t) :
  register user_data now s = (Ok resp, s') →
  token_subject (AuthResponse.access_token resp)
  = Some (JStr (PyStr.str (UserResponse.id (AuthResponse.user resp)))).
Proof.
  unfold register, bind, lift, raise, ret, select_user_by_email, insert_user.
  simpl.
  destruct (scalar_one_or_none _) as [[user |] | e]; simpl; try done.
  destruct (create_access_token _ None now) as [t |] eqn:Ht; [| done].
  intros [= <- <-]. simpl. by apply create_access_token_subject in Ht.
Qed.

(** C8. The subject of a token issued at registration or login is the
    user's id rendered by [str]; [int] reads that text back to the same
    id; and resolving the token issued for user [u], before it expires,
    fetches exactly [u]. *)
Theorem subject_round_trip (u : User.t) (now now' : Z) (s : Store) :
  JWT_ALGORITHM settings ∈ Jose.SUPPORTED →
  users s !! User.id u = Some u →
  now' ≤ now + 3600 * JWT_EXPIRATION_HOURS settings →
  PyStr.int (PyStr.str (User.id u)) = Some (User.id u)
  ∧ (∃ token,
       create_access_token {["sub" := JStr (PyStr.str (User.id u))]} None now
         = Ok token
       ∧ token_subject token = Some (JStr (PyStr.str (User.id u)))
       ∧ get_current_user token now' s = (Ok u, s))
  ∧ (∀ credentials s0 s1 resp,
       login credentials now s0 = (Ok resp, s1) →
       token_subject (AuthResponse.access_token resp)
       = Some (JStr (PyStr.str (UserResponse.id (AuthResponse.user resp)))))
  ∧ (∀ user_data s0 s1 resp,
       register user_data now s0 = (Ok resp, s1) →
       token_subject (AuthResponse.access_token resp)
       = Some (JStr (PyStr.str (UserResponse.id (AuthResponse.user resp))))).
Proof.
  intros Halg Hu Hexp. split_and!.
  - apply int_str.
  - eexists. split; [by apply create_access_token_default |].
    split; [simpl; by rewrite lookup_insert_ne, lookup_singleton_eq |].
    rewrite get_current_user_unfold.
    pose proof (decode_token_signed _ now' (Some (PyStr.str (User.id u))) Hexp)
      as Hdecode.
    simpl in Hdecode. rewrite Hdecode.
    rewrite lookup_insert_ne, lookup_singleton_eq by done. simpl.
    by rewrite int_str, Hu.
  - intros credentials s0 s1 resp. apply login_subject.
  - intros user_data s0 s1 resp. apply register_subject.
Qed.

End Identity.

(** ** Accounts: login and registration *)

Section Accounts.

Context `{Collaborators}.

Lemma filter_none {A : Type} (P : A → Prop) `{∀ x, Decision (P x)}
    (l : list A) :
  (∀ x, x ∈ l → ¬ P x) → filter P l = [].
Proof.
  induction l as [| y l IH]; [done |]. intros Hl.
  rewrite filter_cons_False by (apply Hl; left).
  apply IH. intros x Hx. apply Hl. by right.
Qed.

(** A value of a duplicate-free column selects exactly its row. *)
Lemma filter_unique_column {A B : Type} `{EqDecision B} (f : A → B)
    (l : list A) (x : A) :
  NoDup (f <$> l) → x ∈ l → filter (λ y, f y = f x) l = [x].
Proof.
  induction l as [| y l IH]; [by intros _ ?%elem_of_nil |].
  rewrite fmap_cons, NoDup_cons. intros [Hy Hl] [-> | Hx]%elem_of_cons.
  - rewrite filter_cons_True by done. f_equal.
    apply filter_none. intros z Hz Heq. apply Hy.
    rewrite <- Heq. by apply list_elem_of_fmap_2.
  - rewrite filter_cons_False; [by apply IH |].
    intros Heq. apply Hy. rewrite Heq. by apply list_elem_of_fmap_2.
Qed.

Lemma users_with_email_none (email : string) (s : Store) :
  (∀ k u, users s !! k = Some u → User.email u ≠ email) →
  users_with_email email s = [].
Proof.
  intros Hnone. apply filter_none.
  intros u [k Hk]%elem_of_rows. by apply (Hnone k).
Qed.

Lemma users_with_email_elem (email : string) (s : Store) (u : User.t) :
  u ∈ users_with_email email s
  ↔ ∃ k, users s !! k = Some u ∧ User.email u = email.
Proof.
  unfold users_with_email. rewrite list_elem_of_filter, elem_of_rows.
  split; [intros [He [k Hk]] | intros [k [Hk He]]]; eauto.
Qed.

Lemma users_with_email_unique (s : Store) (k : Z) (u : User.t) :
  emails_unique s → users s !! k = Some u →
  users_with_email (User.email u) s = [u].
Proof.
  intros Huniq Hk. apply filter_unique_column; [done |].
  apply elem_of_rows. eauto.
Qed.

(** After a row with a new key and a new email is stored, the email selects
    that row. *)
Lemma users_with_email_insert (s : Store) (u : User.t) :
  users s !! User.id u = None →
  users_with_email (User.email u) s = [] →
  users_with_email (User.email u)
    {| users := <[User.id u := u]> (users s); tasks := tasks s |} = [u].
Proof.
  intros Hfresh Hnone. unfold users_with_email in *. simpl.
  apply Permutation_singleton_r.
  rewrite (map_to_list_insert _ _ _ Hfresh), fmap_cons.
  rewrite filter_cons_True by done. by rewrite Hnone.
Qed.

Lemma login_unfold (credentials : UserLogin.t) (now : Z) (s : Store) :
  login credentials now s =
  match scalar_one_or_none
          (users_with_email (UserLogin.email credentials) s) with
  | Raise e => (Raise e, s)
  | Ok None =>
      (Raise (HTTPException 401 "Incorrect email or password"
                www_authenticate), s)
  | Ok (Some user) =>
      if verify_password (UserLogin.password credentials)
           (User.hashed_password user)
      then
        match create_access_token
                {["sub" := JStr (PyStr.str (User.id user))]} None now with
        | Ok access_token =>
            (Ok {| AuthResponse.access_token := access_token;
                   AuthResponse.token_type := "bearer";
                   AuthResponse.user := UserResponse.model_validate user |},
             s)
        | Raise e => (Raise e, s)
        end
      else
        (Raise (HTTPException 401 "Incorrect email or password"
                  www_authenticate), s)
  end.
Proof.
  unfold login, bind, lift, raise, ret, select_user_by_email. simpl.
  destruct (scalar_one_or_none _) as [[user |] | e]; simpl; try done.
  destruct (verify_password _ _); simpl; [| done].
  by destruct (create_access_token _ None now).
Qed.

(** C7. A login for an email without a user record and a login for an
    email whose record has another password fail with the same value:
    status 401, the message "Incorrect email or password" and the same
    header; so do the responses built from them, also when the request is
    taken from its raw body. Neither changes the store. *)
Theorem login_failures_identical (credentials : UserLogin.t)
    (now1 now2 : Z) (s1 s2 : Store) (k : Z) (user : User.t) :
  (∀ k u, users s1 !! k = Some u →
          User.email u ≠ UserLogin.email credentials) →
  emails_unique s2 →
  users s2 !! k = Some user →
  User.email user = UserLogin.email credentials →
  verify_password (UserLogin.password credentials)
    (User.hashed_password user) = false →
  login credentials now1 s1
    = (Raise (HTTPException 401 "Incorrect email or password"
                www_authenticate), s1)
  ∧ login credentials now2 s2
    = (Raise (HTTPException 401 "Incorrect email or password"
                www_authenticate), s2)
  ∧ (login credentials now1 s1).1 = (login credentials now2 s2).1
  ∧ (∀ body, UserLogin_validate body = Ok credentials →
       (post_login body now1 s1).1 = (post_login body now2 s2).1).
Proof.
  intros Habsent Huniq Hk Hemail Hverify.
  assert (login credentials now1 s1
    = (Raise (HTTPException 401 "Incorrect email or password"
                www_authenticate), s1)) as H1.
  { rewrite login_unfold. by rewrite users_with_email_none. }
  assert (login credentials now2 s2
    = (Raise (HTTPException 401 "Incorrect email or password"
                www_authenticate), s2)) as H2.
  { rewrite login_unfold, <- Hemail.
    rewrite (users_with_email_unique s2 k user Huniq Hk). simpl.
    by rewrite Hverify. }
  split_and!; [done | done | by rewrite H1, H2 |].
  intros body Hbody. unfold post_login, bind, lift.
  by rewrite Hbody, H1, H2.
Qed.

(** [sanitize_email] strips, lowercases and removes null bytes, for every
    input. *)
Lemma sanitize_email_eq (email : string) :
  sanitize_email email
  = PyStr.replace zero EmptyString (PyStr.lower (PyStr.strip email)).
Proof.
  unfold sanitize_email. destruct email as [| c email]; [done |].
  simpl PyStr.is_empty. cbv iota. by destruct (negb _).
Qed.

Lemma email_field_sanitized (e : string) :
  email_field (Some (JStr e))
  = match EmailStr (sanitize_email e) with
    | Some e' => Ok e'
    | None => Raise RequestValidationError
    end.
Proof. reflexivity. Qed.

Lemma UserRegister_validate_email (body : gmap string jvalue) (e : string)
    (user_data : UserRegister.t) :
  body !! "email" = Some (JStr e) →
  UserRegister_validate body = Ok user_data →
  EmailStr (sanitize_email e) = Some (UserRegister.email user_data).
Proof.
  intros He. unfold UserRegister_validate. rewrite He, email_field_sanitized.
  destruct (EmailStr (sanitize_email e)) as [e' |]; [| done].
  destruct (str_field _ _ <$> body !! "password") as [[p | ?] |]; try done.
  by intros [= <-].
Qed.

Lemma register_unfold (user_data : UserRegister.t) (now : Z) (s : Store) :
  register user_data now s =
  match scalar_one_or_none
          (users_with_email (UserRegister.email user_data) s) with
  | Raise e => (Raise e, s)
  | Ok (Some _) =>
      (Raise (HTTPException 400 "Email already registered" []), s)
  | Ok None =>
      let u := {| User.id := next_id (users s);
                  User.email := UserRegister.email user_data;
                  User.hashed_password :=
                    hash_password (UserRegister.password user_data);
                  User.created_at := now;
                  User.updated_at := now |} in
      let s' := {| users := <[User.id u := u]> (users s);
                   tasks := tasks s |} in
      match create_access_token
              {["sub" := JStr (PyStr.str (User.id u))]} None now with
      | Ok access_token =>
          (Ok {| AuthResponse.access_token := access_token;
                 AuthResponse.token_type := "bearer";
                 AuthResponse.user := UserResponse.model_validate u |}, s')
      | Raise e => (Raise e, s')
      end
  end.
Proof.
  unfold register, bind, lift, raise, ret, select_user_by_email, insert_user.
  simpl.
  by destruct (scalar_one_or_none _) as [[user |] | e].
Qed.

(** Token creation fails only inside the token library. *)
Lemma create_access_token_raise (data : gmap string jvalue)
    (delta : option Z) (now : Z) (e : exn) :
  create_access_token data delta now = Raise e → e = JWSError.
Proof.
  unfold create_access_token, Jose.encode. case_bool_decide; congruence.
Qed.

(** Registration answers 400 exactly when the email is on file. *)
Lemma register_taken_iff (user_data : UserRegister.t) (now : Z) (s : Store) :
  emails_unique s →
  register user_data now s
    = (Raise (HTTPException 400 "Email already registered" []), s)
  ↔ ∃ k u, users s !! k = Some u
           ∧ User.email u = UserRegister.email user_data.
Proof.
  intros Huniq. rewrite register_unfold. split.
  - destruct (users_with_email _ s) as [| u [| u' l]] eqn:Hrows; simpl.
    + destruct (create_access_token _ None now) as [t | e] eqn:Ht; [done |].
      apply create_access_token_raise in Ht as ->. done.
    + intros _.
      assert (u ∈ users_with_email (UserRegister.email user_data) s) as Hu
        by (rewrite Hrows; left).
      apply users_with_email_elem in Hu as (k & Hk & He). eauto.
    + done.
  - intros (k & u & Hk & He). rewrite <- He.
    by rewrite (users_with_email_unique s k u Huniq Hk).
Qed.

(** A registration that succeeded stored a row under a new key with the
    email of the request, and no row had that email before. *)
Lemma register_ok_inv (user_data : UserRegister.t) (now : Z) (s s' : Store)
    (resp : AuthResponse.t) :
  register user_data now s = (Ok resp, s') →
  ∃ u, User.email u = UserRegister.email user_data
       ∧ users s !! User.id u = None
       ∧ users_with_email (User.email u) s = []
       ∧ s' = {| users := <[User.id u := u]> (users s); tasks := tasks s |}.
Proof.
  rewrite register_unfold.
  destruct (users_with_email _ s) as [| u [| u' l]] eqn:Hrows; simpl;
    [| done | done].
  destruct (create_access_token _ None now) as [t | e]; [| done].
  intros [= <- <-].
  exists {| User.id := next_id (users s);
            User.email := UserRegister.email user_data;
            User.hashed_password :=
              hash_password (UserRegister.password user_data);
            User.created_at := now;
            User.updated_at := now |}.
  simpl. split_and!; [done | | done | done].
  apply next_id_fresh.
Qed.

(** C9. The email of a registration is normalized by [sanitize_email]
    (strip, lowercase, null bytes removed) before pydantic accepts it and
    before the uniqueness check; registration answers 400 "Email already
    registered" exactly when a user record with the normalized email
    exists; and once a registration has succeeded, a registration whose
    email differs only in case or surrounding white space fails. *)
Theorem registration_email_normalized (body1 body2 : gmap string jvalue)
    (e1 e2 : string) (now1 now2 : Z) (s : Store) :
  emails_unique s →
  body1 !! "email" = Some (JStr e1) →
  body2 !! "email" = Some (JStr e2) →
  PyStr.lower (PyStr.strip e1) = PyStr.lower (PyStr.strip e2) →
  sanitize_email e1
    = PyStr.replace zero EmptyString (PyStr.lower (PyStr.strip e1))
  ∧ (∀ user_data, UserRegister_validate body1 = Ok user_data →
       EmailStr (sanitize_email e1) = Some (UserRegister.email user_data)
       ∧ (post_register body1 now1 s
            = (Raise (HTTPException 400 "Email already registered" []), s)
          ↔ ∃ k u, users s !! k = Some u
                   ∧ User.email u = UserRegister.email user_data))
  ∧ (∀ resp s1, post_register body1 now1 s = (Ok resp, s1) →
       ∃ e, post_register body2 now2 s1 = (Raise e, s1)
            ∧ (e = RequestValidationError
               ∨ e = HTTPException 400 "Email already registered" [])).
Proof.
  intros Huniq Hb1 Hb2 Hsame. split_and!.
  - apply sanitize_email_eq.
  - intros user_data Hvalid.
    split; [by eapply UserRegister_validate_email |].
    unfold post_register, bind, lift. rewrite Hvalid.
    by apply register_taken_iff.
  - intros resp s1. unfold post_register, bind, lift.
    destruct (UserRegister_validate body1) as [ud1 | ?] eqn:Hv1; [| done].
    intros (u & Hu & Hfresh & Hnone & ->)%register_ok_inv.
    destruct (UserRegister_validate body2) as [ud2 | e] eqn:Hv2.
    + eexists. split; [| by right].
      pose proof (UserRegister_validate_email _ _ _ Hb1 Hv1) as He1.
      pose proof (UserRegister_validate_email _ _ _ Hb2 Hv2) as He2.
      rewrite !sanitize_email_eq, Hsame in *.
      assert (UserRegister.email ud2 = User.email u) as Heq by congruence.
      rewrite register_unfold, Heq.
      by rewrite (users_with_email_insert s u Hfresh Hnone).
    + exists e. split; [done |]. left.
      revert Hv2. unfold UserRegister_validate, email_field.
      repeat case_match; congruence.
Qed.

End Accounts.

(** ** The failures of token parsing *)

Section TokenFailures.

Context `{Collaborators}.

Lemma int_claim_raise (v : jvalue) (e : exn) :
  Jose.int_claim v = Raise e → e = JWTClaimsError ∨ e = TypeError.
Proof.
  unfold Jose.int_claim, py_int. destruct v as [| b | n | x]; try done.
  - intros [= <-]. by right.
  - destruct (PyStr.int x); [done |]. intros [= <-]. by left.
Qed.

Lemma validate_iat_raise (claims : gmap string jvalue) (e : exn) :
  Jose.validate_iat claims = Raise e → e = JWTClaimsError ∨ e = TypeError.
Proof.
  unfold Jose.validate_iat.
  destruct (claims !! "iat") as [v |]; [| done].
  destruct (Jose.int_claim v) as [n | e'] eqn:Hv; [done |].
  intros [= <-]. by apply int_claim_raise in Hv.
Qed.

Lemma validate_nbf_raise (claims : gmap string jvalue) (now : Z) (e : exn) :
  Jose.validate_nbf claims now = Raise e →
  e = JWTClaimsError ∨ e = TypeError.
Proof.
  unfold Jose.validate_nbf.
  destruct (claims !! "nbf") as [v |]; [| done].
  destruct (Jose.int_claim v) as [n | e'] eqn:Hv.
  - destruct (now <? n); [| done]. intros [= <-]. by left.
  - intros [= <-]. by apply int_claim_raise in Hv.
Qed.


End TokenFailures.


(** ** Sanitized task text *)

Section Sanitization.

Lemma contains_app (c : ascii) (a b : string) :
  PyStr.contains c (a ++ b) = PyStr.contains c a || PyStr.contains c b.
Proof.
  induction a as [| d a IH]; simpl; [done |].
  by rewrite IH, orb_assoc.
Qed.

Lemma contains_replace_same (c : ascii) (r s : string) :
  PyStr.contains c r = false → PyStr.contains c (PyStr.replace c r s) = false.
Proof.
  intros Hr. induction s as [| d s IH]; simpl; [done |].
  destruct (Ascii.eqb d c) eqn:Hd; simpl.
  - by rewrite contains_app, Hr, IH.
  - by rewrite Hd, IH.
Qed.

Lemma contains_replace_other (c d : ascii) (r s : string) :
  PyStr.contains c s = false → PyStr.contains c r = false →
  PyStr.contains c (PyStr.replace d r s) = false.
Proof.
  intros Hs Hr. induction s as [| x s IH]; simpl in *; [done |].
  apply orb_false_elim in Hs as [Hx Hs].
  destruct (Ascii.eqb x d); simpl.
  - by rewrite contains_app, Hr, IH.
  - by rewrite Hx, IH.
Qed.

(** No [<] is left by [html.escape], nor put back by the removal of null
    bytes. *)
Lemma sanitize_string_no_lt (v : string) :
  PyStr.contains "<" (sanitize_string v) = false.
Proof.
  unfold sanitize_string. destruct v as [| c v]; [done |].
  simpl PyStr.is_empty. cbv iota. unfold html_escape.
  do 4 (apply contains_replace_other; [| done]).
  by apply contains_replace_same.
Qed.

Lemma sanitize_string_eq (v : string) :
  sanitize_string v
  = PyStr.replace zero EmptyString (html_escape (PyStr.strip v)).
Proof. by destruct v. Qed.

Lemma sanitize_string_blank (v : string) :
  PyStr.strip v = EmptyString → sanitize_string v = EmptyString.
Proof. intros Hv. by rewrite sanitize_string_eq, Hv. Qed.

Lemma str_field_ok (min_length max_length : option Z) (v : jvalue)
    (s : string) :
  str_field min_length max_length v = Ok s → v = JStr s.
Proof.
  unfold str_field. destruct v; try done.
  repeat case_match; congruence.
Qed.

Lemma required_str_field_ok (f : string → string)
    (min_length max_length : option Z) (v : option jvalue) (s : string) :
  required_str_field f min_length max_length v = Ok s →
  ∃ raw, v = Some (JStr raw) ∧ s = f raw.
Proof.
  destruct v as [[| | | raw] |]; try done.
  unfold required_str_field, before_str.
  intros [= <-]%str_field_ok. eauto.
Qed.

Lemma optional_str_field_ok (f : string → string)
    (min_length max_length : option Z) (raw : string) (r : option string) :
  optional_str_field f min_length max_length (Some (JStr raw)) = Ok r →
  r = Some (f raw).
Proof.
  unfold optional_str_field, before_str.
  destruct (str_field _ _ _) as [s |] eqn:Hs; [| done].
  apply str_field_ok in Hs as [= <-]. by intros [= <-].
Qed.

Lemma TaskCreate_validate_ok (body : gmap string jvalue) (data : TaskCreate.t) :
  TaskCreate.validate body = Ok data →
  (∀ title, body !! "title" = Some (JStr title) →
            TaskCreate.title data = sanitize_string title)
  ∧ (∀ d, body !! "description" = Some (JStr d) →
          TaskCreate.description data = Some (sanitize_string d)).
Proof.
  unfold TaskCreate.validate.
  destruct (required_str_field _ _ _ _) as [t |] eqn:Ht; [| done].
  destruct (optional_str_field _ _ _ _) as [d |] eqn:Hd; [| done].
  intros [= <-]. simpl. split.
  - intros title Hb. rewrite Hb in Ht.
    apply required_str_field_ok in Ht as (raw & [= <-] & ->). done.
  - intros raw Hb. rewrite Hb in Hd. by apply optional_str_field_ok in Hd.
Qed.

Lemma TaskUpdate_validate_ok (body : gmap string jvalue) (data : TaskUpdate.t) :
  TaskUpdate.validate body = Ok data →
  (∀ title, body !! "title" = Some (JStr title) →
            TaskUpdate.title data = Some (sanitize_string title))
  ∧ (∀ d, body !! "description" = Some (JStr d) →
          TaskUpdate.description data = Some (sanitize_string d)).
Proof.
  unfold TaskUpdate.validate.
  destruct (optional_str_field _ _ _ (body !! "title")) as [t |] eqn:Ht;
    [| done].
  destruct (optional_str_field _ _ _ (body !! "description")) as [d |] eqn:Hd;
    [| done].
  destruct (optional_bool_field _) as [c |]; [| done].
  intros [= <-]. simpl. split.
  - intros raw Hb. rewrite Hb in Ht. by apply optional_str_field_ok in Ht.
  - intros raw Hb. rewrite Hb in Hd. by apply optional_str_field_ok in Hd.
Qed.

Lemma str_field_JStr (lo hi : Z) (x : string) :
  str_field (Some lo) (Some hi) (JStr x)
  = if bool_decide (lo ≤ PyStr.len x ≤ hi) then Ok x
    else Raise RequestValidationError.
Proof.
  unfold str_field. simpl.
  destruct (PyStr.len x <? lo) eqn:Hlo; [apply Z.ltb_lt in Hlo
                                        | apply Z.ltb_ge in Hlo];
    (destruct (hi <? PyStr.len x) eqn:Hhi; [apply Z.ltb_lt in Hhi
                                           | apply Z.ltb_ge in Hhi]);
    case_bool_decide; try done; lia.
Qed.

Lemma str_field_max_JStr (hi : Z) (x : string) :
  str_field None (Some hi) (JStr x)
  = if bool_decide (PyStr.len x ≤ hi) then Ok x
    else Raise RequestValidationError.
Proof.
  unfold str_field. simpl.
  destruct (hi <? PyStr.len x) eqn:Hhi; [apply Z.ltb_lt in Hhi
                                        | apply Z.ltb_ge in Hhi];
    case_bool_decide; try done; lia.
Qed.

Lemma required_text_accepts (lo hi : Z) (v : option jvalue) (x : string) :
  v = Some (JStr x) →
  lo ≤ PyStr.len (sanitize_string x) ≤ hi →
  required_str_field sanitize_string (Some lo) (Some hi) v
  = Ok (sanitize_string x).
Proof.
  intros -> Hlen. unfold required_str_field. cbn [before_str].
  by rewrite str_field_JStr, bool_decide_eq_true_2.
Qed.

Lemma optional_text_accepts (lo hi : Z) (v : option jvalue) :
  text_field_ok lo hi v →
  ∃ r, optional_str_field sanitize_string (Some lo) (Some hi) v = Ok r.
Proof.
  intros [-> | [-> | (x & -> & Hlen)]]; [by eexists | by eexists |].
  unfold optional_str_field. cbn [before_str].
  rewrite str_field_JStr, bool_decide_eq_true_2 by done. by eexists.
Qed.

Lemma optional_text_max_accepts (hi : Z) (v : option jvalue) :
  text_field_ok 0 hi v →
  ∃ r, optional_str_field sanitize_string None (Some hi) v = Ok r.
Proof.
  intros [-> | [-> | (x & -> & Hlen)]]; [by eexists | by eexists |].
  unfold optional_str_field. cbn [before_str].
  rewrite str_field_max_JStr, bool_decide_eq_true_2 by lia. by eexists.
Qed.

Lemma TaskCreate_validate_accepts (body : gmap string jvalue)
    (title : string) :
  body !! "title" = Some (JStr title) →
  1 ≤ PyStr.len (sanitize_string title) ≤ 255 →
  text_field_ok 0 1000 (body !! "description") →
  ∃ data, TaskCreate.validate body = Ok data.
Proof.
  intros Htitle Hlen Hdesc. unfold TaskCreate.validate.
  rewrite (required_text_accepts 1 255 _ title Htitle Hlen).
  destruct (optional_text_max_accepts 1000 _ Hdesc) as [d ->]. by eexists.
Qed.

Lemma TaskUpdate_validate_accepts (body : gmap string jvalue)
    (c : option bool) :
  text_field_ok 1 255 (body !! "title") →
  text_field_ok 0 1000 (body !! "description") →
  optional_bool_field (body !! "is_completed") = Ok c →
  ∃ data, TaskUpdate.validate body = Ok data.
Proof.
  intros Htitle Hdesc Hdone. unfold TaskUpdate.validate.
  destruct (optional_text_accepts 1 255 _ Htitle) as [t ->].
  destruct (optional_text_max_accepts 1000 _ Hdesc) as [d ->].
  rewrite Hdone. by eexists.
Qed.

(** What [strip] leaves: the part of the string between a run of white
    space at its head and one at its tail, which itself neither starts
    nor ends with white space. *)
Lemma lstrip_split (v : string) :
  ∃ l, v = l ++ PyStr.lstrip v
       ∧ all_space l = true
       ∧ ∀ c, first_char (PyStr.lstrip v) = Some c → PyStr.isspace c = false.
Proof.
  induction v as [| c v (l & Hv & Hl & Hc)]; [by exists EmptyString |].
  simpl. destruct (PyStr.isspace c) eqn:Hsp.
  - exists (String c l).
    split_and!; [by change (String c v = String c (l ++ PyStr.lstrip v));
                   f_equal
                | by simpl; rewrite Hsp | done].
  - exists EmptyString. split_and!; [done | done |].
    simpl. by intros ? [= <-].
Qed.

Lemma rstrip_split (v : string) :
  ∃ r, v = PyStr.rstrip v ++ r
       ∧ all_space r = true
       ∧ ∀ c, last_char (PyStr.rstrip v) = Some c → PyStr.isspace c = false.
Proof.
  induction v as [| c v (r & Hv & Hr & Hc)]; [by exists EmptyString |].
  cbn [PyStr.rstrip]. revert Hv Hc.
  destruct (PyStr.rstrip v) as [| d w]; intros Hv Hc.
  - change (v = r) in Hv. subst r.
    destruct (PyStr.isspace c) eqn:Hsp; cbn [andb PyStr.is_empty].
    + exists (String c v).
      split_and!; [done | by cbn [all_space]; rewrite Hsp | done].
    + exists v. split_and!; [done | done |]. by intros ? [= <-].
  - replace (PyStr.isspace c && PyStr.is_empty (String d w)) with false
      by (by rewrite andb_false_r).
    exists r. split_and!; [| done | exact Hc].
    change (String c v = String c (String d w ++ r)). by f_equal.
Qed.

Lemma first_char_rstrip (v : string) (c : ascii) :
  first_char (PyStr.rstrip v) = Some c → first_char v = Some c.
Proof.
  destruct v as [| d v]; simpl; [done |].
  by destruct (PyStr.isspace d && PyStr.is_empty (PyStr.rstrip v)).
Qed.

Lemma strip_split (v : string) :
  ∃ l r, v = l ++ PyStr.strip v ++ r
         ∧ all_space l = true
         ∧ all_space r = true
         ∧ (∀ c, first_char (PyStr.strip v) = Some c →
                 PyStr.isspace c = false)
         ∧ (∀ c, last_char (PyStr.strip v) = Some c →
                 PyStr.isspace c = false).
Proof.
  destruct (lstrip_split v) as (l & Hv & Hl & Hfirst).
  destruct (rstrip_split (PyStr.lstrip v)) as (r & Hw & Hr & Hlast).
  exists l, r. unfold PyStr.strip.
  split_and!; [by rewrite <- Hw | done | done | | done].
  intros c Hc. by apply Hfirst, first_char_rstrip.
Qed.

(** Of a string of white space [strip] leaves nothing. *)
Lemma strip_all_space (v : string) :
  all_space v = true → PyStr.strip v = EmptyString.
Proof.
  intros Hv. unfold PyStr.strip.
  assert (PyStr.lstrip v = EmptyString) as ->; [| done].
  induction v as [| c v IH]; simpl in *; [done |].
  apply andb_prop in Hv as [-> Hv]. auto.
Qed.

Lemma string_app_assoc (a b c : string) : (a ++ b) ++ c = a ++ (b ++ c).
Proof.
  induction a as [| d a IH]; [done |].
  change (String d ((a ++ b) ++ c) = String d (a ++ (b ++ c))).
  by rewrite IH.
Qed.

Lemma replace_app (c : ascii) (r a b : string) :
  PyStr.replace c r (a ++ b) = PyStr.replace c r a ++ PyStr.replace c r b.
Proof.
  induction a as [| d a IH]; [done |].
  change (PyStr.replace c r (String d (a ++ b))
          = PyStr.replace c r (String d a) ++ PyStr.replace c r b).
  cbn [PyStr.replace]. rewrite IH.
  destruct (Ascii.eqb d c); [by rewrite string_app_assoc | done].
Qed.

(** [html_escape] works character by character. *)
Lemma html_escape_cons (c : ascii) (v : string) :
  html_escape (String c v) = escape_char c ++ html_escape v.
Proof.
  unfold html_escape, escape_char. cbn [PyStr.replace].
  destruct (Ascii.eqb_spec c "&") as [-> | _].
  { rewrite !replace_app. reflexivity. }
  cbn [PyStr.replace].
  destruct (Ascii.eqb_spec c "<") as [-> | _].
  { rewrite !replace_app. reflexivity. }
  cbn [PyStr.replace].
  destruct (Ascii.eqb_spec c ">") as [-> | _].
  { rewrite !replace_app. reflexivity. }
  cbn [PyStr.replace].
  destruct (Ascii.eqb_spec c (ascii_of_N 34)) as [-> | _].
  { rewrite !replace_app. reflexivity. }
  cbn [PyStr.replace].
  destruct (Ascii.eqb_spec c "'") as [-> | _]; reflexivity.
Qed.

(** C10. The title and the description that a create or an update stores
    and echoes are the submitted strings after [sanitize_string]:
    stripped, HTML-escaped, null bytes removed. A body with a title whose
    sanitized form has 1 to 255 characters is created, an acceptable
    update of a task of the caller is carried out, and the stored row and
    the answer hold the sanitized text. Stripping removes the white space
    at both ends and nothing else; escaping rewrites each of the five
    characters and no other; the sanitized text holds no [<]. A title of
    white space only is rejected by the validation of the body, and the
    store stays as it was. *)
Theorem task_text_sanitized (body : gmap string jvalue) (actor : User.t)
    (task_id now : Z) (s : Store) :
  tasks_wf s →
  (∀ title, body !! "title" = Some (JStr title) →
     1 ≤ PyStr.len (sanitize_string title) ≤ 255 →
     text_field_ok 0 1000 (body !! "description") →
     ∃ r s' t,
       post_tasks body actor now s = (Ok r, s')
       ∧ tasks s' !! TaskResponse.id r = Some t
       ∧ r = TaskResponse.model_validate t
       ∧ TaskResponse.title r = sanitize_string title
       ∧ Task.title t = sanitize_string title
       ∧ (∀ d, body !! "description" = Some (JStr d) →
               TaskResponse.description r = Some (sanitize_string d)
               ∧ Task.description t = Some (sanitize_string d)))
  ∧ (∀ r s', post_tasks body actor now s = (Ok r, s') →
     (∃ t, tasks s' !! TaskResponse.id r = Some t
           ∧ r = TaskResponse.model_validate t)
     ∧ (∀ title, body !! "title" = Some (JStr title) →
                 TaskResponse.title r = sanitize_string title)
     ∧ (∀ d, body !! "description" = Some (JStr d) →
             TaskResponse.description r = Some (sanitize_string d)))
  ∧ (∀ old c, tasks s !! task_id = Some old →
     Task.user_id old = User.id actor →
     text_field_ok 1 255 (body !! "title") →
     text_field_ok 0 1000 (body !! "description") →
     optional_bool_field (body !! "is_completed") = Ok c →
     ∃ r s' t,
       put_task task_id body actor now s = (Ok r, s')
       ∧ tasks s' !! task_id = Some t
       ∧ r = TaskResponse.model_validate t
       ∧ (∀ title, body !! "title" = Some (JStr title) →
                   TaskResponse.title r = sanitize_string title
                   ∧ Task.title t = sanitize_string title)
       ∧ (∀ d, body !! "description" = Some (JStr d) →
               TaskResponse.description r = Some (sanitize_string d)
               ∧ Task.description t = Some (sanitize_string d)))
  ∧ (∀ r s', put_task task_id body actor now s = (Ok r, s') →
     (∃ t, tasks s' !! task_id = Some t ∧ r = TaskResponse.model_validate t)
     ∧ (∀ title, body !! "title" = Some (JStr title) →
                 TaskResponse.title r = sanitize_string title)
     ∧ (∀ d, body !! "description" = Some (JStr d) →
             TaskResponse.description r = Some (sanitize_string d)))
  ∧ (∀ v, sanitize_string v
          = PyStr.replace zero EmptyString (html_escape (PyStr.strip v))
          ∧ PyStr.contains "<" (sanitize_string v) = false
          ∧ ∃ l r, v = l ++ PyStr.strip v ++ r
                   ∧ all_space l = true
                   ∧ all_space r = true
                   ∧ (∀ c, first_char (PyStr.strip v) = Some c →
                           PyStr.isspace c = false)
                   ∧ (∀ c, last_char (PyStr.strip v) = Some c →
                           PyStr.isspace c = false))
  ∧ (∀ c v, html_escape (String c v) = escape_char c ++ html_escape v)
  ∧ sanitize_string "  <b>Buy milk</b> " = "&lt;b&gt;Buy milk&lt;/b&gt;"
  ∧ (∀ title, body !! "title" = Some (JStr title) →
       all_space title = true →
       post_tasks body actor now s = (Raise RequestValidationError, s)
       ∧ put_task task_id body actor now s
         = (Raise RequestValidationError, s)).
Proof.
  intros Hwf. split_and!.
  - intros title Htitle Hlen Hdesc.
    destruct (TaskCreate_validate_accepts body title Htitle Hlen Hdesc)
      as [data Hv].
    unfold post_tasks, bind, lift. rewrite Hv, create_task_unfold. simpl.
    apply TaskCreate_validate_ok in Hv as [Ht Hd].
    eexists _, _, _. split; [reflexivity |]. simpl.
    rewrite lookup_insert_eq, (Ht title Htitle).
    split_and!; try done.
    intros d Hb. by rewrite (Hd d Hb).
  - intros r s'. unfold post_tasks, bind, lift.
    destruct (TaskCreate.validate body) as [data |] eqn:Hv; [| done].
    apply TaskCreate_validate_ok in Hv as [Ht Hd].
    rewrite create_task_unfold. simpl. intros [= <- <-]. simpl.
    split_and!; [| done | done].
    rewrite lookup_insert_eq. eauto.
  - intros old c Hold Howner Htitle Hdesc Hdone.
    destruct (TaskUpdate_validate_accepts body c Htitle Hdesc Hdone)
      as [data Hv].
    unfold put_task, bind, lift.
    rewrite Hv, update_task_unfold, Hold.
    rewrite bool_decide_eq_true_2 by done.
    apply TaskUpdate_validate_ok in Hv as [Ht Hd].
    eexists _, _, _. split; [reflexivity |]. simpl.
    rewrite (Hwf _ _ Hold), lookup_insert_eq.
    split_and!; try done.
    + intros title Hb. unfold apply_update. simpl.
      by rewrite (Ht title Hb).
    + intros d Hb. unfold apply_update. simpl. by rewrite (Hd d Hb).
  - intros r s'. unfold put_task, bind, lift.
    destruct (TaskUpdate.validate body) as [data |] eqn:Hv; [| done].
    apply TaskUpdate_validate_ok in Hv as [Ht Hd].
    rewrite update_task_unfold.
    destruct (tasks s !! task_id) as [task |] eqn:Htask; [| done].
    case_bool_decide; [| done]. intros [= <- <-]. simpl.
    rewrite (Hwf _ _ Htask), lookup_insert_eq. split_and!.
    + eauto.
    + intros title Hb. by rewrite (Ht title Hb).
    + intros d Hb. by rewrite (Hd d Hb).
  - intros v.
    split_and!; [apply sanitize_string_eq | apply sanitize_string_no_lt
                | apply strip_split].
  - apply html_escape_cons.
  - reflexivity.
  - intros title Hb Hblank. apply strip_all_space in Hblank.
    unfold post_tasks, put_task, bind, lift,
      TaskCreate.validate, TaskUpdate.validate.
    rewrite Hb. simpl. by rewrite (sanitize_string_blank title Hblank).
Qed.

End Sanitization.

(** ** The invariants hold in every reachable store *)

Section Invariants.

Context `{Collaborators}.

Lemma empty_store_ok : store_ok empty_store.
Proof.
  split_and!; [apply map_Forall_empty | apply map_Forall_empty |].
  unfold emails_unique. simpl. rewrite map_to_list_empty. constructor.
Qed.

Lemma post_tasks_ok (body : gmap string jvalue) (actor : User.t) (now : Z)
    (s : Store) :
  store_ok s → store_ok (post_tasks body actor now s).2.
Proof.
  intros (Hu & Ht & He). unfold post_tasks, bind, lift.
  destruct (TaskCreate.validate body) as [data | e]; [| done].
  rewrite create_task_unfold. simpl. split_and!; [done | | done].
  apply map_Forall_insert_2; done.
Qed.

Lemma put_task_ok (task_id : Z) (body : gmap string jvalue) (actor : User.t)
    (now : Z) (s : Store) :
  store_ok s → store_ok (put_task task_id body actor now s).2.
Proof.
  intros (Hu & Ht & He). unfold put_task, bind, lift.
  destruct (TaskUpdate.validate body) as [data | e]; [| done].
  rewrite update_task_unfold.
  destruct (tasks s !! task_id) as [task |]; [| done].
  case_bool_decide; [| done]. simpl. split_and!; [done | | done].
  apply map_Forall_insert_2; done.
Qed.

Lemma delete_task_ok (task_id : Z) (actor : User.t) (s : Store) :
  store_ok s → store_ok (delete_task task_id actor s).2.
Proof.
  intros (Hu & Ht & He). rewrite delete_task_unfold.
  destruct (tasks s !! task_id) as [task |]; [| done].
  case_bool_decide; [| done]. simpl. split_and!; [done | | done].
  by apply map_Forall_delete.
Qed.

Lemma insert_user_ok (s : Store) (u : User.t) :
  store_ok s →
  users s !! User.id u = None →
  users_with_email (User.email u) s = [] →
  store_ok {| users := <[User.id u := u]> (users s); tasks := tasks s |}.
Proof.
  intros (Hu & Ht & He) Hfresh Hnone. split_and!; [| done |].
  - apply map_Forall_insert_2; done.
  - unfold emails_unique. simpl.
    rewrite (map_to_list_insert _ _ _ Hfresh), !fmap_cons.
    apply NoDup_cons. split; [| done]. simpl.
    intros (u' & Heq & Hin)%list_elem_of_fmap.
    by apply (filter_nil_not_elem_of _ _ u' Hnone).
Qed.

Lemma post_register_ok (body : gmap string jvalue) (now : Z) (s : Store) :
  store_ok s → store_ok (post_register body now s).2.
Proof.
  intros Hok. unfold post_register, bind, lift.
  destruct (UserRegister_validate body) as [data | e]; [| done].
  rewrite register_unfold.
  destruct (users_with_email _ s) as [| u [| u' l]] eqn:Hrows; simpl;
    [| done | done].
  assert (store_ok
    {| users :=
         <[next_id (users s) :=
             {| User.id := next_id (users s);
                User.email := UserRegister.email data;
                User.hashed_password :=
                  hash_password (UserRegister.password data);
                User.created_at := now;
                User.updated_at := now |}]> (users s);
       tasks := tasks s |}) as Hok'.
  { refine (insert_user_ok s
              {| User.id := next_id (users s);
                 User.email := UserRegister.email data;
                 User.hashed_password :=
                   hash_password (UserRegister.password data);
                 User.created_at := now;
                 User.updated_at := now |} Hok _ Hrows).
    apply next_id_fresh. }
  by destruct (create_access_token _ None now).
Qed.

(** Login, resolution and the two reads leave the store as it is. *)
Lemma reads_keep_store (body : gmap string jvalue) (token : Jose.token)
    (task_id now : Z) (actor : User.t) (s : Store) :
  (post_login body now s).2 = s
  ∧ (get_current_user token now s).2 = s
  ∧ (get_tasks actor s).2 = s
  ∧ (get_task task_id actor s).2 = s.
Proof.
  split_and!.
  - unfold post_login, bind, lift.
    destruct (UserLogin_validate body) as [credentials | e]; [| done].
    rewrite login_unfold. repeat case_match; done.
  - apply get_current_user_store.
  - done.
  - rewrite get_task_unfold. repeat case_match; done.
Qed.

End Invariants.

(** ** The theorems at concrete requests *)

(** A decidable proposition about closed data is settled by evaluation. *)
Ltac decide_by_compute :=
  apply (bool_decide_unpack _); vm_compute; exact I.

(** Alice posts and puts a body that names Bob, user 2, as the owner: the
    task is created under key 2 and belongs to Alice, user 1; her task 1
    is updated and stays hers. *)
Lemma owner_from_caller_only_witness :
  ("user_id" = "user_id" ∨ "user_id" = "owner_id")
  ∧ tasks_wf example_store
  ∧ (∃ r s' t,
       post_tasks (<["user_id" := JInt 2]> malicious_body) alice 2000
         example_store = (Ok r, s')
       ∧ TaskResponse.user_id r = 1
       ∧ tasks example_store !! TaskResponse.id r = None
       ∧ tasks s' !! TaskResponse.id r = Some t
       ∧ Task.user_id t = 1)
  ∧ (∃ r s' t,
       put_task 1 (<["user_id" := JInt 2]> malicious_body) alice 2000
         example_store = (Ok r, s')
       ∧ TaskResponse.user_id r = 1
       ∧ tasks s' !! 1 = Some t
       ∧ Task.user_id t = 1)
  ∧ TaskResponse.user_id
      <$> (post_tasks (<["user_id" := JInt 2]> malicious_body) alice 2000
             example_store).1
    = Ok 1
  ∧ Task.user_id
      <$> tasks (post_tasks (<["user_id" := JInt 2]> malicious_body) alice
                   2000 example_store).2 !! 2
    = Some 1
  ∧ Task.user_id
      <$> tasks (put_task 1 (<["user_id" := JInt 2]> malicious_body) alice
                   2000 example_store).2 !! 1
    = Some 1.
Proof.
  assert (tasks_wf example_store) as Hwf
    by decide_by_compute.
  assert (TaskCreate.validate malicious_body
          = Ok {| TaskCreate.title := "Malicious task";
                  TaskCreate.description :=
                    Some "Trying to create task for Bob" |}) as Hcreate
    by reflexivity.
  assert (TaskUpdate.validate malicious_body
          = Ok {| TaskUpdate.title := Some "Malicious task";
                  TaskUpdate.description :=
                    Some "Trying to create task for Bob";
                  TaskUpdate.is_completed := None |}) as Hupdate
    by reflexivity.
  assert (tasks example_store !! 1 = Some alice_task) as Hold
    by reflexivity.
  split; [by left |]. split; [exact Hwf |].
  pose proof (owner_from_caller_only "user_id" (JInt 2) malicious_body alice
                1 2000 example_store (or_introl eq_refl) Hwf)
    as (_ & Hpost & _ & _ & Hput & _).
  split; [exact (Hpost _ Hcreate) |].
  split; [exact (Hput _ _ Hupdate Hold eq_refl) |].
  split_and!; reflexivity.
Defined.


(** A valid token for user 3, whom the store does not hold. *)
Lemma resolver_rereads_store_witness :
  decode_token ghost_token 2000
    = Ok {[ "sub" := JStr "3"; "exp" := JInt 87400 ]}
  ∧ users example_store !! 3 = None
  ∧ get_current_user ghost_token 2000 example_store
    = (Raise (HTTPException 401 "User not found" www_authenticate),
       example_store).
Proof.
  split; [reflexivity |]. split; [reflexivity |].
  exact (proj1 (resolver_rereads_store ghost_token 2000
                  {[ "sub" := JStr "3"; "exp" := JInt 87400 ]} (JStr "3") 3
                  example_store eq_refl eq_refl eq_refl eq_refl)).
Defined.

(** The same login against a store without Alice and against a store where
    Alice has another password. *)
Lemma login_failures_identical_witness :
  verify_password (UserLogin.password wrong_password)
    (User.hashed_password alice) = false
  ∧ emails_unique example_store
  ∧ (login wrong_password 2000 empty_store).1
    = (login wrong_password 2001 example_store).1.
Proof.
  assert (emails_unique example_store) as Huniq
    by decide_by_compute.
  split; [reflexivity |]. split; [exact Huniq |].
  refine (proj1 (proj2 (proj2
    (login_failures_identical wrong_password 2000 2001 empty_store
       example_store 1 alice _ Huniq eq_refl eq_refl eq_refl)))).
  intros k u Hk. change ((∅ : gmap Z User.t) !! k = Some u) in Hk.
  by rewrite lookup_empty in Hk.
Defined.

(** The token issued for Alice at time 1000, resolved at time 2000. *)
Lemma subject_round_trip_witness :
  JWT_ALGORITHM settings ∈ Jose.SUPPORTED
  ∧ users example_store !! User.id alice = Some alice
  ∧ 2000 ≤ 1000 + 3600 * JWT_EXPIRATION_HOURS settings
  ∧ PyStr.int (PyStr.str (User.id alice)) = Some (User.id alice)
  ∧ get_current_user alice_token 2000 example_store
    = (Ok alice, example_store).
Proof.
  assert (JWT_ALGORITHM settings ∈ Jose.SUPPORTED) as Halg
    by decide_by_compute.
  assert (2000 ≤ 1000 + 3600 * JWT_EXPIRATION_HOURS settings) as Hexp
    by (vm_compute; discriminate).
  split; [exact Halg |]. split; [reflexivity |]. split; [exact Hexp |].
  destruct (subject_round_trip alice 1000 2000 example_store Halg eq_refl Hexp)
    as (Hint & (token & Hcreate & _ & Hresolve) & _).
  split; [exact Hint |].
  injection Hcreate as <-. exact Hresolve.
Defined.

(** Carol registers; then the same address in capitals with spaces. *)
Lemma registration_email_normalized_witness :
  emails_unique example_store
  ∧ PyStr.lower (PyStr.strip "carol@example.com")
    = PyStr.lower (PyStr.strip "  Carol@Example.COM ")
  ∧ ∃ e, post_register carol_body_shouting 3001
           (post_register carol_body 3000 example_store).2
         = (Raise e, (post_register carol_body 3000 example_store).2)
         ∧ (e = RequestValidationError
            ∨ e = HTTPException 400 "Email already registered" []).
Proof.
  assert (emails_unique example_store) as Huniq
    by decide_by_compute.
  split; [exact Huniq |]. split; [reflexivity |].
  destruct (registration_email_normalized carol_body carol_body_shouting
              "carol@example.com" "  Carol@Example.COM " 3000 3001
              example_store Huniq eq_refl eq_refl eq_refl)
    as (_ & _ & Hsecond).
  destruct (post_register carol_body 3000 example_store) as [[resp | e] s1]
    eqn:Hfirst; [| discriminate Hfirst].
  exact (Hsecond resp s1 eq_refl).
Defined.

(** Alice posts, and puts on her task 1, a body whose title has markup
    and white space around it; and a body whose title is white space. *)
Lemma task_text_sanitized_witness :
  tasks_wf example_store
  ∧ (∃ r s' t,
       post_tasks markup_body alice 2000 example_store = (Ok r, s')
       ∧ tasks s' !! TaskResponse.id r = Some t
       ∧ TaskResponse.title r = "&lt;b&gt;Buy milk&lt;/b&gt;"
       ∧ Task.title t = "&lt;b&gt;Buy milk&lt;/b&gt;"
       ∧ Task.description t = Some "Tom &amp; Jerry")
  ∧ (∃ r s' t,
       put_task 1 markup_body alice 2000 example_store = (Ok r, s')
       ∧ tasks s' !! 1 = Some t
       ∧ TaskResponse.title r = "&lt;b&gt;Buy milk&lt;/b&gt;"
       ∧ Task.title t = "&lt;b&gt;Buy milk&lt;/b&gt;"
       ∧ Task.description t = Some "Tom &amp; Jerry")
  ∧ post_tasks blank_title_body alice 2000 example_store
    = (Raise RequestValidationError, example_store)
  ∧ put_task 1 blank_title_body alice 2000 example_store
    = (Raise RequestValidationError, example_store).
Proof.
  assert (tasks_wf example_store) as Hwf
    by decide_by_compute.
  assert (markup_body !! "title" = Some (JStr "  <b>Buy milk</b> "))
    as Htitle by reflexivity.
  assert (markup_body !! "description" = Some (JStr "Tom & Jerry"))
    as Hdesc by reflexivity.
  assert (1 ≤ PyStr.len (sanitize_string "  <b>Buy milk</b> ") ≤ 255)
    as Hlen by (vm_compute; split; discriminate).
  assert (PyStr.len (sanitize_string "Tom & Jerry") ≤ 1000)
    as Hlen' by (vm_compute; discriminate).
  assert (0 ≤ PyStr.len (sanitize_string "Tom & Jerry"))
    as Hpos by (vm_compute; discriminate).
  assert (text_field_ok 1 255 (markup_body !! "title")) as Htitle_ok.
  { right; right. exists "  <b>Buy milk</b> ". by split. }
  assert (text_field_ok 0 1000 (markup_body !! "description")) as Hdesc_ok.
  { right; right. exists "Tom & Jerry". by split. }
  assert (optional_bool_field (markup_body !! "is_completed") = Ok None)
    as Hdone by reflexivity.
  assert (tasks example_store !! 1 = Some alice_task) as Hold
    by reflexivity.
  assert (blank_title_body !! "title"
          = Some (JStr (String (ascii_of_N 9) "   "))) as Hblank
    by reflexivity.
  pose proof (task_text_sanitized markup_body alice 1 2000 example_store Hwf)
    as (Hpost & _ & Hput & _).
  pose proof (task_text_sanitized blank_title_body alice 1 2000
                example_store Hwf)
    as (_ & _ & _ & _ & _ & _ & _ & Hreject).
  destruct (Hpost _ Htitle Hlen Hdesc_ok)
    as (r & s' & t & Heq & Hrow & _ & Hr & Ht & Hd).
  destruct (Hput _ _ Hold eq_refl Htitle_ok Hdesc_ok Hdone)
    as (r' & s'' & t' & Heq' & Hrow' & _ & Ht' & Hd').
  split; [exact Hwf |].
  split.
  { exists r, s', t.
    split; [exact Heq |]. split; [exact Hrow |]. split; [exact Hr |].
    split; [exact Ht |]. exact (proj2 (Hd _ Hdesc)). }
  split.
  { exists r', s'', t'.
    split; [exact Heq' |]. split; [exact Hrow' |].
    split; [exact (proj1 (Ht' _ Htitle)) |].
    split; [exact (proj2 (Ht' _ Htitle)) |]. exact (proj2 (Hd' _ Hdesc)). }
  exact (Hreject _ Hblank eq_refl).
Defined.

(** ** The scenario of the design document, run on the example store *)

(** Bob reads Alice's task: 403. Bob lists: nothing. *)
Example bob_reads_alice_task :
  get_task 1 bob example_store
  = (Raise (HTTPException 403 "Not authorized to access this task" []),
     example_store)
  ∧ TaskList.total <$> (get_tasks bob example_store).1 = Ok 0.
Proof. split; reflexivity. Qed.

(** A task id that no row has: 404, for the owner of other tasks too. *)
Example missing_task_not_found :
  get_task 99999 alice example_store
  = (Raise (HTTPException 404 "Task not found" []), example_store).
Proof. reflexivity. Qed.

(** An expired token on a protected call: 401 with the expiry message. *)
Example expired_token_rejected :
  (get_current_user expired_token 1000 example_store).1
  = Raise (HTTPException 401 "Token has expired" www_authenticate).
Proof. reflexivity. Qed.

(** Registering an address twice: 201 with a token, then 400. *)
Example register_twice :
  UserResponse.id ∘ AuthResponse.user
    <$> (post_register carol_body 3000 example_store).1 = Ok 3
  ∧ (post_register carol_body 3001
       (post_register carol_body 3000 example_store).2).1
    = Raise (HTTPException 400 "Email already registered" []).
Proof. split; reflexivity. Qed.

(** The title with markup is stored escaped and stripped. *)
Example markup_title_stored :
  TaskResponse.title <$> (post_tasks markup_body alice 2000 example_store).1
  = Ok "&lt;b&gt;Buy milk&lt;/b&gt;".
Proof. reflexivity. Qed.

(** * Further properties of the code *)

(** ** The life of a task: create, list, read, update, delete *)

Section TaskLifecycle.

#[local] Instance created_at_desc_total : Total created_at_desc.
Proof. intros a b. unfold created_at_desc. lia. Qed.

#[local] Instance created_at_desc_trans : Transitive created_at_desc.
Proof. intros a b c. unfold created_at_desc. lia. Qed.

(** X1. The list endpoint answers newest first: every task of the answer
    was created no earlier than every task after it. *)
Theorem get_tasks_newest_first (actor : User.t) (s : Store) :
  ∃ l : TaskList.t,
    get_tasks actor s = (Ok l, s)
    ∧ StronglySorted
        (λ a b, TaskResponse.created_at b ≤ TaskResponse.created_at a)
        (TaskList.tasks l).
Proof.
  eexists. split; [reflexivity |]. simpl.
  apply (StronglySorted_fmap _ created_at_desc); [by intros x y |].
  apply StronglySorted_merge_sort; apply _.
Qed.

(** X2. A created task can be read back by its owner under the id of the
    response, unchanged; any other user is refused with 403. The task is
    open, carries the creation time twice, takes a key that was free, and
    no other row of either table changes. *)
Theorem create_then_get (data : TaskCreate.t) (actor : User.t) (now : Z)
    (s : Store) :
  ∃ r s',
    create_task data actor now s = (Ok r, s')
    ∧ tasks s !! TaskResponse.id r = None
    ∧ TaskResponse.user_id r = User.id actor
    ∧ TaskResponse.title r = TaskCreate.title data
    ∧ TaskResponse.description r = TaskCreate.description data
    ∧ TaskResponse.is_completed r = false
    ∧ TaskResponse.created_at r = now
    ∧ TaskResponse.updated_at r = now
    ∧ get_task (TaskResponse.id r) actor s' = (Ok r, s')
    ∧ (∀ other, User.id other ≠ User.id actor →
         get_task (TaskResponse.id r) other s'
         = (Raise (HTTPException 403 "Not authorized to access this task" []),
            s'))
    ∧ (∀ k, k ≠ TaskResponse.id r → tasks s' !! k = tasks s !! k)
    ∧ users s' = users s.
Proof.
  do 2 eexists. split; [apply create_task_unfold |]. simpl.
  split_and!; try done.
  - apply next_id_fresh.
  - rewrite get_task_unfold. simpl. rewrite lookup_insert_eq. simpl.
    by rewrite bool_decide_eq_true_2.
  - intros other Hother. rewrite get_task_unfold. simpl.
    rewrite lookup_insert_eq. simpl.
    by rewrite bool_decide_eq_false_2 by done.
  - intros k Hk. by rewrite lookup_insert_ne.
Qed.

Lemma rows_insert_fresh {A : Type} (table : gmap Z A) (k : Z) (row : A) :
  table !! k = None →
  (map_to_list (<[k := row]> table)).*2 ≡ₚ row :: (map_to_list table).*2.
Proof. intros Hk. by rewrite (map_to_list_insert _ _ _ Hk). Qed.

(** X3. After a create, the list of the owner is its former list plus the
    new task, and [total] grows by one; the list of any other user holds
    the same tasks as before. *)
Theorem create_then_list (data : TaskCreate.t) (actor other : User.t)
    (now : Z) (s : Store) :
  ∃ r s' before after,
    create_task data actor now s = (Ok r, s')
    ∧ get_tasks actor s = (Ok before, s)
    ∧ get_tasks actor s' = (Ok after, s')
    ∧ TaskList.tasks after ≡ₚ r :: TaskList.tasks before
    ∧ TaskList.total after = TaskList.total before + 1
    ∧ (User.id other ≠ User.id actor →
       ∃ before' after',
         get_tasks other s = (Ok before', s)
         ∧ get_tasks other s' = (Ok after', s')
         ∧ TaskList.tasks after' ≡ₚ TaskList.tasks before'
         ∧ TaskList.total after' = TaskList.total before').
Proof.
  do 4 eexists. split; [apply create_task_unfold |].
  split; [reflexivity |]. split; [reflexivity |]. simpl.
  pose proof (rows_insert_fresh (tasks s) (next_id (tasks s))
    {| Task.id := next_id (tasks s);
       Task.user_id := User.id actor;
       Task.title := TaskCreate.title data;
       Task.description := TaskCreate.description data;
       Task.is_completed := false;
       Task.created_at := now;
       Task.updated_at := now |} (next_id_fresh (tasks s))) as Hrows.
  split_and!.
  - rewrite !merge_sort_Permutation, Hrows.
    rewrite filter_cons_True by done.
    by rewrite fmap_cons.
  - rewrite !merge_sort_Permutation, Hrows.
    rewrite filter_cons_True by done. simpl. lia.
  - intros Hother. do 2 eexists.
    split; [reflexivity |]. split; [reflexivity |]. simpl.
    rewrite !merge_sort_Permutation, Hrows.
    rewrite filter_cons_False by (simpl; congruence).
    done.
Qed.

End TaskLifecycle.

Section TaskChanges.

(** An absent key and a JSON null both validate to "not provided". *)
Lemma optional_str_field_not_provided (f : string → string)
    (min_length max_length : option Z) (v : option jvalue)
    (r : option string) :
  v = None ∨ v = Some JNull →
  optional_str_field f min_length max_length v = Ok r → r = None.
Proof. intros [-> | ->]; simpl; congruence. Qed.

Lemma optional_bool_field_not_provided (v : option jvalue)
    (r : option bool) :
  v = None ∨ v = Some JNull → optional_bool_field v = Ok r → r = None.
Proof. intros [-> | ->]; simpl; congruence. Qed.

Lemma TaskUpdate_validate_not_provided (body : gmap string jvalue)
    (data : TaskUpdate.t) :
  TaskUpdate.validate body = Ok data →
  (body !! "title" = None ∨ body !! "title" = Some JNull →
   TaskUpdate.title data = None)
  ∧ (body !! "description" = None ∨ body !! "description" = Some JNull →
     TaskUpdate.description data = None)
  ∧ (body !! "is_completed" = None ∨ body !! "is_completed" = Some JNull →
     TaskUpdate.is_completed data = None).
Proof.
  unfold TaskUpdate.validate.
  destruct (optional_str_field _ _ _ (body !! "title")) as [t |] eqn:Ht;
    [| done].
  destruct (optional_str_field _ _ _ (body !! "description")) as [d |] eqn:Hd;
    [| done].
  destruct (optional_bool_field _) as [c |] eqn:Hc; [| done].
  intros [= <-]. simpl. split_and!; intros Hb.
  - by eapply optional_str_field_not_provided.
  - by eapply optional_str_field_not_provided.
  - by eapply optional_bool_field_not_provided.
Qed.

(** X4. An update that succeeds changes only what the body provides: a
    field that is absent or null keeps its stored value, so a description
    cannot be cleared; id, owner and creation time stay, [updated_at]
    becomes the time of the request; the stored row is the one echoed; no
    other task and no user changes. *)
Theorem update_is_partial (task_id : Z) (body : gmap string jvalue)
    (actor : User.t) (now : Z) (s s' : Store) (r : TaskResponse.t) :
  tasks_wf s →
  put_task task_id body actor now s = (Ok r, s') →
  ∃ old new,
    tasks s !! task_id = Some old
    ∧ tasks s' !! task_id = Some new
    ∧ r = TaskResponse.model_validate new
    ∧ TaskResponse.id r = task_id
    ∧ TaskResponse.user_id r = Task.user_id old
    ∧ TaskResponse.created_at r = Task.created_at old
    ∧ TaskResponse.updated_at r = now
    ∧ (body !! "title" = None ∨ body !! "title" = Some JNull →
       TaskResponse.title r = Task.title old)
    ∧ (body !! "description" = None ∨ body !! "description" = Some JNull →
       TaskResponse.description r = Task.description old)
    ∧ (body !! "is_completed" = None ∨ body !! "is_completed" = Some JNull →
       TaskResponse.is_completed r = Task.is_completed old)
    ∧ (∀ k, k ≠ task_id → tasks s' !! k = tasks s !! k)
    ∧ users s' = users s.
Proof.
  intros Hwf. unfold put_task, bind, lift.
  destruct (TaskUpdate.validate body) as [data |] eqn:Hv; [| done].
  apply TaskUpdate_validate_not_provided in Hv as (Ht & Hd & Hc).
  rewrite update_task_unfold.
  destruct (tasks s !! task_id) as [old |] eqn:Hold; [| done].
  case_bool_decide; [| done]. rewrite (Hwf _ _ Hold).
  intros [= <- <-]. simpl.
  exists old, (apply_update data now old).
  rewrite lookup_insert_eq. split_and!; try done.
  - simpl. apply (Hwf _ _ Hold).
  - intros Hb. by rewrite (Ht Hb).
  - intros Hb. by rewrite (Hd Hb).
  - intros Hb. by rewrite (Hc Hb).
  - intros k Hk. by rewrite lookup_insert_ne.
Qed.

(** X5. After an update that succeeded, reading the task gives what the
    update echoed, and the list of the owner holds it. *)
Theorem update_then_get (task_id : Z) (data : TaskUpdate.t) (actor : User.t)
    (now : Z) (s s' : Store) (r : TaskResponse.t) :
  tasks_wf s →
  update_task task_id data actor now s = (Ok r, s') →
  get_task task_id actor s' = (Ok r, s')
  ∧ ∃ l, get_tasks actor s' = (Ok l, s') ∧ r ∈ TaskList.tasks l.
Proof.
  intros Hwf. rewrite update_task_unfold.
  destruct (tasks s !! task_id) as [old |] eqn:Hold; [| done].
  case_bool_decide as Howner; [| done]. rewrite (Hwf _ _ Hold).
  intros [= <- <-].
  assert (tasks {| users := users s;
                   tasks := <[task_id := apply_update data now old]> (tasks s) |}
            !! task_id = Some (apply_update data now old)) as Hnew
    by apply lookup_insert_eq.
  split.
  - rewrite get_task_unfold, Hnew. simpl.
    by rewrite bool_decide_eq_true_2.
  - eexists. split; [reflexivity |].
    refine (list_elem_of_fmap_2 _ _ _
              (proj2 (elem_of_select_tasks_by_user _ _ _) _)).
    exists task_id. split; done.
Qed.

(** X6. After a delete that succeeded the task is gone: reading it,
    updating it or deleting it again answers 404 for every user, and no
    other task and no user changes. *)
Theorem delete_then_gone (task_id : Z) (actor anyone : User.t)
    (data : TaskUpdate.t) (now : Z) (s s' : Store) :
  tasks_wf s →
  delete_task task_id actor s = (Ok tt, s') →
  tasks s' !! task_id = None
  ∧ get_task task_id anyone s'
    = (Raise (HTTPException 404 "Task not found" []), s')
  ∧ update_task task_id data anyone now s'
    = (Raise (HTTPException 404 "Task not found" []), s')
  ∧ delete_task task_id anyone s'
    = (Raise (HTTPException 404 "Task not found" []), s')
  ∧ (∀ k, k ≠ task_id → tasks s' !! k = tasks s !! k)
  ∧ users s' = users s.
Proof.
  intros Hwf. rewrite delete_task_unfold.
  destruct (tasks s !! task_id) as [old |] eqn:Hold; [| done].
  case_bool_decide; [| done]. rewrite (Hwf _ _ Hold).
  intros [= <-].
  assert (tasks {| users := users s; tasks := delete task_id (tasks s) |}
            !! task_id = None) as Hgone by apply lookup_delete_eq.
  split_and!; [done | | | | | done].
  - by rewrite get_task_unfold, Hgone.
  - by rewrite update_task_unfold, Hgone.
  - by rewrite delete_task_unfold, Hgone.
  - intros k Hk. simpl. by rewrite lookup_delete_ne.
Qed.

End TaskChanges.

(** ** What sanitization guarantees about stored text *)

Section StoredText.

Lemma markup_free_iff (s : string) :
  markup_free s = true
  ↔ PyStr.contains "<" s = false ∧ PyStr.contains ">" s = false
    ∧ PyStr.contains dquote s = false ∧ PyStr.contains "'" s = false
    ∧ PyStr.contains zero s = false.
Proof.
  unfold markup_free. rewrite negb_true_iff, !orb_false_iff. tauto.
Qed.

Lemma contains_sanitize_string (v : string) :
  PyStr.contains "<" (sanitize_string v) = false
  ∧ PyStr.contains ">" (sanitize_string v) = false
  ∧ PyStr.contains dquote (sanitize_string v) = false
  ∧ PyStr.contains "'" (sanitize_string v) = false
  ∧ PyStr.contains zero (sanitize_string v) = false.
Proof.
  unfold sanitize_string.
  destruct v as [| c v]; [done |].
  simpl PyStr.is_empty. cbv iota. unfold html_escape, dquote.
  split_and!.
  - do 4 (apply contains_replace_other; [| done]).
    by apply contains_replace_same.
  - do 3 (apply contains_replace_other; [| done]).
    by apply contains_replace_same.
  - do 2 (apply contains_replace_other; [| done]).
    by apply contains_replace_same.
  - do 1 (apply contains_replace_other; [| done]).
    by apply contains_replace_same.
  - by apply contains_replace_same.
Qed.

(** X7. Whatever is submitted, the sanitized string holds none of [<],
    [>], the double quote, the single quote and the null byte. *)
Theorem sanitize_string_markup_free (v : string) :
  markup_free (sanitize_string v) = true.
Proof. apply markup_free_iff, contains_sanitize_string. Qed.

Lemma replace_absent (c : ascii) (r s : string) :
  PyStr.contains c s = false → PyStr.replace c r s = s.
Proof.
  induction s as [| d s IH]; simpl; [done |].
  intros [Hd Hs]%orb_false_elim. rewrite Hd. by rewrite IH.
Qed.

(** X8. Plain text is stored as it was typed: on a string without markup
    characters, ampersand and null byte, and without white space at its
    ends, [sanitize_string] is the identity. *)
Theorem sanitize_string_plain (v : string) :
  plain_text v → sanitize_string v = v.
Proof.
  intros (Hfree & Hamp & Hstrip).
  apply markup_free_iff in Hfree as (Hlt & Hgt & Hdq & Hsq & Hnul).
  rewrite sanitize_string_eq, Hstrip. unfold html_escape.
  unfold dquote in Hdq.
  by rewrite (replace_absent "&"), (replace_absent "<"),
    (replace_absent ">"), (replace_absent (ascii_of_N 34)),
    (replace_absent "'"), (replace_absent zero).
Qed.

Lemma str_field_bounds (min_length max_length : option Z) (v : jvalue)
    (s : string) :
  str_field min_length max_length v = Ok s →
  v = JStr s
  ∧ (∀ n, min_length = Some n → n ≤ PyStr.len s)
  ∧ (∀ n, max_length = Some n → PyStr.len s ≤ n).
Proof.
  unfold str_field. destruct v as [| | | raw]; try done.
  destruct min_length as [lo |], max_length as [hi |]; simpl;
    repeat case_match; intros [= <-]; split_and!; try done;
    intros n [= <-]; lia.
Qed.

(** A text field that went through the validator of the schemas. *)
Lemma validated_text_ok (min_length max_length : option Z) (v : jvalue)
    (s : string) :
  str_field min_length max_length (before_str sanitize_string v) = Ok s →
  markup_free s = true
  ∧ (∀ n, min_length = Some n → n ≤ PyStr.len s)
  ∧ (∀ n, max_length = Some n → PyStr.len s ≤ n).
Proof.
  intros (Hv & Hlo & Hhi)%str_field_bounds. split; [| done].
  destruct v as [| | | raw]; try done. simpl in Hv.
  injection Hv as <-. apply markup_free_iff, contains_sanitize_string.
Qed.

Lemma optional_text_ok (min_length max_length : option Z)
    (v : option jvalue) (s : string) :
  optional_str_field sanitize_string min_length max_length v = Ok (Some s) →
  markup_free s = true
  ∧ (∀ n, min_length = Some n → n ≤ PyStr.len s)
  ∧ (∀ n, max_length = Some n → PyStr.len s ≤ n).
Proof.
  destruct v as [[| b | n | raw] |]; try done.
  unfold optional_str_field.
  change (before_str sanitize_string (JStr raw))
    with (JStr (sanitize_string raw)). cbv iota.
  destruct (str_field _ _ (JStr (sanitize_string raw))) as [s' |] eqn:Hs;
    [| done].
  intros [= <-]. by apply (validated_text_ok _ _ (JStr raw)).
Qed.

Lemma TaskCreate_validate_text (body : gmap string jvalue)
    (data : TaskCreate.t) :
  TaskCreate.validate body = Ok data →
  1 ≤ PyStr.len (TaskCreate.title data) ≤ 255
  ∧ markup_free (TaskCreate.title data) = true
  ∧ match TaskCreate.description data with
    | None => True
    | Some d => PyStr.len d ≤ 1000 ∧ markup_free d = true
    end.
Proof.
  unfold TaskCreate.validate, required_str_field.
  destruct (body !! "title") as [v |]; [| done].
  destruct (str_field _ _ (before_str sanitize_string v)) as [t |] eqn:Ht;
    [| done].
  destruct (optional_str_field _ _ _ _) as [d |] eqn:Hd; [| done].
  intros [= <-]. simpl.
  apply validated_text_ok in Ht as (Hfree & Hlo & Hhi).
  split_and!; [by apply Hlo | by apply Hhi | done |].
  destruct d as [d |]; [| done].
  apply optional_text_ok in Hd as (Hdfree & _ & Hdhi).
  split; [by apply Hdhi | done].
Qed.

Lemma TaskUpdate_validate_text (body : gmap string jvalue)
    (data : TaskUpdate.t) :
  TaskUpdate.validate body = Ok data →
  (∀ t, TaskUpdate.title data = Some t →
        1 ≤ PyStr.len t ≤ 255 ∧ markup_free t = true)
  ∧ (∀ d, TaskUpdate.description data = Some d →
          PyStr.len d ≤ 1000 ∧ markup_free d = true).
Proof.
  unfold TaskUpdate.validate.
  destruct (optional_str_field _ _ _ (body !! "title")) as [t |] eqn:Ht;
    [| done].
  destruct (optional_str_field _ _ _ (body !! "description")) as [d |] eqn:Hd;
    [| done].
  destruct (optional_bool_field _) as [c |]; [| done].
  intros [= <-]. simpl. split.
  - intros t' ->. apply optional_text_ok in Ht as (Hfree & Hlo & Hhi).
    split_and!; [by apply Hlo | by apply Hhi | done].
  - intros d' ->. apply optional_text_ok in Hd as (Hfree & _ & Hhi).
    split; [by apply Hhi | done].
Qed.

Lemma post_tasks_texts_ok (body : gmap string jvalue) (actor : User.t)
    (now : Z) (s : Store) :
  texts_ok s → texts_ok (post_tasks body actor now s).2.
Proof.
  intros Hok. unfold post_tasks, bind, lift.
  destruct (TaskCreate.validate body) as [data |] eqn:Hv; [| done].
  rewrite create_task_unfold. simpl.
  apply map_Forall_insert_2; [| done].
  by apply TaskCreate_validate_text in Hv.
Qed.

Lemma put_task_texts_ok (task_id : Z) (body : gmap string jvalue)
    (actor : User.t) (now : Z) (s : Store) :
  texts_ok s → texts_ok (put_task task_id body actor now s).2.
Proof.
  intros Hok. unfold put_task, bind, lift.
  destruct (TaskUpdate.validate body) as [data |] eqn:Hv; [| done].
  apply TaskUpdate_validate_text in Hv as [Ht Hd].
  rewrite update_task_unfold.
  destruct (tasks s !! task_id) as [old |] eqn:Hold; [| done].
  case_bool_decide; [| done]. simpl.
  apply map_Forall_insert_2; [| done].
  destruct (Hok _ _ Hold) as (Hlen & Hfree & Hdesc).
  unfold task_text_ok. simpl.
  destruct (TaskUpdate.title data) as [t |]; simpl;
    (destruct (TaskUpdate.description data) as [d |]; simpl).
  - destruct (Ht t eq_refl), (Hd d eq_refl). done.
  - destruct (Ht t eq_refl). done.
  - destruct (Hd d eq_refl). done.
  - done.
Qed.

Lemma delete_task_texts_ok (task_id : Z) (actor : User.t) (s : Store) :
  texts_ok s → texts_ok (delete_task task_id actor s).2.
Proof.
  intros Hok. rewrite delete_task_unfold.
  destruct (tasks s !! task_id) as [old |]; [| done].
  case_bool_decide; [| done]. simpl. by apply map_Forall_delete.
Qed.

(** X9. The bounds of the schemas hold in the store: when every stored
    title has 1 to 255 characters, every stored description at most 1000,
    and neither holds a markup character, the same is true after any
    create, update or delete, whatever the body and the outcome. *)
Theorem task_text_invariant (body : gmap string jvalue) (actor : User.t)
    (task_id now : Z) (s : Store) :
  texts_ok s →
  texts_ok (post_tasks body actor now s).2
  ∧ texts_ok (put_task task_id body actor now s).2
  ∧ texts_ok (delete_task task_id actor s).2.
Proof.
  intros Hok. split_and!.
  - by apply post_tasks_texts_ok.
  - by apply put_task_texts_ok.
  - by apply delete_task_texts_ok.
Qed.

End StoredText.

(** ** Normal forms of [strip], [lower] and [sanitize_email] *)

Section Normalization.

Lemma lstrip_head (s : string) :
  PyStr.lstrip s = EmptyString
  ∨ ∃ c r, PyStr.lstrip s = String c r ∧ PyStr.isspace c = false.
Proof.
  induction s as [| c s IH]; simpl; [by left |].
  destruct (PyStr.isspace c) eqn:Hc; [done |]. right. eauto.
Qed.

Lemma rstrip_rstrip (s : string) :
  PyStr.rstrip (PyStr.rstrip s) = PyStr.rstrip s.
Proof.
  induction s as [| c s IH]; simpl; [done |].
  destruct (PyStr.isspace c && PyStr.is_empty (PyStr.rstrip s)) eqn:Hc;
    [done |].
  simpl. by rewrite IH, Hc.
Qed.

Lemma lstrip_rstrip_lstrip (s : string) :
  PyStr.lstrip (PyStr.rstrip (PyStr.lstrip s)) = PyStr.rstrip (PyStr.lstrip s).
Proof.
  destruct (lstrip_head s) as [-> | (c & r & -> & Hc)]; [done |].
  simpl. rewrite Hc. simpl. by rewrite Hc.
Qed.

(** [strip] has nothing to do on a stripped string. *)
Lemma strip_strip (s : string) : PyStr.strip (PyStr.strip s) = PyStr.strip s.
Proof.
  unfold PyStr.strip. by rewrite lstrip_rstrip_lstrip, rstrip_rstrip.
Qed.

Lemma isspace_lower_char (c : ascii) :
  PyStr.isspace (PyStr.lower_char c) = PyStr.isspace c.
Proof. by destruct c as [[] [] [] [] [] [] [] []]. Qed.

Lemma lower_char_lower_char (c : ascii) :
  PyStr.lower_char (PyStr.lower_char c) = PyStr.lower_char c.
Proof. by destruct c as [[] [] [] [] [] [] [] []]. Qed.

Lemma lower_char_zero (c : ascii) :
  Ascii.eqb (PyStr.lower_char c) zero = Ascii.eqb c zero.
Proof. by destruct c as [[] [] [] [] [] [] [] []]. Qed.

Lemma lower_lower (s : string) : PyStr.lower (PyStr.lower s) = PyStr.lower s.
Proof.
  induction s as [| c s IH]; simpl; [done |].
  by rewrite lower_char_lower_char, IH.
Qed.

Lemma is_empty_lower (s : string) :
  PyStr.is_empty (PyStr.lower s) = PyStr.is_empty s.
Proof. by destruct s. Qed.

Lemma lstrip_lower (s : string) :
  PyStr.lstrip (PyStr.lower s) = PyStr.lower (PyStr.lstrip s).
Proof.
  induction s as [| c s IH]; simpl; [done |].
  rewrite isspace_lower_char. by destruct (PyStr.isspace c).
Qed.

Lemma rstrip_lower (s : string) :
  PyStr.rstrip (PyStr.lower s) = PyStr.lower (PyStr.rstrip s).
Proof.
  induction s as [| c s IH]; simpl; [done |].
  rewrite isspace_lower_char, IH, is_empty_lower.
  by destruct (PyStr.isspace c && PyStr.is_empty (PyStr.rstrip s)).
Qed.

(** Stripping and lowercasing commute. *)
Lemma strip_lower (s : string) :
  PyStr.strip (PyStr.lower s) = PyStr.lower (PyStr.strip s).
Proof. unfold PyStr.strip. by rewrite lstrip_lower, rstrip_lower. Qed.

Lemma contains_lower_zero (s : string) :
  PyStr.contains zero (PyStr.lower s) = PyStr.contains zero s.
Proof.
  induction s as [| c s IH]; simpl; [done |].
  by rewrite lower_char_zero, IH.
Qed.

(** Stripping adds no character. *)
Lemma contains_lstrip (c : ascii) (s : string) :
  PyStr.contains c s = false → PyStr.contains c (PyStr.lstrip s) = false.
Proof.
  induction s as [| d s IH]; simpl; [done |].
  intros [Hd Hs]%orb_false_elim.
  destruct (PyStr.isspace d); [by apply IH |]. simpl. by rewrite Hd, Hs.
Qed.

Lemma contains_rstrip (c : ascii) (s : string) :
  PyStr.contains c s = false → PyStr.contains c (PyStr.rstrip s) = false.
Proof.
  induction s as [| d s IH]; simpl; [done |].
  intros [Hd Hs]%orb_false_elim.
  destruct (PyStr.isspace d && PyStr.is_empty (PyStr.rstrip s)); [done |].
  simpl. by rewrite Hd, IH.
Qed.

Lemma contains_strip (c : ascii) (s : string) :
  PyStr.contains c s = false → PyStr.contains c (PyStr.strip s) = false.
Proof. intros Hs. by apply contains_rstrip, contains_lstrip. Qed.

(** X10. On an address without null byte, [sanitize_email] is stripping
    followed by lowercasing, and its result is a normal form: sanitizing,
    stripping or lowercasing it again changes nothing. *)
Theorem sanitize_email_normal_form (email : string) :
  PyStr.contains zero email = false →
  sanitize_email email = PyStr.lower (PyStr.strip email)
  ∧ sanitize_email (sanitize_email email) = sanitize_email email
  ∧ PyStr.strip (sanitize_email email) = sanitize_email email
  ∧ PyStr.lower (sanitize_email email) = sanitize_email email.
Proof.
  intros Hnul.
  assert (PyStr.contains zero (PyStr.lower (PyStr.strip email)) = false)
    as Hnul' by (rewrite contains_lower_zero; by apply contains_strip).
  assert (sanitize_email email = PyStr.lower (PyStr.strip email)) as Heq
    by (rewrite sanitize_email_eq; by apply replace_absent).
  assert (PyStr.strip (PyStr.lower (PyStr.strip email))
          = PyStr.lower (PyStr.strip email)) as Hstrip
    by (by rewrite strip_lower, strip_strip).
  split_and!; [done | | by rewrite Heq | by rewrite Heq, lower_lower].
  rewrite Heq, sanitize_email_eq, Hstrip, lower_lower.
  by apply replace_absent.
Qed.

Lemma split_length (c : ascii) (s : string) :
  length (StrOps.split c s) = S (StrOps.count c s).
Proof.
  induction s as [| d s IH]; simpl; [done |].
  destruct (Ascii.eqb d c); simpl; [by rewrite IH |].
  destruct (StrOps.split c s) as [| w ws]; simpl in *; lia.
Qed.

Lemma split_no_separator (c : ascii) (s : string) :
  Forall (λ w, PyStr.contains c w = false) (StrOps.split c s).
Proof.
  induction s as [| d s IH]; simpl; [by constructor |].
  destruct (Ascii.eqb d c) eqn:Hd; [by constructor |].
  destruct (StrOps.split c s) as [| w ws]; [by constructor; [simpl; rewrite Hd|] |].
  inversion IH as [| ? ? Hw Hws]; subst.
  constructor; [| done]. simpl. by rewrite Hd, Hw.
Qed.

Lemma join_split (c : ascii) (s : string) :
  StrOps.join c (StrOps.split c s) = s.
Proof.
  induction s as [| d s IH]; simpl; [done |].
  destruct (Ascii.eqb d c) eqn:Hd.
  - apply Ascii.eqb_eq in Hd as ->.
    destruct (StrOps.split c s) as [| w ws] eqn:Hsplit.
    + pose proof (split_length c s) as Hlen. by rewrite Hsplit in Hlen.
    + simpl. by rewrite <- IH.
  - destruct (StrOps.split c s) as [| w ws] eqn:Hsplit.
    + pose proof (split_length c s) as Hlen. by rewrite Hsplit in Hlen.
    + destruct ws as [| w' ws]; simpl in *; by rewrite <- IH.
Qed.

(** X11. The origins given to the CORS middleware: one more than the
    setting has commas, so never none; no origin holds a comma or white
    space at its ends; and splitting loses nothing, joining the pieces
    with commas gives the setting back. *)
Theorem cors_origins_shape (CORS_ORIGINS : string) :
  length (cors_origins CORS_ORIGINS) = S (StrOps.count "," CORS_ORIGINS)
  ∧ Forall (λ origin, PyStr.contains "," origin = false
                      ∧ PyStr.strip origin = origin)
      (cors_origins CORS_ORIGINS)
  ∧ StrOps.join "," (StrOps.split "," CORS_ORIGINS) = CORS_ORIGINS.
Proof.
  unfold cors_origins. split_and!.
  - by rewrite length_fmap, split_length.
  - apply Forall_fmap.
    eapply Forall_impl; [apply split_no_separator |].
    intros w Hw. simpl. split; [by apply contains_strip | apply strip_strip].
  - apply join_split.
Qed.

End Normalization.

(** ** The check of the database URL *)

Section DatabaseUrl.

(** A URL with the asyncpg scheme is not empty and does not start with
    the [psql] command. *)
Lemma asyncpg_scheme_first_checks (v : string) :
  StrOps.startswith "postgresql+asyncpg://" v = true →
  PyStr.is_empty v = false ∧ StrOps.startswith "psql " v = false.
Proof.
  intros Hscheme.
  destruct v as [| c1 v]; [done |].
  cbn [StrOps.startswith] in Hscheme.
  apply andb_true_iff in Hscheme as [Hc1 Hscheme].
  destruct v as [| c2 v]; [done |].
  cbn [StrOps.startswith] in Hscheme.
  apply andb_true_iff in Hscheme as [Hc2 _].
  apply Ascii.eqb_eq in Hc1 as <-. apply Ascii.eqb_eq in Hc2 as <-. done.
Qed.

(** X12. [validate_database_url] accepts a URL exactly when it starts
    with the scheme [postgresql+asyncpg://], holds no quote of either
    kind, and names neither [sslmode=] nor [channel_binding=]; what it
    accepts it returns unchanged. The checks for an empty value and for a
    pasted [psql] command only choose the message. *)
Theorem validate_database_url_accepts (v v' : string) :
  validate_database_url v = Accepted v'
  ↔ v' = v
    ∧ StrOps.startswith "postgresql+asyncpg://" v = true
    ∧ PyStr.contains "'" v = false
    ∧ PyStr.contains dquote v = false
    ∧ StrOps.infix "sslmode=" v = false
    ∧ StrOps.infix "channel_binding=" v = false.
Proof.
  unfold validate_database_url. split.
  - destruct (PyStr.is_empty v); [done |].
    destruct (StrOps.startswith "psql " v); [done |].
    destruct (PyStr.contains "'" v); [done |].
    destruct (PyStr.contains dquote v); [done |].
    cbv beta iota delta [negb orb].
    destruct (StrOps.startswith "postgresql+asyncpg://" v); [| done].
    cbv beta iota delta [negb orb].
    destruct (StrOps.infix "sslmode=" v); [done |].
    destruct (StrOps.infix "channel_binding=" v); [done |].
    by intros [= <-].
  - intros (-> & Hscheme & Hsq & Hdq & Hssl & Hcb).
    destruct (asyncpg_scheme_first_checks v Hscheme) as [-> ->].
    by rewrite Hsq, Hdq, Hscheme, Hssl, Hcb.
Qed.

End DatabaseUrl.

(** ** Tokens from issue to resolution *)

Section TokenLife.

Context `{Collaborators}.

(** The time at which a token created at [now] expires. *)
Lemma create_access_token_inv (data : gmap string jvalue) (delta : option Z)
    (now : Z) (t : Jose.token) :
  create_access_token data delta now = Ok t →
  JWT_ALGORITHM settings ∈ Jose.SUPPORTED
  ∧ t = Jose.Signed (JWT_ALGORITHM settings) (JWT_SECRET settings)
          (<["exp" :=
               JInt (now + match delta with
                           | Some d =>
                               if d =? 0
                               then 3600 * JWT_EXPIRATION_HOURS settings
                               else d
                           | None => 3600 * JWT_EXPIRATION_HOURS settings
                           end)]> data).
Proof.
  unfold create_access_token, Jose.encode. case_bool_decide; [| done].
  intros [= <-]. split; [done |].
  destruct delta as [d |]; [| done]. by destruct (d =? 0).
Qed.

(** A token with the configured signature whose payload is a subject and
    an expiry decodes until the expiry has passed. *)
Lemma decode_token_issued (expiry now : Z) (sub : string) :
  decode_token
    (Jose.Signed (JWT_ALGORITHM settings) (JWT_SECRET settings)
       (<["exp" := JInt expiry]> {["sub" := JStr sub]})) now
  = if expiry <? now
    then Raise (HTTPException 401 "Token has expired" www_authenticate)
    else Ok (<["exp" := JInt expiry]> {["sub" := JStr sub]}).
Proof.
  destruct (expiry <? now) eqn:Hexp.
  - unfold decode_token, Jose.decode.
    rewrite bool_decide_eq_true_2 by apply list_elem_of_singleton, eq_refl.
    rewrite bool_decide_eq_true_2 by done. simpl.
    unfold Jose.validate_claims, Jose.validate_iat, Jose.validate_nbf,
      Jose.validate_exp.
    rewrite ?lookup_insert_eq, ?lookup_insert_ne, ?lookup_singleton_ne
      by done.
    simpl. by rewrite Hexp.
  - apply Z.ltb_ge in Hexp.
    exact (decode_token_signed expiry now (Some sub) Hexp).
Qed.

(** X13. A token that [create_access_token] issues for a subject is
    accepted by [decode_token], with the payload it was given plus the
    expiry, up to and including its expiry, and answered with 401 "Token
    has expired" afterwards. The lifetime is the given delta, and the
    configured hours when no delta is given or when the delta is zero. *)
Theorem access_token_lifetime (sub : string) (delta : option Z)
    (now now' : Z) (t : Jose.token) :
  create_access_token {["sub" := JStr sub]} delta now = Ok t →
  ∃ lifetime,
    lifetime = match delta with
               | Some d =>
                   if d =? 0 then 3600 * JWT_EXPIRATION_HOURS settings else d
               | None => 3600 * JWT_EXPIRATION_HOURS settings
               end
    ∧ decode_token t now'
      = if now + lifetime <? now'
        then Raise (HTTPException 401 "Token has expired" www_authenticate)
        else Ok (<["exp" := JInt (now + lifetime)]> {["sub" := JStr sub]}).
Proof.
  intros [_ ->]%create_access_token_inv.
  eexists. split; [reflexivity |]. apply decode_token_issued.
Qed.

Lemma seq_unit_ok (r k : result unit) :
  Jose.seq_unit r k = Ok tt → r = Ok tt ∧ k = Ok tt.
Proof. destruct r as [[] |]; simpl; [done | done]. Qed.

(** What a payload that [jwt.decode] returned has gone through. *)
Lemma decode_ok_inv (t : Jose.token) (key : string) (algorithm : string)
    (now : Z) (payload : gmap string jvalue) :
  Jose.decode t key [algorithm] now = Ok payload →
  t = Jose.Signed algorithm key payload
  ∧ Jose.validate_exp payload now = Ok tt
  ∧ Jose.validate_str "sub" payload = Ok tt.
Proof.
  destruct t as [raw | alg k claims]; simpl; [done |].
  case_bool_decide as Halg; simpl; [| done].
  apply list_elem_of_singleton in Halg as ->.
  case_bool_decide as Hkey; simpl; [| done]. subst k.
  destruct (Jose.validate_claims claims now) as [[] |] eqn:Hclaims; [| done].
  intros [= <-]. split; [done |].
  unfold Jose.validate_claims in Hclaims.
  apply seq_unit_ok in Hclaims as [_ Hclaims].
  apply seq_unit_ok in Hclaims as [_ Hclaims].
  apply seq_unit_ok in Hclaims as [Hexp Hclaims].
  apply seq_unit_ok in Hclaims as [_ Hclaims].
  apply seq_unit_ok in Hclaims as [Hsub _].
  done.
Qed.

Lemma decode_token_ok_inv (t : Jose.token) (now : Z)
    (payload : gmap string jvalue) :
  decode_token t now = Ok payload →
  Jose.decode t (JWT_SECRET settings) [JWT_ALGORITHM settings] now
  = Ok payload.
Proof.
  unfold decode_token.
  destruct (Jose.decode _ _ _ _) as [p | e]; [done |]. by destruct e.
Qed.

(** X14. Resolution returns an identity only for a token that carries
    the configured signature and algorithm, whose subject is a string
    that [int] reads as the key of the returned user in the store, and
    whose integer expiry, if it has one, has not passed; the store is not
    changed. *)
Theorem resolution_sound (token : Jose.token) (now : Z) (s s' : Store)
    (u : User.t) :
  get_current_user token now s = (Ok u, s') →
  ∃ claims sub n,
    token = Jose.Signed (JWT_ALGORITHM settings) (JWT_SECRET settings) claims
    ∧ claims !! "sub" = Some (JStr sub)
    ∧ PyStr.int sub = Some n
    ∧ users s !! n = Some u
    ∧ (∀ expiry, claims !! "exp" = Some (JInt expiry) → now ≤ expiry)
    ∧ s' = s.
Proof.
  rewrite get_current_user_unfold.
  destruct (decode_token token now) as [payload |] eqn:Hdecode; [| done].
  apply decode_token_ok_inv, decode_ok_inv in Hdecode as (-> & Hexp & Hsub).
  unfold Jose.validate_str in Hsub.
  destruct (payload !! "sub") as [[| b | m | sub] |] eqn:Hlookup; try done.
  simpl. destruct (PyStr.int sub) as [n |] eqn:Hint; [| done].
  destruct (users s !! n) as [u' |] eqn:Hu; [| done].
  intros [= <- <-]. exists payload, sub, n.
  split_and!; try done.
  intros expiry Hexpiry. unfold Jose.validate_exp in Hexp.
  rewrite Hexpiry in Hexp. simpl in Hexp.
  destruct (expiry <? now) eqn:Hlt; [done |]. by apply Z.ltb_ge.
Qed.

End TokenLife.

(** ** From registration to login and to the first request *)

Section AccountRoundTrips.

Context `{Collaborators}.

(** All that a successful registration did. *)
Lemma register_ok_full (user_data : UserRegister.t) (now : Z) (s s' : Store)
    (resp : AuthResponse.t) :
  register user_data now s = (Ok resp, s') →
  ∃ u,
    u = {| User.id := next_id (users s);
           User.email := UserRegister.email user_data;
           User.hashed_password :=
             hash_password (UserRegister.password user_data);
           User.created_at := now;
           User.updated_at := now |}
    ∧ users_with_email (User.email u) s = []
    ∧ s' = {| users := <[User.id u := u]> (users s); tasks := tasks s |}
    ∧ AuthResponse.user resp = UserResponse.model_validate u
    ∧ create_access_token {["sub" := JStr (PyStr.str (User.id u))]} None now
      = Ok (AuthResponse.access_token resp).
Proof.
  rewrite register_unfold.
  destruct (users_with_email _ s) as [| u [| u' l]] eqn:Hrows; simpl;
    [| done | done].
  destruct (create_access_token _ None now) as [t | e] eqn:Ht; [| done].
  intros [= <- <-]. eexists. split; [reflexivity |]. by simpl.
Qed.

Lemma UserRegister_validate_inv (body : gmap string jvalue) (e pw : string)
    (user_data : UserRegister.t) :
  body !! "email" = Some (JStr e) →
  body !! "password" = Some (JStr pw) →
  UserRegister_validate body = Ok user_data →
  EmailStr (sanitize_email e) = Some (UserRegister.email user_data)
  ∧ UserRegister.password user_data = pw
  ∧ 8 ≤ PyStr.len pw ≤ 100.
Proof.
  intros He Hpw Hv.
  split; [by eapply UserRegister_validate_email |].
  revert Hv. unfold UserRegister_validate.
  rewrite He, Hpw, email_field_sanitized.
  destruct (EmailStr (sanitize_email e)) as [e' |]; [| done].
  change (str_field (Some 8) (Some 100) <$> Some (JStr pw))
    with (Some (str_field (Some 8) (Some 100) (JStr pw))).
  destruct (str_field (Some 8) (Some 100) (JStr pw)) as [p |] eqn:Hp;
    [| done].
  apply str_field_bounds in Hp as ([= <-] & Hlo & Hhi).
  intros [= <-]. simpl. split; [done |].
  split; [by apply Hlo | by apply Hhi].
Qed.

Lemma UserLogin_validate_str (body : gmap string jvalue) (e e' pw : string) :
  body !! "email" = Some (JStr e) →
  body !! "password" = Some (JStr pw) →
  EmailStr (sanitize_email e) = Some e' →
  UserLogin_validate body
  = Ok {| UserLogin.email := e'; UserLogin.password := pw |}.
Proof.
  intros He Hpw Hstr. unfold UserLogin_validate.
  by rewrite He, Hpw, email_field_sanitized, Hstr.
Qed.

(** X15. After a registration that succeeded, a login with the same
    password and an address that sanitizes to the same text succeeds, for
    the same user and with the same subject in its token, provided the
    password check accepts a password against its own hash; a password
    that the check refuses against that hash is answered with 401. The
    login changes nothing in the store. *)
Theorem register_then_login (body body' wrong : gmap string jvalue)
    (e e' pw pw' : string) (now now' : Z) (s s1 : Store)
    (resp : AuthResponse.t) :
  body !! "email" = Some (JStr e) →
  body !! "password" = Some (JStr pw) →
  body' !! "email" = Some (JStr e') →
  body' !! "password" = Some (JStr pw) →
  wrong !! "email" = Some (JStr e') →
  wrong !! "password" = Some (JStr pw') →
  sanitize_email e' = sanitize_email e →
  verify_password pw (hash_password pw) = true →
  verify_password pw' (hash_password pw) = false →
  post_register body now s = (Ok resp, s1) →
  (∃ resp',
     post_login body' now' s1 = (Ok resp', s1)
     ∧ AuthResponse.user resp' = AuthResponse.user resp
     ∧ token_subject (AuthResponse.access_token resp')
       = token_subject (AuthResponse.access_token resp))
  ∧ post_login wrong now' s1
    = (Raise (HTTPException 401 "Incorrect email or password"
                www_authenticate), s1).
Proof.
  intros He Hpw He' Hpw' Hwe Hwpw Hsame Hverify Hrefuse.
  unfold post_register, bind, lift.
  destruct (UserRegister_validate body) as [ud |] eqn:Hv; [| done].
  destruct (UserRegister_validate_inv _ _ _ _ He Hpw Hv) as (Hstr & Hp & _).
  intros (u & Hu & Hnone & -> & Huser & Htoken)%register_ok_full.
  assert (users s !! User.id u = None) as Hfresh
    by (rewrite Hu; apply next_id_fresh).
  assert (User.email u = UserRegister.email ud) as Hemail by by rewrite Hu.
  assert (User.hashed_password u = hash_password pw) as Hhash
    by by rewrite Hu, <- Hp.
  pose proof (users_with_email_insert s u Hfresh Hnone) as Hrows.
  rewrite Hemail in Hrows. rewrite <- Hsame in Hstr.
  destruct (create_access_token_inv _ _ _ _ Htoken) as [Halg Ht].
  split.
  - unfold post_login, bind, lift.
    rewrite (UserLogin_validate_str body' e' _ pw He' Hpw' Hstr).
    rewrite login_unfold. simpl. rewrite Hrows. simpl.
    rewrite Hhash, Hverify.
    rewrite (create_access_token_default _ now' Halg).
    eexists. split; [reflexivity |]. simpl. split; [done |].
    rewrite Ht. simpl. by rewrite !lookup_insert_ne.
  - unfold post_login, bind, lift.
    rewrite (UserLogin_validate_str wrong e' _ pw' Hwe Hwpw Hstr).
    rewrite login_unfold. simpl. rewrite Hrows. simpl.
    by rewrite Hhash, Hrefuse.
Qed.

(** X16. The token of a registration resolves, until it expires, to the
    user that the registration stored and described in its response, and
    is answered with 401 "Token has expired" afterwards. The registration
    stores that one user, under a key that was free, with the hash of the
    submitted password, and touches no task. *)
Theorem register_then_resolve (body : gmap string jvalue) (e pw : string)
    (now now' : Z) (s s1 : Store) (resp : AuthResponse.t) :
  body !! "email" = Some (JStr e) →
  body !! "password" = Some (JStr pw) →
  post_register body now s = (Ok resp, s1) →
  ∃ u,
    users s !! User.id u = None
    ∧ users s1 = <[User.id u := u]> (users s)
    ∧ tasks s1 = tasks s
    ∧ UserResponse.model_validate u = AuthResponse.user resp
    ∧ User.hashed_password u = hash_password pw
    ∧ get_current_user (AuthResponse.access_token resp) now' s1
      = if now + 3600 * JWT_EXPIRATION_HOURS settings <? now'
        then (Raise (HTTPException 401 "Token has expired"
                       www_authenticate), s1)
        else (Ok u, s1).
Proof.
  intros He Hpw. unfold post_register, bind, lift.
  destruct (UserRegister_validate body) as [ud |] eqn:Hv; [| done].
  destruct (UserRegister_validate_inv _ _ _ _ He Hpw Hv) as (_ & Hp & _).
  intros (u & Hu & Hnone & -> & Huser & Htoken)%register_ok_full.
  exists u. simpl.
  split_and!; [rewrite Hu; apply next_id_fresh | done | done | done
              | by rewrite Hu, <- Hp |].
  destruct (create_access_token_inv _ _ _ _ Htoken) as [_ ->].
  rewrite get_current_user_unfold, decode_token_issued.
  destruct (_ <? now'); [done |].
  rewrite lookup_insert_ne, lookup_singleton_eq by done. simpl.
  by rewrite int_str, lookup_insert_eq.
Qed.

End AccountRoundTrips.

(** ** Whole requests *)

Section WholeRequests.

Context `{Collaborators}.

Lemma respond_unfold {A : Type} (status : Z) (wrap : A → content)
    (m : Session A) (s : Store) :
  respond status wrap m s =
  match m s with
  | (Ok a, s') =>
      (Ok {| Response.status := status; Response.body := wrap a |}, s')
  | (Raise e, s') => (Raise e, s')
  end.
Proof. unfold respond, bind, ret. by destruct (m s) as [[a | e] s']. Qed.

(** The dependency of the task routes either fails, or gives a user of
    the store; it never changes the store. *)
Lemma current_user_cases (credentials : option Jose.token) (now : Z)
    (s : Store) :
  (∃ e, current_user credentials now s = (Raise e, s))
  ∨ (∃ n u, current_user credentials now s = (Ok u, s)
            ∧ users s !! n = Some u).
Proof.
  unfold current_user, bind, lift.
  destruct credentials as [token |]; simpl; [| by eauto].
  rewrite get_current_user_unfold.
  repeat case_match; eauto.
Qed.

Lemma with_current_user {A : Type} (credentials : option Jose.token)
    (now : Z) (k : User.t → Session A) (s : Store) :
  (∃ e, bind (current_user credentials now) k s = (Raise e, s))
  ∨ (∃ n u, bind (current_user credentials now) k s = k u s
            ∧ users s !! n = Some u).
Proof.
  unfold bind.
  destruct (current_user_cases credentials now s)
    as [(e & ->) | (n & u & -> & Hu)]; [left | right]; eauto.
Qed.

Lemma post_register_raise (body : gmap string jvalue) (now : Z)
    (s s' : Store) (e : exn) :
  JWT_ALGORITHM settings ∈ Jose.SUPPORTED →
  post_register body now s = (Raise e, s') → s' = s.
Proof.
  intros Halg. unfold post_register, bind, lift.
  destruct (UserRegister_validate body) as [data |]; [| by intros [= _ <-]].
  rewrite register_unfold.
  destruct (scalar_one_or_none _) as [[u |] |]; simpl;
    [by intros [= _ <-] | | by intros [= _ <-]].
  by rewrite (create_access_token_default _ now Halg).
Qed.

Lemma post_tasks_raise (body : gmap string jvalue) (actor : User.t) (now : Z)
    (s s' : Store) (e : exn) :
  post_tasks body actor now s = (Raise e, s') → s' = s.
Proof.
  unfold post_tasks, bind, lift.
  destruct (TaskCreate.validate body) as [data |]; [done |].
  by intros [= _ <-].
Qed.

Lemma put_task_raise (task_id : Z) (body : gmap string jvalue)
    (actor : User.t) (now : Z) (s s' : Store) (e : exn) :
  put_task task_id body actor now s = (Raise e, s') → s' = s.
Proof.
  unfold put_task, bind, lift.
  destruct (TaskUpdate.validate body) as [data |]; [| by intros [= _ <-]].
  rewrite update_task_unfold. repeat case_match; by intros [= <-].
Qed.

Lemma delete_task_raise (task_id : Z) (actor : User.t) (s s' : Store)
    (e : exn) :
  delete_task task_id actor s = (Raise e, s') → s' = s.
Proof.
  rewrite delete_task_unfold. repeat case_match; by intros [= <-].
Qed.

Lemma respond_raise {A : Type} (status : Z) (wrap : A → content)
    (m : Session A) (s s' : Store) (e : exn) :
  respond status wrap m s = (Raise e, s') → m s = (Raise e, s').
Proof.
  rewrite respond_unfold. destruct (m s) as [[a | e'] s'']; [done |].
  by intros [= <- <-].
Qed.

(** X17. A request that fails leaves the store as it was, whatever the
    failure (credentials, validation, ownership, absence, duplicate
    email), when the configured algorithm is one the token library
    signs with; and the health check, login, logout, the list and the
    read of a task never change the store. *)
Theorem failed_request_changes_nothing (r : request) (now : Z) (s : Store) :
  JWT_ALGORITHM settings ∈ Jose.SUPPORTED →
  (∀ e s', serve r now s = (Raise e, s') → s' = s)
  ∧ match r with
    | GetHealth | PostLogin _ | PostLogout | GetTasks _ | GetTask _ _ =>
        (serve r now s).2 = s
    | _ => True
    end.
Proof.
  intros Halg. split.
  - intros e s'. destruct r as [| body | body | | c | c body | c k | c k body
                                | c k]; simpl.
    + done.
    + intros Hr%respond_raise. by eapply post_register_raise.
    + intros Hr%respond_raise.
      pose proof (reads_keep_store body (Jose.Garbage EmptyString) 0 now
                    alice s) as (Hlogin & _).
      rewrite Hr in Hlogin. done.
    + done.
    + destruct (with_current_user c now
                  (λ user, respond HTTP_200_OK TaskListContent
                             (get_tasks user)) s)
        as [(e' & ->) | (n & u & -> & _)]; [by intros [= _ <-] | done].
    + destruct (with_current_user c now
                  (λ user, respond HTTP_201_CREATED TaskContent
                             (post_tasks body user now)) s)
        as [(e' & ->) | (n & u & -> & _)]; [by intros [= _ <-] |].
      intros Hr%respond_raise. by eapply post_tasks_raise.
    + destruct (with_current_user c now
                  (λ user, respond HTTP_200_OK TaskContent
                             (get_task k user)) s)
        as [(e' & ->) | (n & u & -> & _)]; [by intros [= _ <-] |].
      intros Hr%respond_raise.
      pose proof (reads_keep_store ∅ (Jose.Garbage EmptyString) k now u s)
        as (_ & _ & _ & Hget).
      rewrite Hr in Hget. done.
    + destruct (with_current_user c now
                  (λ user, respond HTTP_200_OK TaskContent
                             (put_task k body user now)) s)
        as [(e' & ->) | (n & u & -> & _)]; [by intros [= _ <-] |].
      intros Hr%respond_raise. by eapply put_task_raise.
    + destruct (with_current_user c now
                  (λ user, respond HTTP_204_NO_CONTENT (λ _, NoContent)
                             (delete_task k user)) s)
        as [(e' & ->) | (n & u & -> & _)]; [by intros [= _ <-] |].
      intros Hr%respond_raise. by eapply delete_task_raise.
  - destruct r as [| body | body | | c | c body | c k | c k body | c k];
      simpl; try done.
    + rewrite respond_unfold.
      pose proof (reads_keep_store body (Jose.Garbage EmptyString) 0 now
                    alice s) as (Hlogin & _).
      destruct (post_login body now s) as [[a | e] s']; by simpl in *.
    + destruct (with_current_user c now
                  (λ user, respond HTTP_200_OK TaskListContent
                             (get_tasks user)) s)
        as [(e' & ->) | (n & u & -> & _)]; done.
    + destruct (with_current_user c now
                  (λ user, respond HTTP_200_OK TaskContent
                             (get_task k user)) s)
        as [(e' & ->) | (n & u & -> & _)]; [done |].
      rewrite respond_unfold.
      pose proof (reads_keep_store ∅ (Jose.Garbage EmptyString) k now u s)
        as (_ & _ & _ & Hget).
      destruct (get_task k u s) as [[a | e] s']; by simpl in *.
Qed.

End WholeRequests.

Section Isolation.

Context `{Collaborators}.

(** The token issued for a user of the store resolves to that user until
    it expires. *)
Lemma current_user_issued (b : User.t) (now0 now : Z) (s : Store)
    (token : Jose.token) :
  users s !! User.id b = Some b →
  create_access_token {["sub" := JStr (PyStr.str (User.id b))]} None now0
    = Ok token →
  now ≤ now0 + 3600 * JWT_EXPIRATION_HOURS settings →
  current_user (Some token) now s = (Ok b, s).
Proof.
  intros Hb [_ ->]%create_access_token_inv Hexp.
  unfold current_user, bind, lift. simpl.
  rewrite get_current_user_unfold, decode_token_issued.
  rewrite (proj2 (Z.ltb_ge _ _) Hexp).
  rewrite lookup_insert_ne, lookup_singleton_eq by done. simpl.
  by rewrite int_str, Hb.
Qed.

Lemma model_validate_inj (t1 t2 : Task.t) :
  TaskResponse.model_validate t1 = TaskResponse.model_validate t2 → t1 = t2.
Proof. destruct t1, t2. unfold TaskResponse.model_validate. simpl. congruence. Qed.

(** X18. With the token that was issued to user [b], every request on a
    task of another user is answered with 403 and changes nothing, be it
    a read, an update with a valid body or a delete; and the list that
    the token gives does not hold that task. *)
Theorem foreign_task_forbidden (b : User.t) (task : Task.t)
    (task_id now0 now : Z) (body : gmap string jvalue) (data : TaskUpdate.t)
    (token : Jose.token) (s : Store) :
  users s !! User.id b = Some b →
  tasks s !! task_id = Some task →
  Task.user_id task ≠ User.id b →
  create_access_token {["sub" := JStr (PyStr.str (User.id b))]} None now0
    = Ok token →
  now ≤ now0 + 3600 * JWT_EXPIRATION_HOURS settings →
  TaskUpdate.validate body = Ok data →
  serve (GetTask (Some token) task_id) now s
    = (Raise (HTTPException 403 "Not authorized to access this task" []), s)
  ∧ serve (PutTask (Some token) task_id body) now s
    = (Raise (HTTPException 403 "Not authorized to update this task" []), s)
  ∧ serve (DeleteTask (Some token) task_id) now s
    = (Raise (HTTPException 403 "Not authorized to delete this task" []), s)
  ∧ ∃ l, serve (GetTasks (Some token)) now s
         = (Ok {| Response.status := 200;
                  Response.body := TaskListContent l |}, s)
         ∧ TaskResponse.model_validate task ∉ TaskList.tasks l.
Proof.
  intros Hb Htask Hforeign Htoken Hexp Hbody.
  pose proof (current_user_issued b now0 now s token Hb Htoken Hexp) as Hcu.
  split_and!.
  - simpl. unfold bind at 1. rewrite Hcu, respond_unfold, get_task_unfold.
    rewrite Htask. by rewrite bool_decide_eq_false_2.
  - simpl. unfold bind at 1. rewrite Hcu, respond_unfold.
    unfold put_task, bind, lift. rewrite Hbody, update_task_unfold.
    rewrite Htask. by rewrite bool_decide_eq_false_2.
  - simpl. unfold bind at 1. rewrite Hcu, respond_unfold, delete_task_unfold.
    rewrite Htask. by rewrite bool_decide_eq_false_2.
  - simpl. unfold bind at 1. rewrite Hcu, respond_unfold.
    eexists. split; [reflexivity |]. simpl.
    intros (t & Heq & (k & Hk & Hu)%elem_of_select_tasks_by_user)
      %list_elem_of_fmap.
    apply model_validate_inj in Heq as <-. done.
Qed.

Lemma respond_store {A : Type} (status : Z) (wrap : A → content)
    (m : Session A) (s : Store) :
  (respond status wrap m s).2 = (m s).2.
Proof. rewrite respond_unfold. by destruct (m s) as [[a | e] s']. Qed.

Lemma post_tasks_owner_exists (body : gmap string jvalue) (actor : User.t)
    (now : Z) (s : Store) :
  is_Some (users s !! User.id actor) →
  owners_exist s → owners_exist (post_tasks body actor now s).2.
Proof.
  intros Hactor Hok. unfold post_tasks, bind, lift.
  destruct (TaskCreate.validate body) as [data |]; [| done].
  rewrite create_task_unfold. simpl.
  apply map_Forall_insert_2; done.
Qed.

Lemma put_task_owner_exists (task_id : Z) (body : gmap string jvalue)
    (actor : User.t) (now : Z) (s : Store) :
  owners_exist s → owners_exist (put_task task_id body actor now s).2.
Proof.
  intros Hok. unfold put_task, bind, lift.
  destruct (TaskUpdate.validate body) as [data |]; [| done].
  rewrite update_task_unfold.
  destruct (tasks s !! task_id) as [old |] eqn:Hold; [| done].
  case_bool_decide; [| done]. simpl.
  apply map_Forall_insert_2; [| done]. simpl. by apply (Hok _ _ Hold).
Qed.

Lemma delete_task_owner_exists (task_id : Z) (actor : User.t) (s : Store) :
  owners_exist s → owners_exist (delete_task task_id actor s).2.
Proof.
  intros Hok. rewrite delete_task_unfold.
  destruct (tasks s !! task_id) as [old |]; [| done].
  case_bool_decide; [| done]. simpl. by apply map_Forall_delete.
Qed.

Lemma post_register_keeps_tasks (body : gmap string jvalue) (now : Z)
    (s : Store) :
  tasks (post_register body now s).2 = tasks s
  ∧ ∀ k, is_Some (users s !! k) →
         is_Some (users (post_register body now s).2 !! k).
Proof.
  unfold post_register, bind, lift.
  destruct (UserRegister_validate body) as [data |]; [| done].
  rewrite register_unfold.
  destruct (scalar_one_or_none _) as [[u |] |]; simpl; [done | | done].
  destruct (create_access_token _ None now); simpl;
    (split; [done |]; intros k Hk; apply lookup_insert_is_Some';
     by right).
Qed.

(** One request keeps all the invariants of the store. *)
Lemma serve_keeps_invariants (r : request) (now : Z) (s : Store) :
  store_ok s ∧ texts_ok s ∧ owners_exist s →
  store_ok (serve r now s).2
  ∧ texts_ok (serve r now s).2
  ∧ owners_exist (serve r now s).2.
Proof.
  intros (Hok & Htext & Hown).
  destruct r as [| body | body | | c | c body | c k | c k body | c k]; simpl.
  - done.
  - rewrite respond_store.
    destruct (post_register_keeps_tasks body now s) as [Htasks Husers].
    split_and!; [by apply post_register_ok | |].
    + unfold texts_ok. by rewrite Htasks.
    + unfold owners_exist. rewrite Htasks.
      intros i t Hi. by apply Husers, (Hown i t).
  - rewrite respond_store.
    pose proof (reads_keep_store body (Jose.Garbage EmptyString) 0 now
                  alice s) as (-> & _). done.
  - done.
  - destruct (with_current_user c now
                (λ user, respond HTTP_200_OK TaskListContent
                           (get_tasks user)) s)
      as [(e' & ->) | (n & u & -> & _)]; done.
  - destruct (with_current_user c now
                (λ user, respond HTTP_201_CREATED TaskContent
                           (post_tasks body user now)) s)
      as [(e' & ->) | (n & u & -> & Hu)]; [done |].
    rewrite respond_store.
    split_and!; [by apply post_tasks_ok | by apply post_tasks_texts_ok |].
    apply post_tasks_owner_exists; [| done].
    destruct Hok as (Hwf & _). rewrite (Hwf _ _ Hu). eauto.
  - destruct (with_current_user c now
                (λ user, respond HTTP_200_OK TaskContent
                           (get_task k user)) s)
      as [(e' & ->) | (n & u & -> & _)]; [done |].
    rewrite respond_store.
    pose proof (reads_keep_store ∅ (Jose.Garbage EmptyString) k now u s)
      as (_ & _ & _ & ->). done.
  - destruct (with_current_user c now
                (λ user, respond HTTP_200_OK TaskContent
                           (put_task k body user now)) s)
      as [(e' & ->) | (n & u & -> & _)]; [done |].
    rewrite respond_store.
    split_and!; [by apply put_task_ok | by apply put_task_texts_ok
                | by apply put_task_owner_exists].
  - destruct (with_current_user c now
                (λ user, respond HTTP_204_NO_CONTENT (λ _, NoContent)
                           (delete_task k user)) s)
      as [(e' & ->) | (n & u & -> & _)]; [done |].
    rewrite respond_store.
    split_and!; [by apply delete_task_ok | by apply delete_task_texts_ok
                | by apply delete_task_owner_exists].
Qed.

(** X19. In every store that a sequence of requests reaches from the
    empty store, whatever the requests and their outcomes: each row is
    stored under its own id, no two users share an email, every stored
    title and description is within the bounds of the schemas and free of
    markup characters, and every task belongs to a user of the store. *)
Theorem reachable_store_invariants (requests : list (request * Z)) :
  store_ok (run requests empty_store)
  ∧ texts_ok (run requests empty_store)
  ∧ owners_exist (run requests empty_store).
Proof.
  assert (store_ok empty_store ∧ texts_ok empty_store
          ∧ owners_exist empty_store) as Hinit.
  { split_and!; [apply empty_store_ok | apply map_Forall_empty
                | apply map_Forall_empty]. }
  revert Hinit. generalize empty_store.
  induction requests as [| [r now] requests IH]; intros s Hs; [done |].
  simpl. by apply IH, serve_keeps_invariants.
Qed.

End Isolation.

(** ** What a create accepts, and how resolution can fail *)

Section Acceptance.

Context `{Collaborators}.

(** X20. A create is accepted exactly when the title is a string whose
    sanitized form has 1 to 255 characters and the description is absent,
    null, or a string whose sanitized form has at most 1000 characters:
    the limits apply to the text after stripping and escaping. Any other
    body is answered with the validation error and the store stays as it
    was. *)
Theorem create_accepts_iff (body : gmap string jvalue) (actor : User.t)
    (now : Z) (s : Store) :
  ((∃ r s', post_tasks body actor now s = (Ok r, s'))
   ↔ (∃ title, body !! "title" = Some (JStr title)
               ∧ 1 ≤ PyStr.len (sanitize_string title) ≤ 255)
     ∧ (body !! "description" = None
        ∨ body !! "description" = Some JNull
        ∨ ∃ d, body !! "description" = Some (JStr d)
               ∧ PyStr.len (sanitize_string d) ≤ 1000))
  ∧ (∀ e s', post_tasks body actor now s = (Raise e, s') →
       e = RequestValidationError ∧ s' = s).
Proof.
  unfold post_tasks, bind, lift, TaskCreate.validate, required_str_field,
    optional_str_field.
  destruct (body !! "title") as [[| b | n | title] |];
    try (split; [split; [by intros (? & ? & ?) | by intros [(? & ? & ?) _]]
                | by intros e s' [= <- <-]]).
  change (before_str sanitize_string (JStr title))
    with (JStr (sanitize_string title)).
  rewrite str_field_JStr.
  case_bool_decide as Htitle;
    [| split; [split; [by intros (? & ? & ?)
                      | intros [(? & [= <-] & ?) _]; done]
              | by intros e s' [= <- <-]]].
  destruct (body !! "description") as [[| b | n | d] |]; cbn [before_str].
  - split; [| done]. split; [intros _ | by eauto]. split; eauto.
  - simpl. split; [| by intros e s' [= <- <-]].
    split; [by intros (? & ? & ?) |].
    intros [_ [? | [? | (? & ? & ?)]]]; done.
  - simpl. split; [| by intros e s' [= <- <-]].
    split; [by intros (? & ? & ?) |].
    intros [_ [? | [? | (? & ? & ?)]]]; done.
  - rewrite str_field_max_JStr. case_bool_decide as Hd.
    + split; [| done]. split; [intros _ | by eauto]. split; eauto 6.
    + split; [| by intros e s' [= <- <-]].
      split; [by intros (? & ? & ?) |].
      intros [_ [? | [? | (? & [= <-] & ?)]]]; done.
  - split; [| done]. split; [intros _ | by eauto]. split; eauto.
Qed.

Lemma seq_unit_raise (r k : result unit) (e : exn) :
  Jose.seq_unit r k = Raise e → r = Raise e ∨ k = Raise e.
Proof. destruct r as [[] | e']; simpl; [by right | by left]. Qed.

(** The exceptions that [jwt.decode] can raise. *)
Lemma validate_claims_raise (claims : gmap string jvalue) (now : Z)
    (e : exn) :
  Jose.validate_claims claims now = Raise e →
  e = JWTClaimsError ∨ e = ExpiredSignatureError ∨ e = TypeError.
Proof.
  unfold Jose.validate_claims.
  intros [Hiat | Hrest]%seq_unit_raise.
  { unfold Jose.validate_iat in Hiat.
    destruct (claims !! "iat") as [v |]; [| done].
    destruct (Jose.int_claim v) as [n | e'] eqn:Hv; [done |].
    injection Hiat as <-. apply int_claim_raise in Hv. tauto. }
  apply seq_unit_raise in Hrest as [Hnbf | Hrest].
  { unfold Jose.validate_nbf in Hnbf.
    destruct (claims !! "nbf") as [v |]; [| done].
    destruct (Jose.int_claim v) as [n | e'] eqn:Hv.
    - destruct (now <? n); [| done]. injection Hnbf as <-. by left.
    - injection Hnbf as <-. apply int_claim_raise in Hv. tauto. }
  apply seq_unit_raise in Hrest as [Hexp | Hrest].
  { unfold Jose.validate_exp in Hexp.
    destruct (claims !! "exp") as [v |]; [| done].
    destruct (Jose.int_claim v) as [n | e'] eqn:Hv.
    - destruct (n <? now); [| done]. injection Hexp as <-. by right; left.
    - injection Hexp as <-. apply int_claim_raise in Hv. tauto. }
  assert (∀ name, Jose.validate_absent name claims = Raise e →
                  e = JWTClaimsError) as Habsent.
  { intros name. unfold Jose.validate_absent.
    destruct (claims !! name); [| done]. by intros [= <-]. }
  assert (∀ name, Jose.validate_str name claims = Raise e →
                  e = JWTClaimsError) as Hstr.
  { intros name. unfold Jose.validate_str.
    destruct (claims !! name) as [[| | |] |]; try done; by intros [= <-]. }
  apply seq_unit_raise in Hrest as [Haud | Hrest]; [left; eauto |].
  apply seq_unit_raise in Hrest as [Hsub | Hrest]; [left; eauto |].
  apply seq_unit_raise in Hrest as [Hjti | Hhash]; left; eauto.
Qed.

Lemma decode_raise (t : Jose.token) (key : string) (algorithms : list string)
    (now : Z) (e : exn) :
  Jose.decode t key algorithms now = Raise e →
  e = JWTError ∨ e = JWTClaimsError ∨ e = ExpiredSignatureError
  ∨ e = TypeError.
Proof.
  destruct t as [raw | alg k claims]; simpl; [intros [= <-]; by left |].
  destruct (negb (bool_decide (alg ∈ algorithms)));
    [intros [= <-]; by left |].
  destruct (negb (bool_decide (k = key))); [intros [= <-]; by left |].
  destruct (Jose.validate_claims claims now) as [[] | e'] eqn:Hclaims;
    [done |].
  intros [= <-]. apply validate_claims_raise in Hclaims. tauto.
Qed.

(** Every failure of [decode_token] is one of its three answers, or the
    [TypeError] of a time claim that is null. *)
Lemma decode_token_raise (t : Jose.token) (now : Z) (e : exn) :
  decode_token t now = Raise e →
  (∃ detail,
     e = HTTPException 401 detail www_authenticate
     ∧ detail ∈ ["Token has expired"; "Invalid token claims";
                 "Invalid token"])
  ∨ e = TypeError.
Proof.
  unfold decode_token.
  destruct (Jose.decode _ _ _ _) as [p | e'] eqn:Hdecode; [done |].
  apply decode_raise in Hdecode as [-> | [-> | [-> | ->]]];
    intros [= <-]; [left | left | left | by right];
    eexists; (split; [reflexivity |]); set_solver.
Qed.


End Acceptance.

(** ** The further properties at concrete requests *)

(** Alice closes her task without naming title or description. *)
Lemma update_is_partial_witness :
  tasks_wf example_store
  ∧ ∃ r s',
      put_task 1 done_body alice 2000 example_store = (Ok r, s')
      ∧ TaskResponse.title r = Task.title alice_task
      ∧ TaskResponse.updated_at r = 2000.
Proof.
  assert (tasks_wf example_store) as Hwf by decide_by_compute.
  split; [exact Hwf |].
  destruct (put_task 1 done_body alice 2000 example_store) as [[r | e] s']
    eqn:Hput; [| discriminate Hput].
  exists r, s'. split; [reflexivity |].
  destruct (update_is_partial 1 done_body alice 2000 example_store s' r
              Hwf Hput)
    as (old & new & Hold & _ & _ & _ & _ & _ & Hnow & Htitle & _).
  injection Hold as <-.
  split; [exact (Htitle (or_introl eq_refl)) | exact Hnow].
Defined.

(** Alice renames and closes her task, then reads it. *)
Lemma update_then_get_witness :
  tasks_wf example_store
  ∧ ∃ r s',
      update_task 1 done_update alice 2000 example_store = (Ok r, s')
      ∧ get_task 1 alice s' = (Ok r, s').
Proof.
  assert (tasks_wf example_store) as Hwf by decide_by_compute.
  split; [exact Hwf |].
  destruct (update_task 1 done_update alice 2000 example_store)
    as [[r | e] s'] eqn:Hupdate; [| discriminate Hupdate].
  exists r, s'. split; [reflexivity |].
  exact (proj1 (update_then_get 1 done_update alice 2000 example_store s' r
                  Hwf Hupdate)).
Defined.

(** Alice deletes her task; Bob then looks for it. *)
Lemma delete_then_gone_witness :
  tasks_wf example_store
  ∧ ∃ s',
      delete_task 1 alice example_store = (Ok tt, s')
      ∧ get_task 1 bob s'
        = (Raise (HTTPException 404 "Task not found" []), s').
Proof.
  assert (tasks_wf example_store) as Hwf by decide_by_compute.
  split; [exact Hwf |].
  destruct (delete_task 1 alice example_store) as [[[] | e] s'] eqn:Hdelete;
    [| discriminate Hdelete].
  exists s'. split; [reflexivity |].
  exact (proj1 (proj2 (delete_then_gone 1 alice bob done_update 2000
                         example_store s' Hwf Hdelete))).
Defined.

(** A title without anything to escape. *)
Lemma sanitize_string_plain_witness :
  plain_text "Buy milk" ∧ sanitize_string "Buy milk" = "Buy milk".
Proof.
  assert (plain_text "Buy milk") as Hplain by decide_by_compute.
  split; [exact Hplain | exact (sanitize_string_plain "Buy milk" Hplain)].
Defined.

(** Alice posts a title with markup into the example store. *)
Lemma task_text_invariant_witness :
  texts_ok example_store
  ∧ texts_ok (post_tasks markup_body alice 2000 example_store).2.
Proof.
  assert (texts_ok example_store) as Hok by decide_by_compute.
  split; [exact Hok |].
  exact (proj1 (task_text_invariant markup_body alice 1 2000 example_store
                  Hok)).
Defined.

(** An address in capitals with spaces around it. *)
Lemma sanitize_email_normal_form_witness :
  PyStr.contains zero "  Carol@Example.COM " = false
  ∧ sanitize_email (sanitize_email "  Carol@Example.COM ")
    = sanitize_email "  Carol@Example.COM ".
Proof.
  split; [reflexivity |].
  exact (proj1 (proj2 (sanitize_email_normal_form "  Carol@Example.COM "
                         eq_refl))).
Defined.

(** The token issued for user 1 at time 1000, one day and one second
    later. *)
Lemma access_token_lifetime_witness :
  create_access_token {["sub" := JStr "1"]} None 1000 = Ok alice_token
  ∧ decode_token alice_token 87401
    = Raise (HTTPException 401 "Token has expired" www_authenticate).
Proof.
  assert (create_access_token {["sub" := JStr "1"]} None 1000
          = Ok alice_token) as Hcreate by reflexivity.
  split; [exact Hcreate |].
  destruct (access_token_lifetime "1" None 1000 87401 alice_token Hcreate)
    as (lifetime & -> & Hdecode).
  exact Hdecode.
Defined.

(** Alice's token resolves; so it carries the configured signature. *)
Lemma resolution_sound_witness :
  get_current_user alice_token 2000 example_store = (Ok alice, example_store)
  ∧ ∃ claims,
      alice_token
      = Jose.Signed (JWT_ALGORITHM settings) (JWT_SECRET settings) claims.
Proof.
  assert (get_current_user alice_token 2000 example_store
          = (Ok alice, example_store)) as Hresolve by reflexivity.
  split; [exact Hresolve |].
  destruct (resolution_sound alice_token 2000 example_store example_store
              alice Hresolve) as (claims & sub & n & Htoken & _).
  exists claims. exact Htoken.
Defined.

(** Carol registers, then logs in with her address in capitals, and once
    with a wrong password. *)
Lemma register_then_login_witness :
  verify_password "carolpassword789" (hash_password "carolpassword789")
    = true
  ∧ verify_password "not-carols-password" (hash_password "carolpassword789")
    = false
  ∧ sanitize_email "  Carol@Example.COM " = sanitize_email "carol@example.com"
  ∧ post_login carol_wrong_password 3001
      (post_register carol_body 3000 example_store).2
    = (Raise (HTTPException 401 "Incorrect email or password"
                www_authenticate),
       (post_register carol_body 3000 example_store).2).
Proof.
  assert (verify_password "carolpassword789"
            (hash_password "carolpassword789") = true) as Hverify
    by reflexivity.
  assert (verify_password "not-carols-password"
            (hash_password "carolpassword789") = false) as Hrefuse
    by reflexivity.
  assert (sanitize_email "  Carol@Example.COM "
          = sanitize_email "carol@example.com") as Hsame by reflexivity.
  split; [exact Hverify |]. split; [exact Hrefuse |]. split; [exact Hsame |].
  destruct (post_register carol_body 3000 example_store) as [[resp | e] s1]
    eqn:Hregister; [| discriminate Hregister].
  exact (proj2 (register_then_login carol_body carol_login_shouting
                  carol_wrong_password "carol@example.com"
                  "  Carol@Example.COM " "carolpassword789"
                  "not-carols-password" 3000 3001 example_store s1 resp
                  eq_refl eq_refl eq_refl eq_refl eq_refl eq_refl Hsame
                  Hverify Hrefuse Hregister)).
Defined.

(** Carol registers and uses her token a second later. *)
Lemma register_then_resolve_witness :
  ∃ resp s1 u,
    post_register carol_body 3000 example_store = (Ok resp, s1)
    ∧ get_current_user (AuthResponse.access_token resp) 3001 s1 = (Ok u, s1)
    ∧ UserResponse.model_validate u = AuthResponse.user resp.
Proof.
  destruct (post_register carol_body 3000 example_store) as [[resp | e] s1]
    eqn:Hregister; [| discriminate Hregister].
  destruct (register_then_resolve carol_body "carol@example.com"
              "carolpassword789" 3000 3001 example_store s1 resp
              eq_refl eq_refl Hregister)
    as (u & _ & _ & _ & Huser & _ & Hresolve).
  exists resp, s1, u. split; [reflexivity |].
  split; [exact Hresolve | exact Huser].
Defined.

(** A read without credentials. *)
Lemma failed_request_changes_nothing_witness :
  JWT_ALGORITHM settings ∈ Jose.SUPPORTED
  ∧ (serve (GetTask None 1) 2000 example_store).2 = example_store.
Proof.
  assert (JWT_ALGORITHM settings ∈ Jose.SUPPORTED) as Halg
    by decide_by_compute.
  split; [exact Halg |].
  exact (proj2 (failed_request_changes_nothing (GetTask None 1) 2000
                  example_store Halg)).
Defined.

(** Bob's token on Alice's task. *)
Lemma foreign_task_forbidden_witness :
  users example_store !! User.id bob = Some bob
  ∧ Task.user_id alice_task ≠ User.id bob
  ∧ create_access_token {["sub" := JStr (PyStr.str (User.id bob))]} None 1000
    = Ok bob_token
  ∧ serve (DeleteTask (Some bob_token) 1) 2000 example_store
    = (Raise (HTTPException 403 "Not authorized to delete this task" []),
       example_store).
Proof.
  assert (Task.user_id alice_task ≠ User.id bob) as Hforeign
    by (vm_compute; discriminate).
  assert (2000 ≤ 1000 + 3600 * JWT_EXPIRATION_HOURS settings) as Hexp
    by (vm_compute; discriminate).
  assert (create_access_token {["sub" := JStr (PyStr.str (User.id bob))]}
            None 1000 = Ok bob_token) as Htoken by reflexivity.
  split; [reflexivity |]. split; [exact Hforeign |]. split; [exact Htoken |].
  destruct (TaskUpdate.validate done_body) as [data | e] eqn:Hbody;
    [| discriminate Hbody].
  exact (proj1 (proj2 (proj2
    (foreign_task_forbidden bob alice_task 1 1000 2000 done_body data
       bob_token example_store eq_refl eq_refl Hforeign Htoken Hexp
       Hbody)))).
Defined.

